(** * Benedict payroll automation: report parser and rule engine

    A shallow embedding of the two core services of the repository,
    [backend/services/pdfParser.js] (both revisions of the file) and the
    rule engine ([RuleEngine], the revision that preserves branch prefixes),
    followed by the properties of the specification checked against them.

    Conventions of the embedding:
    - a JavaScript string is a [string]; the text is taken to be ASCII, so
      case mapping touches [a-z]/[A-Z] only and white space is the ASCII
      part of the class [\s] (codes 9 to 13 and 32);
    - the fields of an entry hold strings, as the parser sets them and
      [shared/types.js] declares them; [null] is [None] in the two fields
      that can hold it;
    - an object is a cell of a store addressed by its reference, so that a
      copy and an alias are different things;
    - [hours] is the decimal literal that [parseFloat] reads. *)

From Stdlib Require Import String Ascii List ZArith Bool Lia DecimalString Sorted.
From stdpp Require Import base list.
Import ListNotations.

Local Open Scope string_scope.
Local Open Scope bool_scope.

(* ================================================================== *)
(** * JavaScript string primitives *)
(* ================================================================== *)

Module JS.

Definition code (c : ascii) : nat := nat_of_ascii c.

Definition between (lo hi : nat) (c : ascii) : bool :=
  Nat.leb lo (code c) && Nat.leb (code c) hi.

(** [\d] *)
Definition isDigit (c : ascii) : bool := between 48 57 c.
(** [A-Z] *)
Definition isUpperAZ (c : ascii) : bool := between 65 90 c.
(** [a-z] *)
Definition isLowerAZ (c : ascii) : bool := between 97 122 c.
(** [\w] *)
Definition isWord (c : ascii) : bool :=
  isDigit c || isUpperAZ c || isLowerAZ c || Ascii.eqb c "_".
(** [\s], and the characters [trim] removes *)
Definition isSpace (c : ascii) : bool := between 9 13 c || Nat.eqb (code c) 32.

Definition toUpperChar (c : ascii) : ascii :=
  if isLowerAZ c then ascii_of_nat (code c - 32) else c.

Definition toLowerChar (c : ascii) : ascii :=
  if isUpperAZ c then ascii_of_nat (code c + 32) else c.

Fixpoint mapString (f : ascii -> ascii) (s : string) : string :=
  match s with
  | EmptyString => EmptyString
  | String c s' => String (f c) (mapString f s')
  end.

Definition toUpperCase (s : string) : string := mapString toUpperChar s.
Definition toLowerCase (s : string) : string := mapString toLowerChar s.

(** Truthiness of a string: only the empty string is falsy. *)
Definition truthy (s : string) : bool := negb (String.eqb s "").

(** [s.startsWith(p)] *)
Definition startsWith (p s : string) : bool := String.prefix p s.

(** [s.includes(p)] *)
Fixpoint includes (p s : string) : bool :=
  String.prefix p s
  || match s with
     | EmptyString => false
     | String _ s' => includes p s'
     end.

(** [s.endsWith(p)] *)
Fixpoint endsWith (p s : string) : bool :=
  String.eqb s p
  || match s with
     | EmptyString => false
     | String _ s' => endsWith p s'
     end.

(** [s.indexOf(p)], with [None] for -1 *)
Fixpoint indexOf (p s : string) : option nat :=
  if String.prefix p s then Some 0
  else match s with
       | EmptyString => None
       | String _ s' => option_map S (indexOf p s')
       end.

(** [s.substring(n)] *)
Fixpoint drop (n : nat) (s : string) : string :=
  match n, s with
  | S k, String _ s' => drop k s'
  | _, _ => s
  end.

(** [s.substring(0, n)] *)
Fixpoint take (n : nat) (s : string) : string :=
  match n, s with
  | S k, String c s' => String c (take k s')
  | _, _ => EmptyString
  end.

(** The longest prefix whose characters satisfy [p], and what follows it:
    a greedy [p*] that is never given back. *)
Fixpoint span (p : ascii -> bool) (s : string) : string * string :=
  match s with
  | String c s' =>
      if p c then let (a, b) := span p s' in (String c a, b) else (EmptyString, s)
  | EmptyString => (EmptyString, EmptyString)
  end.

(** As [span], taking at most [n] characters: a greedy [p{0,n}]. *)
Fixpoint spanUpTo (n : nat) (p : ascii -> bool) (s : string) : string * string :=
  match n, s with
  | S k, String c s' =>
      if p c then let (a, b) := spanUpTo k p s' in (String c a, b) else (EmptyString, s)
  | _, _ => (EmptyString, s)
  end.

Definition ltrim (s : string) : string := snd (span isSpace s).

Fixpoint rtrim (s : string) : string :=
  match s with
  | EmptyString => EmptyString
  | String c s' =>
      let r := rtrim s' in
      if isSpace c && String.eqb r "" then EmptyString else String c r
  end.

(** [s.trim()] *)
Definition trim (s : string) : string := rtrim (ltrim s).

(** [s.split(sep)] for a non-empty separator.  [skip] counts the characters
    of a separator just found that are still to be passed over, [cur] is the
    piece being collected. *)
Fixpoint splitFrom (sep : string) (skip : nat) (cur s : string) : list string :=
  match s with
  | EmptyString => [cur]
  | String c s' =>
      match skip with
      | S k => splitFrom sep k cur s'
      | O =>
          if String.prefix sep s
          then cur :: splitFrom sep (String.length sep - 1) EmptyString s'
          else splitFrom sep 0 (cur ++ String c EmptyString) s'
      end
  end.

Definition split (sep s : string) : list string := splitFrom sep 0 EmptyString s.

(** [a.join(sep)] *)
Definition join (sep : string) (a : list string) : string := String.concat sep a.

(** Every character of the string satisfies [p]. *)
Fixpoint allChars (p : ascii -> bool) (s : string) : bool :=
  match s with
  | EmptyString => true
  | String c s' => p c && allChars p s'
  end.

(** [a.push(x)] *)
Definition push {A : Type} (a : list A) (x : A) : list A := (a ++ [x])%list.

(** The double quote character, as a string. *)
Definition dquote : string := String (ascii_of_nat 34) EmptyString.

(** [a.includes(x)] on an array of strings *)
Definition arrayIncludes (a : list string) (x : string) : bool :=
  existsb (String.eqb x) a.

(** A decimal literal [mant / 10^scale], as [parseFloat] reads it from
    digits, an optional point and more digits.  JavaScript keeps the nearest
    double of this value. *)
Record Decimal : Set := { mant : N; scale : nat }.

Definition digitValue (c : ascii) : N := N.of_nat (code c - 48).

Fixpoint digitsToN (acc : N) (s : string) : N :=
  match s with
  | EmptyString => acc
  | String c s' => digitsToN (acc * 10 + digitValue c) s'
  end.

(** [parseFloat(ip + "." + fp)] for digit strings [ip] and [fp] *)
Definition parseFloat (ip fp : string) : Decimal :=
  {| mant := digitsToN (digitsToN 0 ip) fp; scale := String.length fp |}.

(** [h > 0] on the double: the nearest double of a decimal is positive
    exactly when the decimal exceeds 2^-1075, half the least subnormal
    (at the tie the double is the even one, zero). *)
Definition positive (h : Decimal) : bool :=
  N.ltb (10 ^ N.of_nat (scale h)) (mant h * 2 ^ 1075).

End JS.

(* ================================================================== *)
(** * The day of the week of a date, as moment.js gives it *)
(* ================================================================== *)

Module Moment.

Import JS.

Local Open Scope Z_scope.

Definition isLeapYear (y : Z) : bool :=
  (Z.eqb (y mod 4) 0 && negb (Z.eqb (y mod 100) 0)) || Z.eqb (y mod 400) 0.

Definition daysInMonth (y m : Z) : Z :=
  if Z.eqb m 2 then (if isLeapYear y then 29 else 28)
  else if Z.eqb m 4 || Z.eqb m 6 || Z.eqb m 9 || Z.eqb m 11 then 30
  else 31.

(** Days from 1970-01-01 to the given day of the proleptic Gregorian
    calendar. *)
Definition daysFromEpoch (y m d : Z) : Z :=
  let y' := if Z.leb m 2 then y - 1 else y in
  let era := y' / 400 in
  let yoe := y' - era * 400 in
  let mp := if Z.ltb 2 m then m - 3 else m + 9 in
  let doy := (153 * mp + 2) / 5 + d - 1 in
  let doe := yoe * 365 + yoe / 4 - yoe / 100 + doy in
  era * 146097 + doe - 719468.

(** [date.day()]: 0 is Sunday; 1970-01-01 was a Thursday. *)
Definition day (y m d : Z) : Z := (daysFromEpoch y m d + 4) mod 7.

(** The three numbers of a string of the shape [\d{1,2}/\d{1,2}/\d{4}]. *)
Definition readMDY (s : string) : option (Z * Z * Z) :=
  let (ms, r1) := spanUpTo 2 isDigit s in
  match r1 with
  | String "/" r2 =>
      let (ds, r3) := spanUpTo 2 isDigit r2 in
      match r3 with
      | String "/" r4 =>
          let (ys, r5) := spanUpTo 4 isDigit r4 in
          if truthy ms && truthy ds && Nat.eqb (String.length ys) 4 && String.eqb r5 ""
          then Some (Z.of_N (digitsToN 0 ms), Z.of_N (digitsToN 0 ds), Z.of_N (digitsToN 0 ys))
          else None
      | _ => None
      end
  | _ => None
  end.

(** Modelled from the spec: the day of the week of the entry's date, which
    the source asks of moment.js, a library outside the repository:
    [moment(s, 'MM/DD/YYYY')] followed by [isValid() && day() === 0], on
    the dates the parser emits (one or two digits, a slash, one or two
    digits, a slash, four digits).  The date is valid when month and day
    exist in that year.  Other strings are answered [false] here; the rule
    engine below takes the test as a parameter and is stated for any. *)
Definition isSundayMDY (s : string) : bool :=
  match readMDY s with
  | Some (m, d, y) =>
      Z.leb 1 m && Z.leb m 12 && Z.leb 1 d && Z.leb d (daysInMonth y m)
      && Z.eqb (day y m d) 0
  | None => false
  end.

End Moment.

(* ================================================================== *)
(** * Data model *)
(* ================================================================== *)

(** What the extraction of one entry yields, before the employee is known. *)
Record RawEntry : Set := mkRawEntry {
  rawJobCode : string;
  rawJobDescription : string;
  rawDate : string;
  rawHours : JS.Decimal;
  rawPayType : string;
  rawLaborRate : string;
  rawCostCode : string;
  rawCostCategory : string;
  rawDescription : string;
  rawOriginalLine : string
}.

(** A time entry (the [EmployeeEntry] of [shared/types.js]). *)
Record Entry : Set := mkEntry {
  jobCode : string;
  jobDescription : string;
  date : string;
  hours : JS.Decimal;
  payType : string;
  laborRate : string;
  costCode : string;
  costCategory : string;
  description : string;
  originalLine : string;
  employeeName : string;
  employeeId : string;
  payPeriodId : option string;
  reportDate : option string
}.

(** [entry.payType = v] *)
Definition setPayType (v : string) (e : Entry) : Entry :=
  mkEntry (jobCode e) (jobDescription e) (date e) (hours e) v (laborRate e)
          (costCode e) (costCategory e) (description e) (originalLine e)
          (employeeName e) (employeeId e) (payPeriodId e) (reportDate e).

(** [entry.laborRate = v] *)
Definition setLaborRate (v : string) (e : Entry) : Entry :=
  mkEntry (jobCode e) (jobDescription e) (date e) (hours e) (payType e) v
          (costCode e) (costCategory e) (description e) (originalLine e)
          (employeeName e) (employeeId e) (payPeriodId e) (reportDate e).

(** A change record (the [PayrollChange] of [shared/types.js]). *)
Record Change : Set := mkChange {
  chEmployeeName : string;
  chEmployeeId : string;
  chDate : string;
  chField : string;
  originalValue : string;
  correctedValue : string;
  chRule : string;
  chDescription : string
}.

(** [e'] is [e] up to its [payType] and [laborRate]. *)
Definition assignsOnly (e e' : Entry) : Prop :=
  e' = setLaborRate (laborRate e') (setPayType (payType e') e).

(** A change record whose two values differ. *)
Definition realChange (c : Change) : Prop :=
  originalValue c <> correctedValue c.

(** The object store: a reference is the index of its cell, objects are
    never freed. *)
Definition ref : Set := nat.
Definition Store : Set := list Entry.

(** A computation on the store; [None] stands for the use of a reference
    that does not exist, which no JavaScript program can hold. *)
Definition M (A : Type) : Type := Store -> option (A * Store).

#[global] Instance M_ret : MRet M := fun A a σ => Some (a, σ).

#[global] Instance M_bind : MBind M := fun A B k m σ =>
  match m σ with
  | Some (a, σ') => k a σ'
  | None => None
  end.

(** Read the object behind a reference. *)
Definition load (r : ref) : M Entry :=
  fun σ => match σ !! r with
           | Some e => Some (e, σ)
           | None => None
           end.

(** Assign to the fields of the object behind a reference. *)
Definition store (r : ref) (e : Entry) : M unit :=
  fun σ => match σ !! r with
           | Some _ => Some (tt, <[r := e]> σ)
           | None => None
           end.

(** Create an object. *)
Definition alloc (e : Entry) : M ref :=
  fun σ => Some (length σ, (σ ++ [e])%list).

(* ================================================================== *)
(** * The rule engine *)
(* ================================================================== *)

Module RuleEngine.

Import JS.

Definition SERVICE_INSTALL_LABOR_RATES : list string :=
  [ "Tech"; "TechNB"; "MNTech"; "MN TECH"; "SCH_MNTECH"; "SCH_TECH";
    "SCHTECHNB"; "WN MN TECH"; "WN TECH"; "WN TECHNB";
    "TechOT"; "TECHOT"; "MNTECHOT"; "MN TECHOT"; "SCH_TECHOT";
    "SCH_MNTECHOT"; "WN TECHOT"; "WN MN TECHOT"; "WN MNTECHOT";
    "HELPER"; "MN HELPER"; "SCH_HELPER"; "WN HELPER";
    "HELPEROT"; "MN HELPEROT"; "SCH_HELPEROT"; "WN HELPEROT";
    "HELPOT"; "MN HELPOT"; "SCH_HELPOT"; "WN HELPOT";
    "SHOP"; "SCH_SHOP"; "WN SHOP" ].

Definition PM_LABOR_RATES : list string :=
  [ "MN PMTECH"; "PMTECH"; "TechNB"; "Sch MN PM Tech";
    "SCH_MN PMTECH"; "SCH_PMTECH"; "WN MN PM TECH"; "WN PM TECH";
    "WN PMTECH"; "PM TECH LABOR" ].

Definition OFFICE_COST_CODES : list string := [ "1COAD"; "1SCHOF"; "1WNOF" ].

(** The change record every rule pushes: name, id and date of the entry,
    then the field, both values, the rule and its description. *)
Definition change (entry : Entry) (field orig corr rule descr : string) : Change :=
  mkChange (employeeName entry) (employeeId entry) (date entry)
           field orig corr rule descr.

Section Rules.

(** [moment(d, 'MM/DD/YYYY')] then [isValid() && day() === 0] *)
Variable isSunday : string -> bool.

(** Rule 1: cost category TechUnapplyd requires pay type Unapplied. *)
Definition applyRule1_TechUnapplied (entry : Entry) (changes : list Change)
  : Entry * list Change :=
  if String.eqb (costCategory entry) "TechUnapplyd"
     && negb (String.eqb (payType entry) "Unapplied")
  then (setPayType "Unapplied" entry,
        push changes (change entry "payType" (payType entry) "Unapplied"
                      "Rule 1: TechUnapplied → Unapplied Pay Type"
                      "Cost Category is TechUnapplyd, so Pay Type must be Unapplied"))
  else (entry, changes).

(** Rule 2: Service/Install cost codes require an approved labor rate. *)
Definition applyRule2_ServiceInstallRates (entry : Entry) (changes : list Change)
  : Entry * list Change :=
  let costCode := toUpperCase (costCode entry) in
  if (String.eqb costCode "SERVICE" || String.eqb costCode "INSTALL")
     && negb (arrayIncludes SERVICE_INSTALL_LABOR_RATES (laborRate entry))
  then
    let correctedRate := "Tech" in
    (setLaborRate correctedRate entry,
     push changes (change entry "laborRate" (laborRate entry) correctedRate
                   "Rule 2: Service/Install Labor Rate Validation"
                   ("Cost Code is " ++ costCode ++ ", Labor Rate must be one of: "
                    ++ join ", " SERVICE_INSTALL_LABOR_RATES)))
  else (entry, changes).

(** Rule 3: PM/PMF/FTPM cost codes require an approved PM labor rate. *)
Definition applyRule3_PMRates (entry : Entry) (changes : list Change)
  : Entry * list Change :=
  let costCode := toUpperCase (costCode entry) in
  if arrayIncludes ["PM"; "PMF"; "FTPM"] costCode
     && negb (arrayIncludes PM_LABOR_RATES (laborRate entry))
  then
    let correctedRate := "PMTECH" in
    (setLaborRate correctedRate entry,
     push changes (change entry "laborRate" (laborRate entry) correctedRate
                   "Rule 3: PM Labor Rate Validation"
                   ("Cost Code is " ++ costCode ++ ", Labor Rate must be one of: "
                    ++ join ", " PM_LABOR_RATES)))
  else (entry, changes).

(** The PREM variant that keeps the geographic prefix of an upper-cased
    rate (the [correctedRate] of rule 4). *)
Definition premRate (currentRate : string) : string :=
  if startsWith "WN " currentRate then "WN PREM"
  else if startsWith "SCH_" currentRate || startsWith "SCH " currentRate then "SCH PREM"
  else if startsWith "MN " currentRate || startsWith "MNTECH" currentRate then "MN PREM"
  else "PREM".

(** Rule 4: Sunday work gets Double Time and a PREM labor rate. *)
Definition applyRule4_SundayPremium (entry : Entry) (changes : list Change)
  : Entry * list Change :=
  if isSunday (date entry) then
    let '(entry1, changes1) :=
      if negb (String.eqb (payType entry) "Double Time")
      then (setPayType "Double Time" entry,
            push changes (change entry "payType" (payType entry) "Double Time"
                          "Rule 4: Sunday Premium Pay"
                          "Work on Sunday requires Double Time pay type"))
      else (entry, changes) in
    if negb (truthy (laborRate entry1))
       || negb (includes "PREM" (toUpperCase (laborRate entry1)))
    then
      let currentRate :=
        if truthy (laborRate entry1) then toUpperCase (laborRate entry1) else "" in
      let correctedRate := premRate currentRate in
      (setLaborRate correctedRate entry1,
       push changes1 (change entry1 "laborRate" (laborRate entry1) correctedRate
                      "Rule 4: Sunday Premium Rate"
                      "Work on Sunday requires PREM labor rate"))
    else (entry1, changes1)
  else (entry, changes).

(** The overtime variant that keeps the geographic prefix of an
    upper-cased rate (the [correctedRate] of rule 5). *)
Definition callRate (currentRate : string) : string :=
  if startsWith "WN MN " currentRate then "WN MN TECHOT"
  else if startsWith "WN " currentRate then "WN TECHOT"
  else if startsWith "SCH_MN" currentRate then "SCH_MNTECHOT"
  else if startsWith "SCH_" currentRate || startsWith "SCH " currentRate then "SCH_TECHOT"
  else if startsWith "MN " currentRate || String.eqb currentRate "MNTECH" then "MN TECHOT"
  else if String.eqb currentRate "TECH" then "TechOT"
  else if includes "HELPER" currentRate then
    (if startsWith "WN " currentRate then "WN HELPEROT"
     else if startsWith "SCH" currentRate then "SCH_HELPEROT"
     else if startsWith "MN " currentRate then "MN HELPEROT"
     else "HELPEROT")
  else "TechOT".

(** Rule 5: Call pay type requires an overtime labor rate. *)
Definition applyRule5_CallWork (entry : Entry) (changes : list Change)
  : Entry * list Change :=
  if String.eqb (payType entry) "Call" then
    let currentRate :=
      if truthy (laborRate entry) then toUpperCase (laborRate entry) else "" in
    if includes "OT" currentRate then (entry, changes)
    else
      let correctedRate := callRate currentRate in
      if negb (String.eqb (laborRate entry) correctedRate)
      then (setLaborRate correctedRate entry,
            push changes (change entry "laborRate" (laborRate entry) correctedRate
                          "Rule 5: Call Work Labor Rate"
                          "Call pay type requires overtime labor rate"))
      else (entry, changes)
  else (entry, changes).

(** The no-bill variant of a rate, the rate itself when it has none (the
    [correctedRate] of rule 6). *)
Definition noBillRate (currentRate : string) : string :=
  let upper := toUpperCase currentRate in
  if startsWith "WN " upper then
    (if String.eqb upper "WN TECH" then "WN TECHNB"
     else if String.eqb upper "WN MN TECH" then "WN MN TECHNB"
     else if String.eqb upper "WN PM TECH" then "WN PM TECHNB"
     else currentRate)
  else if startsWith "SCH" upper then
    (if String.eqb upper "SCH_TECH" then "SCHTECHNB"
     else if String.eqb upper "SCH_MNTECH" then "SCH_MNTECHNB"
     else if String.eqb upper "SCH_PMTECH" then "SCH_PMTECHNB"
     else currentRate)
  else if String.eqb upper "TECH" then "TechNB"
  else if String.eqb upper "MNTECH" then "MNTechNB"
  else if String.eqb upper "PMTECH" then "PMTECHNB"
  else if String.eqb upper "MN PMTECH" then "MN PMTECHNB"
  else currentRate.

(** Rule 6: a description mentioning "No Bill" asks for an NB labor rate. *)
Definition applyRule6_NoBillDetection (entry : Entry) (changes : list Change)
  : Entry * list Change :=
  if truthy (description entry)
     && includes "no bill" (toLowerCase (description entry))
  then
    let currentRate := laborRate entry in
    if negb (truthy currentRate) || endsWith "NB" (toUpperCase currentRate)
    then (entry, changes)
    else
      let correctedRate := noBillRate currentRate in
      if negb (String.eqb correctedRate currentRate)
      then (setLaborRate correctedRate entry,
            push changes (change entry "laborRate" currentRate correctedRate
                          "Rule 6: No Bill Detection"
                          ("Description contains " ++ dquote ++ "No Bill" ++ dquote
                           ++ " - adding NB suffix to labor rate")))
      else (entry, changes)
  else (entry, changes).

(** Rule 7: office cost codes always get the Regular pay type. *)
Definition applyRule7_OfficeOverride (entry : Entry) (changes : list Change)
  : Entry * list Change :=
  let costCode := toUpperCase (costCode entry) in
  if arrayIncludes OFFICE_COST_CODES costCode
     && negb (String.eqb (payType entry) "Regular")
  then (setPayType "Regular" entry,
        push changes (change entry "payType" (payType entry) "Regular"
                      "Rule 7: Office Override"
                      ("Office cost code " ++ costCode ++ " requires Regular pay type")))
  else (entry, changes).

(** The seven rules in their fixed order, on one object and one list of
    changes. *)
Definition ruleSequence : list (Entry -> list Change -> Entry * list Change) :=
  [ applyRule1_TechUnapplied; applyRule2_ServiceInstallRates; applyRule3_PMRates;
    applyRule4_SundayPremium; applyRule5_CallWork; applyRule6_NoBillDetection;
    applyRule7_OfficeOverride ].

(** A rule called on the object behind [entry]: the object is read, the
    rule assigns to its fields, and the caller's array of changes grows. *)
Definition callRule (rule : Entry -> list Change -> Entry * list Change)
    (entry : ref) (changes : list Change) : M (list Change) :=
  e ← load entry;
  let (e', changes') := rule e changes in
  _ ← store entry e';
  mret changes'.

(** The body of the loop of [applyRules]: copy the entry, run the seven
    rules on the copy, hand back the copy and its changes. *)
Definition correctEntry (entry : ref) : M (ref * list Change) :=
  e ← load entry;
  correctedEntry ← alloc e;
  let entryChanges := [] in
  entryChanges ← callRule applyRule1_TechUnapplied correctedEntry entryChanges;
  entryChanges ← callRule applyRule2_ServiceInstallRates correctedEntry entryChanges;
  entryChanges ← callRule applyRule3_PMRates correctedEntry entryChanges;
  entryChanges ← callRule applyRule4_SundayPremium correctedEntry entryChanges;
  entryChanges ← callRule applyRule5_CallWork correctedEntry entryChanges;
  entryChanges ← callRule applyRule6_NoBillDetection correctedEntry entryChanges;
  entryChanges ← callRule applyRule7_OfficeOverride correctedEntry entryChanges;
  mret (correctedEntry, entryChanges).

Fixpoint applyRulesLoop (employeeData : list ref)
    (correctedData : list ref) (changes : list Change)
  : M (list ref * list Change) :=
  match employeeData with
  | [] => mret (correctedData, changes)
  | entry :: rest =>
      '(correctedEntry, entryChanges) ← correctEntry entry;
      applyRulesLoop rest (push correctedData correctedEntry)
                     (changes ++ entryChanges)%list
  end.

(** [applyRules(employeeData)]: the references of the corrected copies and
    the changes, entry by entry. *)
Definition applyRules (employeeData : list ref) : M (list ref * list Change) :=
  applyRulesLoop employeeData [] [].

(** [validateEntry(entry)] on the fields of the entry. *)
Definition issuesOf (entry : Entry) : list string :=
  let issues := [] in
  let issues :=
    if String.eqb (costCategory entry) "TechUnapplyd"
       && negb (String.eqb (payType entry) "Unapplied")
    then push issues "Cost Category is TechUnapplyd but Pay Type is not Unapplied"
    else issues in
  let costCode := toUpperCase (costCode entry) in
  let issues :=
    if (String.eqb costCode "SERVICE" || String.eqb costCode "INSTALL")
       && negb (arrayIncludes SERVICE_INSTALL_LABOR_RATES (laborRate entry))
    then push issues ("Service/Install work requires approved labor rate, got: "
                      ++ laborRate entry)
    else issues in
  let issues :=
    if arrayIncludes ["PM"; "PMF"; "FTPM"] costCode
       && negb (arrayIncludes PM_LABOR_RATES (laborRate entry))
    then push issues ("PM work requires approved labor rate, got: " ++ laborRate entry)
    else issues in
  let issues :=
    if isSunday (date entry) then
      let issues :=
        if negb (String.eqb (payType entry) "Double Time")
        then push issues "Sunday work requires Double Time pay type"
        else issues in
      let currentRate :=
        if truthy (laborRate entry) then toUpperCase (laborRate entry) else "" in
      if negb (includes "PREM" currentRate)
      then push issues "Sunday work requires PREM labor rate"
      else issues
    else issues in
  let issues :=
    if String.eqb (payType entry) "Call" then
      let currentRate :=
        if truthy (laborRate entry) then toUpperCase (laborRate entry) else "" in
      if negb (includes "OT" currentRate)
      then push issues "Call work requires overtime labor rate"
      else issues
    else issues in
  let issues :=
    if truthy (description entry)
       && includes "no bill" (toLowerCase (description entry))
    then
      let currentRate := laborRate entry in
      if truthy currentRate && negb (endsWith "NB" (toUpperCase currentRate))
      then push issues ("Description contains " ++ dquote ++ "No Bill" ++ dquote
                        ++ " but labor rate lacks NB suffix")
      else issues
    else issues in
  let issues :=
    if arrayIncludes OFFICE_COST_CODES costCode
       && negb (String.eqb (payType entry) "Regular")
    then push issues ("Office cost code " ++ costCode ++ " requires Regular pay type")
    else issues in
  issues.

(** [validateEntry(entry)]: the object behind [entry] is read, nothing is
    assigned. *)
Definition validateEntry (entry : ref) : M (list string) :=
  e ← load entry;
  mret (issuesOf e).

(** The conditions under which the rules assign, as the source tests
    them on the entry a rule is handed. *)
Definition fires1 (e : Entry) : bool :=
  String.eqb (costCategory e) "TechUnapplyd"
  && negb (String.eqb (payType e) "Unapplied").

Definition fires2 (e : Entry) : bool :=
  (String.eqb (toUpperCase (costCode e)) "SERVICE"
   || String.eqb (toUpperCase (costCode e)) "INSTALL")
  && negb (arrayIncludes SERVICE_INSTALL_LABOR_RATES (laborRate e)).

Definition fires3 (e : Entry) : bool :=
  arrayIncludes ["PM"; "PMF"; "FTPM"] (toUpperCase (costCode e))
  && negb (arrayIncludes PM_LABOR_RATES (laborRate e)).

Definition fires4 (e : Entry) : bool :=
  isSunday (date e)
  && (negb (String.eqb (payType e) "Double Time")
      || negb (includes "PREM" (toUpperCase (laborRate e)))).

Definition fires5 (e : Entry) : bool :=
  String.eqb (payType e) "Call"
  && negb (includes "OT" (toUpperCase (laborRate e))).

(** Rule 6 is concerned: a no-bill description and a rate without NB. *)
Definition concerns6 (e : Entry) : bool :=
  truthy (description e)
  && includes "no bill" (toLowerCase (description e))
  && truthy (laborRate e)
  && negb (endsWith "NB" (toUpperCase (laborRate e))).

Definition fires6 (e : Entry) : bool :=
  concerns6 e && negb (String.eqb (noBillRate (laborRate e)) (laborRate e)).

Definition fires7 (e : Entry) : bool :=
  arrayIncludes OFFICE_COST_CODES (toUpperCase (costCode e))
  && negb (String.eqb (payType e) "Regular").

Definition firesAll : list (Entry -> bool) :=
  [ fires1; fires2; fires3; fires4; fires5; fires6; fires7 ].

(** The issue [validateEntry] reports for rule 6. *)
Definition noBillIssue : string :=
  "Description contains " ++ dquote ++ "No Bill" ++ dquote
  ++ " but labor rate lacks NB suffix".

(** An entry none of whose rules 3, 4, 6 and 7 can be concerned with: not
    dated on a Sunday, no PM cost code, no office cost code, no no-bill
    description. *)
Definition plainEntry (e : Entry) : Prop :=
  isSunday (date e) = false
  /\ arrayIncludes ["PM"; "PMF"; "FTPM"] (toUpperCase (costCode e)) = false
  /\ arrayIncludes OFFICE_COST_CODES (toUpperCase (costCode e)) = false
  /\ includes "no bill" (toLowerCase (description e)) = false.

(** What every rule does, [fires] being its condition: it pushes changes
    whose values differ, assigns nothing but [payType] and [laborRate],
    does nothing at all when its condition fails, pushes something when it
    holds, and leaves an entry on which its condition fails. *)
Definition behaves (rule : Entry -> list Change -> Entry * list Change)
    (fires : Entry -> bool) : Prop :=
  forall e changes, exists e' new,
    rule e changes = (e', (changes ++ new)%list)
    /\ assignsOnly e e'
    /\ Forall realChange new
    /\ (fires e = false -> e' = e /\ new = [])
    /\ (fires e = true -> new <> [])
    /\ fires e' = false.

(** The seven rules in sequence on the fields of one entry: what
    [correctEntry] leaves in the copy, and the changes it hands back. *)
Definition corrected (e : Entry) : Entry * list Change :=
  fold_left (fun acc rule => rule (fst acc) (snd acc)) ruleSequence (e, []).

(** [applyRules([e])] for an entry given by value: the corrected entry and
    the changes, read from a store that holds [e] alone. *)
Definition applyRulesTo (e : Entry) : option (Entry * list Change) :=
  match applyRules [0] [e] with
  | Some (([r], changes), σ) =>
      match σ !! r with
      | Some e' => Some (e', changes)
      | None => None
      end
  | _ => None
  end.

End Rules.

End RuleEngine.

(* ================================================================== *)
(** * Regular expressions of the parser *)
(* ================================================================== *)

(** Each regular expression of the parser is written as a matcher at a
    position, [string -> option rest]; a search tries the positions from
    left to right.  In every one of them a greedy repetition is followed by
    a character outside its class, so the longest repetition is the only one
    that can succeed; the single lazy group is searched shortest first.
    In the comments a star in front of a closing parenthesis is written
    [{0,}]. *)
Module Regex.

Import JS.

(** A literal character. *)
Definition lit (c : ascii) (s : string) : option string :=
  match s with
  | String c' r => if Ascii.eqb c c' then Some r else None
  | EmptyString => None
  end.

(** A literal string. *)
Definition lits (p s : string) : option string :=
  if String.prefix p s then Some (drop (String.length p) s) else None.

(** [p+], with the text it takes. *)
Definition some (p : ascii -> bool) (s : string) : option (string * string) :=
  let (a, r) := span p s in if truthy a then Some (a, r) else None.

(** [p{1,n}], with the text it takes. *)
Definition someUpTo (n : nat) (p : ascii -> bool) (s : string) : option (string * string) :=
  let (a, r) := spanUpTo n p s in if truthy a then Some (a, r) else None.

(** [p{n}], with the text it takes. *)
Definition exactly (n : nat) (p : ascii -> bool) (s : string) : option (string * string) :=
  let (a, r) := spanUpTo n p s in
  if Nat.eqb (String.length a) n then Some (a, r) else None.

(** The text of [s] in front of its suffix [r]. *)
Definition matched (s r : string) : string :=
  take (String.length s - String.length r) s.

(** The leftmost position at which [m] succeeds; [m] is given the character
    in front of the position, for [\b]. *)
Fixpoint searchFrom {A : Type} (m : option ascii -> string -> option A)
    (prev : option ascii) (s : string) : option A :=
  match m prev s with
  | Some a => Some a
  | None =>
      match s with
      | EmptyString => None
      | String c s' => searchFrom m (Some c) s'
      end
  end.

Definition search {A : Type} (m : string -> option A) (s : string) : option A :=
  searchFrom (fun _ => m) None s.

Definition isWordAt (c : option ascii) : bool :=
  match c with
  | Some c => isWord c
  | None => false
  end.

Definition head (s : string) : option ascii :=
  match s with
  | String c _ => Some c
  | EmptyString => None
  end.

(** [\b] between the character [prev] and the text [s]. *)
Definition wordBoundary (prev : option ascii) (s : string) : bool :=
  xorb (isWordAt prev) (isWordAt (head s)).

Fixpoint lastChar (prev : option ascii) (s : string) : option ascii :=
  match s with
  | EmptyString => prev
  | String c s' => lastChar (Some c) s'
  end.

Definition notSpace (c : ascii) : bool := negb (isSpace c).

(** [/Pay Period Id:\s*([^\s]+)/], group 1 *)
Definition payPeriodIdMatch (s : string) : option string :=
  search (fun s =>
    r ← lits "Pay Period Id:" s;
    let (_, r) := span isSpace r in
    '(id, _) ← some notSpace r;
    Some id) s.

(** [/\w{3}\s+\w{3}\s+\d{1,2},\s+\d{4}/], the text matched *)
Definition reportDateMatch (s : string) : option string :=
  search (fun s =>
    '(_, r) ← exactly 3 isWord s;
    '(_, r) ← some isSpace r;
    '(_, r) ← exactly 3 isWord r;
    '(_, r) ← some isSpace r;
    '(_, r) ← someUpTo 2 isDigit r;
    r ← lit "," r;
    '(_, r) ← some isSpace r;
    '(_, r) ← exactly 4 isDigit r;
    Some (matched s r)) s.

(** [\d{1,2}\/\d{1,2}\/\d{4}] at a position: the date and what follows *)
Definition dateAt (s : string) : option (string * string) :=
  '(_, r) ← someUpTo 2 isDigit s;
  r ← lit "/" r;
  '(_, r) ← someUpTo 2 isDigit r;
  r ← lit "/" r;
  '(_, r) ← exactly 4 isDigit r;
  Some (matched s r, r).

(** [/(\d{1,2}\/\d{1,2}\/\d{4})/], group 1 *)
Definition dateMatch (s : string) : option string :=
  search (fun s => '(d, _) ← dateAt s; Some d) s.

(** [/^(\d{1,2}\/\d{1,2}\/\d{4})$/], group 1 *)
Definition dateOnlyMatch (s : string) : option string :=
  '(d, r) ← dateAt s;
  if truthy r then None else Some d.

(** [[A-Za-z',.\s-]] *)
Definition isNameChar (c : ascii) : bool :=
  isUpperAZ c || isLowerAZ c || Ascii.eqb c "'" || Ascii.eqb c ","
  || Ascii.eqb c "." || isSpace c || Ascii.eqb c "-".

(** The lazy group [([A-Za-z',.\s-]+?)] in front of [tail]: one more name
    character at a time until [tail] matches what follows.  Yields the
    group and the result of [tail]. *)
Fixpoint lazyName {A : Type} (tail : string -> option A) (name s : string)
  : option (string * A) :=
  match s with
  | String c s' =>
      if isNameChar c then
        let name' := name ++ String c EmptyString in
        match tail s' with
        | Some a => Some (name', a)
        | None => lazyName tail name' s'
        end
      else None
  | EmptyString => None
  end.

(** [/^([A-Za-z',.\s-]+?)\s*-\s*(\d+)\s*$/], groups 1 and 2 *)
Definition employeeMatchAnchored (s : string) : option (string * string) :=
  lazyName (fun r =>
    let (_, r) := span isSpace r in
    r ← lit "-" r;
    let (_, r) := span isSpace r in
    '(id, r) ← some isDigit r;
    let (_, r) := span isSpace r in
    if truthy r then None else Some id) EmptyString s.

(** [/^([A-Za-z',.\s-]+?)\s+-\s+(\d+)/], groups 1 and 2 *)
Definition employeeMatchSpaced (s : string) : option (string * string) :=
  lazyName (fun r =>
    '(_, r) ← some isSpace r;
    r ← lit "-" r;
    '(_, r) ← some isSpace r;
    '(id, _) ← some isDigit r;
    Some id) EmptyString s.

(** The characters of a date, and those of a line of hours. *)
Definition dateChar (c : ascii) : bool := isDigit c || Ascii.eqb c "/".
Definition hoursChar (c : ascii) : bool := isDigit c || Ascii.eqb c "." || isSpace c.

Definition notCloseParen (c : ascii) : bool := negb (Ascii.eqb c ")").

(** [/^\(([^)]+)\)/]: group 1 and the text matched *)
Definition jobCodePrefixMatch (s : string) : option (string * string) :=
  r ← lit "(" s;
  '(code, r) ← some notCloseParen r;
  r ← lit ")" r;
  Some (code, matched s r).

(** The class of [.]: anything but a line terminator. *)
Definition isDot (c : ascii) : bool :=
  negb (Nat.eqb (code c) 10 || Nat.eqb (code c) 13).

(** [(.{0,})$]: the rest of the text, when it holds no line terminator *)
Definition restOfLine (s : string) : option string :=
  let (a, r) := span isDot s in
  if truthy r then None else Some a.

(** [/^\(([A-Z][^)]{0,})\)(.{0,})$/], groups 1 and 2 *)
Definition jobCodeParenMatch (s : string) : option (string * string) :=
  r ← lit "(" s;
  '(c, r) ← exactly 1 isUpperAZ r;
  let (code, r) := span notCloseParen r in
  r ← lit ")" r;
  d ← restOfLine r;
  Some (c ++ code, d).

(** [/^([A-Z]+)\)(.{0,})$/], groups 1 and 2 *)
Definition jobCodeBareMatch (s : string) : option (string * string) :=
  '(code, r) ← some isUpperAZ s;
  r ← lit ")" r;
  d ← restOfLine r;
  Some (code, d).

(** [/^\s*(\d+\.?\d{0,})/]: the digits before and after the point of group 1 *)
Definition hoursAfterDateMatch (s : string) : option (string * string) :=
  let (_, r) := span isSpace s in
  '(ip, r) ← some isDigit r;
  match lit "." r with
  | Some r => Some (ip, fst (span isDigit r))
  | None => Some (ip, EmptyString)
  end.

(** [/\b(\d+\.\d{2})\b/]: the digits before and after the point of group 1 *)
Definition hoursAnywhereMatch (s : string) : option (string * string) :=
  searchFrom (fun prev s =>
    if wordBoundary prev s then
      '(ip, r) ← some isDigit s;
      r ← lit "." r;
      '(fp, r) ← exactly 2 isDigit r;
      if wordBoundary (lastChar None fp) r then Some (ip, fp) else None
    else None) None s.

(** [/^(\d+(?:\.\d+)?)\s*$/]: the digits before and after the point *)
Definition hoursOnlyMatch (s : string) : option (string * string) :=
  '(ip, r) ← some isDigit s;
  let after (fp r : string) :=
    if truthy (snd (span isSpace r)) then None else Some (ip, fp) in
  match lit "." r ≫= some isDigit with
  | Some (fp, r') => after fp r'
  | None => after EmptyString r
  end.

(** [/^\d+$/] *)
Definition numericOnlyMatch (s : string) : bool :=
  match some isDigit s with
  | Some (_, r) => negb (truthy r)
  | None => false
  end.

(** [new RegExp(`\\b${word}\\b`).test(s)] for a word made of word
    characters *)
Definition wholeWordTest (word s : string) : bool :=
  match searchFrom (fun prev s =>
          if wordBoundary prev s then
            r ← lits word s;
            if wordBoundary (lastChar None word) r then Some tt else None
          else None) None s with
  | Some _ => true
  | None => false
  end.

End Regex.

(* ================================================================== *)
(** * The report parser: what both revisions share *)
(* ================================================================== *)

Module ReportScan.

Import JS Regex.

(** The variables of the loop of [parseEmployeeData].  The two counters of
    the source are only printed and are left out. *)
Record Scan : Set := mkScan {
  allEntries : list Entry;
  currentEmployee : option (string * string);
  employeeEntries : list RawEntry;
  scanPayPeriodId : option string;
  scanReportDate : option string
}.

Definition initial : Scan := mkScan [] None [] None None.

(** [{ ...entry, employeeName, employeeId, payPeriodId, reportDate }] *)
Definition stamp (name id : string) (pp rd : option string) (entry : RawEntry) : Entry :=
  mkEntry (rawJobCode entry) (rawJobDescription entry) (rawDate entry)
          (rawHours entry) (rawPayType entry) (rawLaborRate entry)
          (rawCostCode entry) (rawCostCategory entry) (rawDescription entry)
          (rawOriginalLine entry) name id pp rd.

(** The entries of the current employee pushed onto [allEntries], when
    there is an employee with entries. *)
Definition saved (st : Scan) : list Entry :=
  match currentEmployee st with
  | Some (name, id) =>
      if Nat.ltb 0 (length (employeeEntries st))
      then (allEntries st
            ++ map (stamp name id (scanPayPeriodId st) (scanReportDate st))
                   (employeeEntries st))%list
      else allEntries st
  | None => allEntries st
  end.

(** The pay period id of a line that names one. *)
Definition notePayPeriod (trimmedLine : string) (st : Scan) : Scan :=
  if includes "Pay Period Id:" trimmedLine then
    match payPeriodIdMatch trimmedLine with
    | Some id => mkScan (allEntries st) (currentEmployee st) (employeeEntries st)
                        (Some id) (scanReportDate st)
    | None => st
    end
  else st.

(** The report date, the first time a line shows one. *)
Definition noteReportDate (trimmedLine : string) (st : Scan) : Scan :=
  match scanReportDate st, reportDateMatch trimmedLine with
  | None, Some d => mkScan (allEntries st) (currentEmployee st) (employeeEntries st)
                           (scanPayPeriodId st) (Some d)
  | _, _ => st
  end.

(** An employee header: save the previous employee, start the new one. *)
Definition startEmployee (name id : string) (st : Scan) : Scan :=
  mkScan (saved st) (Some (trim name, trim id)) []
         (scanPayPeriodId st) (scanReportDate st).

(** An "Employee Totals" line: save the employee and leave it. *)
Definition employeeTotals (trimmedLine : string) (st : Scan) : Scan :=
  if includes "Employee Totals" trimmedLine
  then mkScan (saved st) None [] (scanPayPeriodId st) (scanReportDate st)
  else st.

(** [employeeEntries.push(entry)] *)
Definition pushEntry (entry : RawEntry) (st : Scan) : Scan :=
  mkScan (allEntries st) (currentEmployee st) (push (employeeEntries st) entry)
         (scanPayPeriodId st) (scanReportDate st).

(** Every entry the scan holds, saved or not yet, has positive hours. *)
Definition positiveHours (st : Scan) : Prop :=
  Forall (fun e => positive (hours e) = true) (allEntries st)
  /\ Forall (fun e => positive (rawHours e) = true) (employeeEntries st).

End ReportScan.

(* ================================================================== *)
(** * The parser of the single-line layout (first revision of the file) *)
(* ================================================================== *)

Module SingleLineParser.

Import JS Regex ReportScan.

Definition payTypes : list string :=
  [ "Regular"; "Overtime"; "Double Time"; "Call"; "Unapplied"; "OTClearing" ].

Definition laborRates : list string :=
  [ "TechOT"; "TechNB"; "Tech"; "PMTECH"; "MN PMTECH"; "MNTech";
    "SCH_MNTECH"; "SCH_TECH"; "SCHTECHNB"; "SCH_PMTECH"; "SCH_MN PMTECH";
    "WN MN TECH"; "WN TECH"; "WN TECHNB"; "WN MN PM TECH"; "WN PM TECH";
    "PREM"; "SHOP"; "MN PMTECH"; "Sch MN PM Tech" ].

Definition costCodes : list string :=
  [ "SERVICE"; "INSTALL"; "PM"; "PMF"; "FTPM"; "SHMTL"; "RETAIL" ].

Definition categories : list string :=
  [ "DirLab"; "TechUnapplyd"; "TechUnapplied"; "Office"; "CLEARING" ].

(** [a.sort((a, b) => b.length - a.length)], a stable sort: longer strings
    first, equal lengths in their order of appearance. *)
Fixpoint insertByLength (x : string) (sorted : list string) : list string :=
  match sorted with
  | [] => [x]
  | y :: rest =>
      if Nat.leb (String.length y) (String.length x)
      then x :: sorted
      else y :: insertByLength x rest
  end.

Definition sortByLengthDesc (a : list string) : list string :=
  fold_right insertByLength [] a.

(** [parseTimeEntry(line, dateStr)] *)
Definition parseTimeEntry (line dateStr : string) : option RawEntry :=
  if negb (truthy dateStr) then None
  else
    let jobCodeMatch := jobCodePrefixMatch line in
    let jobCode := match jobCodeMatch with
                   | Some (c, _) => c
                   | None => ""
                   end in
    let afterDate :=
      drop (match indexOf dateStr line with
            | Some i => i + String.length dateStr
            | None => String.length dateStr - 1
            end) line in
    let hours :=
      match hoursAfterDateMatch afterDate with
      | Some (ip, fp) => parseFloat ip fp
      | None =>
          match hoursAnywhereMatch line with
          | Some (ip, fp) => parseFloat ip fp
          | None => parseFloat "0" ""
          end
      end in
    let payType := default "Regular" (find (fun type => includes type line) payTypes) in
    let laborRate :=
      default "Tech" (find (fun rate => includes rate line) (sortByLengthDesc laborRates)) in
    let costCode := default "SERVICE" (find (fun code => wholeWordTest code line) costCodes) in
    let costCategory :=
      match find (fun cat => includes cat line) categories with
      | Some cat => if String.eqb cat "TechUnapplied" then "TechUnapplyd" else cat
      | None => "DirLab"
      end in
    let jobDescription :=
      match jobCodeMatch with
      | Some (_, whole) =>
          let afterJobCode := drop (String.length whole) line in
          let beforeDate := hd "" (split dateStr afterJobCode) in
          trim beforeDate
      | None => ""
      end in
    let parts := split " - " line in
    let description :=
      if Nat.ltb 1 (length parts) then trim (List.last parts "") else "" in
    if positive hours
    then Some (mkRawEntry jobCode jobDescription dateStr hours payType laborRate
                          costCode costCategory description (trim line))
    else None.

(** The time entry of a line that shows a date and is no totals line. *)
Definition timeEntries (trimmedLine : string) (st : Scan) : Scan :=
  match currentEmployee st with
  | Some _ =>
      match dateMatch trimmedLine with
      | Some d =>
          if negb (includes "Employee Totals" trimmedLine)
             && negb (includes "Report Totals" trimmedLine)
          then match parseTimeEntry trimmedLine d with
               | Some entry => pushEntry entry st
               | None => st
               end
          else st
      | None => st
      end
  | None => st
  end.

(** The loop over the lines; the result is the state at the [break] or at
    the end of the lines. *)
Fixpoint scan (st : Scan) (lines : list string) : Scan :=
  match lines with
  | [] => st
  | line :: rest =>
      let trimmedLine := trim line in
      if negb (truthy trimmedLine) then scan st rest
      else
        let st := notePayPeriod trimmedLine st in
        let st := noteReportDate trimmedLine st in
        match employeeMatchAnchored trimmedLine with
        | Some (name, id) => scan (startEmployee name id st) rest
        | None =>
            let st := timeEntries trimmedLine st in
            let st := employeeTotals trimmedLine st in
            if includes "Report Totals" trimmedLine then st
            else scan st rest
        end
  end.

Definition newline : string := String (ascii_of_nat 10) EmptyString.

(** [parseEmployeeData(text)] *)
Definition parseEmployeeData (text : string) : list Entry :=
  let lines := split newline text in
  saved (scan initial lines).


(** An "Employee Totals" line that is nothing else. *)
Definition isEmployeeTotalsLine (line : string) : Prop :=
  employeeMatchAnchored (trim line) = None
  /\ includes "Employee Totals" (trim line) = true
  /\ includes "Report Totals" (trim line) = false.

(** A line at which the loop breaks: it holds "Report Totals" and is not
    taken for an employee header. *)
Definition endsReport (line : string) : Prop :=
  employeeMatchAnchored (trim line) = None
  /\ includes "Report Totals" (trim line) = true.

End SingleLineParser.

(* ================================================================== *)
(** * The parser of the four-line layout (second revision of the file) *)
(* ================================================================== *)

Module FourLineParser.

Import JS Regex ReportScan.

(** [a[i] || d] *)
Definition orDefault (a : list string) (i : nat) (d : string) : string :=
  match a !! i with
  | Some s => if truthy s then s else d
  | None => d
  end.

(** The employee header of this revision: the pattern, on a line that
    holds neither "Date" nor "Hours". *)
Definition employeeHeader (trimmedLine : string) : option (string * string) :=
  match employeeMatchSpaced trimmedLine with
  | Some m =>
      if negb (includes "Date" trimmedLine) && negb (includes "Hours" trimmedLine)
      then Some m else None
  | None => None
  end.

Definition payTypes : list string :=
  [ "Regular"; "Overtime"; "Double Time"; "Call"; "Unapplied"; "OTClearing" ].

(** [/^\s+(\d+(?:\.\d+)?)\s/]: the digits before and after the point *)
Definition hoursSpacedMatch (s : string) : option (string * string) :=
  '(_, r) ← some isSpace s;
  '(ip, r) ← some isDigit r;
  let after (fp r : string) :=
    match head r with
    | Some c => if isSpace c then Some (ip, fp) else None
    | None => None
    end in
  match lit "." r ≫= some isDigit with
  | Some (fp, r') => after fp r'
  | None => after EmptyString r
  end.

(** The index after the first of the parts, the last one apart, that
    holds the date: the [startIndex] of [parseTimeEntry]. *)
Fixpoint startIndexFrom (dateStr : string) (i n : nat) (parts : list string)
  : option nat :=
  match parts with
  | [] => None
  | part :: rest =>
      if includes dateStr part && Nat.ltb i (n - 1) then Some (i + 1)
      else startIndexFrom dateStr (i + 1) n rest
  end.

(** [parseTimeEntry(line, dateStr)] of this revision, for a whole entry on
    one line.  The loop below never calls it. *)
Definition parseTimeEntry (line dateStr : string) : option RawEntry :=
  if negb (truthy dateStr) then None
  else
    let jobCodeMatch := jobCodePrefixMatch line in
    let jobCode := match jobCodeMatch with
                   | Some (c, _) => c
                   | None => ""
                   end in
    let hours :=
      match indexOf dateStr line with
      | Some dateIndex =>
          let afterDate := drop (dateIndex + String.length dateStr) line in
          match hoursSpacedMatch afterDate with
          | Some (ip, fp) => parseFloat ip fp
          | None => parseFloat "0" ""
          end
      | None => parseFloat "0" ""
      end in
    let dashParts := split " - " line in
    let startIndex :=
      if Nat.leb 2 (length dashParts)
      then startIndexFrom dateStr 0 (length dashParts) dashParts
      else None in
    let field (k : nat) (d : string) :=
      match startIndex with
      | Some i => match dashParts !! (i + k) with
                  | Some part => trim part
                  | None => d
                  end
      | None => d
      end in
    let payType :=
      match startIndex with
      | Some i =>
          match dashParts !! i with
          | Some part =>
              default "Regular"
                (find (fun type => includes type (trim part)) payTypes)
          | None => "Regular"
          end
      | None => "Regular"
      end in
    let laborRate := field 1 "Tech" in
    let costCode := field 2 "SERVICE" in
    let costCategory := field 3 "DirLab" in
    let description := field 4 "" in
    let jobDescription :=
      match jobCodeMatch with
      | Some (_, whole) =>
          let afterJobCode := drop (String.length whole) line in
          let beforeDate := hd "" (split dateStr afterJobCode) in
          trim beforeDate
      | None => ""
      end in
    if positive hours
    then Some (mkRawEntry jobCode jobDescription dateStr hours payType laborRate
                          costCode costCategory description (trim line))
    else None.

(** The job code at the head of a line, by either pattern. *)
Definition jobCodeMatch (trimmedLine : string) : option (string * string) :=
  match jobCodeParenMatch trimmedLine with
  | Some m => Some m
  | None => jobCodeBareMatch trimmedLine
  end.

(** The lines after the three of an entry that are passed over as well: a
    "Source" or "Labor..." line, then a line of digits. *)
Definition trailingNoise (after : list string) : nat :=
  let k :=
    match after !! 0 with
    | Some l => if String.eqb (trim l) "Source" || startsWith "Labor" (trim l)
                then 1 else 0
    | None => 0
    end in
  match after !! k with
  | Some l => if numericOnlyMatch (trim l) then k + 1 else k
  | None => k
  end.

(** The time entry that starts on a job-code line and goes on over the next
    three lines [rest]; with it, the number of lines to pass over. *)
Definition timeEntries (trimmedLine : string) (rest : list string) (st : Scan)
  : Scan * nat :=
  match currentEmployee st with
  | Some _ =>
      match jobCodeMatch trimmedLine with
      | Some (jobCode, afterCode) =>
          let jobDescription := trim afterCode in
          match rest with
          | l1 :: l2 :: l3 :: after =>
              let nextLine1 := trim l1 in
              let nextLine2 := trim l2 in
              let nextLine3 := trim l3 in
              match dateOnlyMatch nextLine1, hoursOnlyMatch nextLine2 with
              | Some date, Some (ip, fp) =>
                  if includes " - " nextLine3 then
                    let hours := parseFloat ip fp in
                    let dashParts := map trim (split " - " nextLine3) in
                    let payType := orDefault dashParts 0 "Regular" in
                    let laborRate := orDefault dashParts 1 "Tech" in
                    let costCode := orDefault dashParts 2 "SERVICE" in
                    let costCategory := orDefault dashParts 3 "DirLab" in
                    let description := orDefault dashParts 4 "" in
                    let entry :=
                      mkRawEntry jobCode jobDescription date hours payType laborRate
                                 costCode costCategory description
                                 (trimmedLine ++ " " ++ nextLine1 ++ " " ++ nextLine2
                                  ++ " " ++ nextLine3) in
                    (pushEntry entry st, 3 + trailingNoise after)
                  else (st, 0)
              | _, _ => (st, 0)
              end
          | _ => (st, 0)
          end
      | None => (st, 0)
      end
  | None => (st, 0)
  end.

(** The loop over the lines; [skip] lines were consumed by the entry before
    and are passed over unread. *)
Fixpoint scan (skip : nat) (st : Scan) (lines : list string) : Scan :=
  match lines with
  | [] => st
  | line :: rest =>
      match skip with
      | S k => scan k st rest
      | O =>
          let trimmedLine := trim line in
          if negb (truthy trimmedLine) then scan 0 st rest
          else
            let st := notePayPeriod trimmedLine st in
            let st := noteReportDate trimmedLine st in
            match employeeHeader trimmedLine with
            | Some (name, id) => scan 0 (startEmployee name id st) rest
            | None =>
                let '(st, consumed) := timeEntries trimmedLine rest st in
                let st := employeeTotals trimmedLine st in
                if includes "Report Totals" trimmedLine then st
                else scan consumed st rest
            end
      end
  end.

(** [parseEmployeeData(text)] *)
Definition parseEmployeeData (text : string) : list Entry :=
  let lines := split SingleLineParser.newline text in
  saved (scan 0 initial lines).

(** A line at which the loop breaks whenever it comes by, and with nothing
    read beyond it: it holds "Report Totals", is not taken for an employee
    header, starts no entry (no job code in front) and cannot be one of the
    lines an entry consumes (no " - " in it, no "Labor" in front). *)
Definition endsReport (line : string) : Prop :=
  employeeHeader (trim line) = None
  /\ includes "Report Totals" (trim line) = true
  /\ jobCodeMatch (trim line) = None
  /\ includes " - " (trim line) = false
  /\ startsWith "Labor" (trim line) = false.



(** An "Employee Totals" line that is nothing else: no header, no job code
    in front, and no "Labor" in front either, with which the loop would
    pass it over after an entry. *)
Definition isEmployeeTotalsLine (line : string) : Prop :=
  employeeHeader (trim line) = None
  /\ jobCodeMatch (trim line) = None
  /\ includes "Employee Totals" (trim line) = true
  /\ includes "Report Totals" (trim line) = false
  /\ startsWith "Labor" (trim line) = false.

End FourLineParser.

(* ================================================================== *)
(** * Entries and report texts used as examples *)
(* ================================================================== *)

Module Examples.

Import JS.

(** The Sunday entry of [test-rules.js]. *)
Definition testWorker : Entry :=
  mkEntry "" "" "11/03/2024" (parseFloat "8" "") "Regular" "WN TECH" "SERVICE" "Tech"
          "Sunday work" "" "Test Worker" "99" None None.

(** A no-bill description on a rate without NB variant. *)
Definition noBillShop : Entry :=
  mkEntry "" "" "11/04/2024" (parseFloat "2" "") "Regular" "SHOP" "SERVICE" "DirLab"
          "No Bill - warranty" "" "Shop Worker" "7" None None.

Definition unappliedCallSunday : Entry :=
  mkEntry "" "" "08/03/2025" (parseFloat "4" "") "Call" "Tech" "SERVICE" "TechUnapplyd"
          "standby" "" "On Call" "8" None None.

Definition sundaySchTech : Entry :=
  mkEntry "" "" "08/03/2025" (parseFloat "8" "") "Regular" "SCH_TECH" "SERVICE" "DirLab"
          "" "" "Sunday Worker" "3" None None.

Definition callWnTech : Entry :=
  mkEntry "" "" "11/04/2024" (parseFloat "4" "") "Call" "WN TECH" "SERVICE" "DirLab"
          "Call work" "" "Another Worker" "100" None None.

(** A call on a helper rate of the WN branch. *)
Definition callWnHelper : Entry :=
  mkEntry "" "" "11/04/2024" (parseFloat "4" "") "Call" "WN HELPER" "SERVICE" "DirLab"
          "Call work" "" "Another Worker" "100" None None.

Definition plainCall : Entry :=
  mkEntry "" "" "11/04/2024" (parseFloat "4" "") "Call" "SCH_TECH" "SERVICE" "Tech"
          "Call work" "" "Another Worker" "100" None None.

(** Report texts, line by line. *)
Definition lines (a : list string) : string := join SingleLineParser.newline a.

Definition twoEmployeesText : string :=
  lines [ "John Smith - 101";
          "(J1)Fix AC 08/04/2025 8.00 - Regular - Tech - SERVICE - DirLab - repair";
          "(J2)PM visit 08/05/2025 2.50 - Overtime - PMTECH - PM - DirLab - filter";
          "Employee Totals 10.50";
          "Jane Doe - 202";
          "(J3)Install 08/03/2025 4.00 - Call - WN TECH - INSTALL - DirLab - unit";
          "(J4)Shop 08/06/2025 1.25 - Regular - SHOP - SERVICE - DirLab - bench";
          "Employee Totals 5.25" ].


Definition zeroHoursText : string :=
  lines [ "A B - 1"; "(J)desc"; "08/04/2025"; "0";
          "Regular - Tech - SERVICE - DirLab - x"; "Employee Totals" ].

Definition headerLikeTotalsText : string :=
  lines [ "X - 1"; "Report Totals - 2";
          "(J)d 08/04/2025 8.00 - Regular - Tech - SERVICE - DirLab - w" ].

Definition truncatedText : string :=
  lines [ "A B - 1"; "(J)desc"; "08/04/2025"; "8.00";
          "Regular - Tech - SERVICE - DirLab - x"; "Report Totals 8.00";
          "(K)late"; "08/05/2025"; "1.00"; "Regular - Tech - SERVICE - DirLab - y";
          "(L)late 08/05/2025 2.00 - Regular - Tech - SERVICE - DirLab - z" ].

Definition truncatedTextCut : string :=
  lines [ "A B - 1"; "(J)desc"; "08/04/2025"; "8.00";
          "Regular - Tech - SERVICE - DirLab - x"; "Report Totals 8.00" ].

End Examples.

(* ================================================================== *)
(** * The change list read back *)
(* ================================================================== *)

Module ChangeLog.

Import JS RuleEngine.

(** The [rule] strings of the change records, in the order in which the
    rules push them; rule 4 has one for each of its two fields. *)
Definition ruleLabels : list string :=
  [ "Rule 1: TechUnapplied → Unapplied Pay Type";
    "Rule 2: Service/Install Labor Rate Validation";
    "Rule 3: PM Labor Rate Validation";
    "Rule 4: Sunday Premium Pay";
    "Rule 4: Sunday Premium Rate";
    "Rule 5: Call Work Labor Rate";
    "Rule 6: No Bill Detection";
    "Rule 7: Office Override" ].

(** A change record applied to an entry by a reader of the list: the field
    it names must hold the original value and gets the corrected one. *)
Definition applyChange (c : Change) (e : Entry) : option Entry :=
  if String.eqb (chField c) "payType" then
    if String.eqb (originalValue c) (payType e)
    then Some (setPayType (correctedValue c) e) else None
  else if String.eqb (chField c) "laborRate" then
    if String.eqb (originalValue c) (laborRate e)
    then Some (setLaborRate (correctedValue c) e) else None
  else None.

(** The changes of a list applied in their order. *)
Fixpoint replay (changes : list Change) (e : Entry) : option Entry :=
  match changes with
  | [] => Some e
  | c :: rest =>
      match applyChange c e with
      | Some e' => replay rest e'
      | None => None
      end
  end.

(** A change record that names the employee and the date of the entry. *)
Definition recordOf (e : Entry) (c : Change) : Prop :=
  chEmployeeName c = employeeName e
  /\ chEmployeeId c = employeeId e
  /\ chDate c = date e.

(** [x] agrees with [e] on the fields the conditions read and no rule
    assigns. *)
Definition sameFacts (e x : Entry) : Prop :=
  date x = date e /\ costCode x = costCode e
  /\ costCategory x = costCategory e /\ description x = description e.

(** The two fields the rules assign. *)
Inductive Field : Set := PayType | LaborRate.

Definition fieldName (f : Field) : string :=
  match f with PayType => "payType" | LaborRate => "laborRate" end.

Definition getField (f : Field) (e : Entry) : string :=
  match f with PayType => payType e | LaborRate => laborRate e end.

Definition setField (f : Field) (v : string) (e : Entry) : Entry :=
  match f with PayType => setPayType v e | LaborRate => setLaborRate v e end.

(** The shape every rule has: under a condition, a change record is pushed
    and one field is assigned. *)
Record Step : Type := mkStep {
  cond : Entry -> bool;
  field : Field;
  value : Entry -> string;
  label : string;
  reason : Entry -> string
}.

Definition runStep (s : Step) (acc : Entry * list Change) : Entry * list Change :=
  let (e, changes) := acc in
  if cond s e
  then (setField (field s) (value s e) e,
        push changes (change e (fieldName (field s)) (getField (field s) e)
                        (value s e) (label s) (reason s e)))
  else (e, changes).

Definition runSteps (ss : list Step) (acc : Entry * list Change)
  : Entry * list Change :=
  fold_left (fun acc s => runStep s acc) ss acc.

(** The entry a step leaves, and the changes it pushes. *)
Definition stepEntry (s : Step) (e : Entry) : Entry :=
  if cond s e then setField (field s) (value s e) e else e.

Definition stepChanges (s : Step) (e : Entry) : list Change :=
  if cond s e
  then [change e (fieldName (field s)) (getField (field s) e)
               (value s e) (label s) (reason s e)]
  else [].

(** The same for a list of steps. *)
Fixpoint entryAfter (ss : list Step) (e : Entry) : Entry :=
  match ss with
  | [] => e
  | s :: rest => entryAfter rest (stepEntry s e)
  end.

Fixpoint changesAfter (ss : list Step) (e : Entry) : list Change :=
  match ss with
  | [] => []
  | s :: rest => (stepChanges s e ++ changesAfter rest (stepEntry s e))%list
  end.

(** Rules 1, 2 and 3. *)
Definition step1 : Step :=
  mkStep fires1 PayType (fun _ => "Unapplied")
    "Rule 1: TechUnapplied → Unapplied Pay Type"
    (fun _ => "Cost Category is TechUnapplyd, so Pay Type must be Unapplied").

Definition step2 : Step :=
  mkStep fires2 LaborRate (fun _ => "Tech")
    "Rule 2: Service/Install Labor Rate Validation"
    (fun e => "Cost Code is " ++ toUpperCase (costCode e)
              ++ ", Labor Rate must be one of: "
              ++ join ", " SERVICE_INSTALL_LABOR_RATES).

Definition step3 : Step :=
  mkStep fires3 LaborRate (fun _ => "PMTECH")
    "Rule 3: PM Labor Rate Validation"
    (fun e => "Cost Code is " ++ toUpperCase (costCode e)
              ++ ", Labor Rate must be one of: " ++ join ", " PM_LABOR_RATES).

Section Steps.

Variable isSunday : string -> bool.

(** Rule 4, the pay type and then the labor rate. *)
Definition step4pay : Step :=
  mkStep (fun e => isSunday (date e) && negb (String.eqb (payType e) "Double Time"))
    PayType (fun _ => "Double Time")
    "Rule 4: Sunday Premium Pay"
    (fun _ => "Work on Sunday requires Double Time pay type").

Definition step4rate : Step :=
  mkStep (fun e => isSunday (date e)
                   && negb (includes "PREM" (toUpperCase (laborRate e))))
    LaborRate (fun e => premRate (toUpperCase (laborRate e)))
    "Rule 4: Sunday Premium Rate"
    (fun _ => "Work on Sunday requires PREM labor rate").

End Steps.

(** Rules 5, 6 and 7. *)
Definition step5 : Step :=
  mkStep fires5 LaborRate (fun e => callRate (toUpperCase (laborRate e)))
    "Rule 5: Call Work Labor Rate"
    (fun _ => "Call pay type requires overtime labor rate").

Definition step6 : Step :=
  mkStep fires6 LaborRate (fun e => noBillRate (laborRate e))
    "Rule 6: No Bill Detection"
    (fun _ => "Description contains " ++ dquote ++ "No Bill" ++ dquote
              ++ " - adding NB suffix to labor rate").

Definition step7 : Step :=
  mkStep fires7 PayType (fun _ => "Regular")
    "Rule 7: Office Override"
    (fun e => "Office cost code " ++ toUpperCase (costCode e)
              ++ " requires Regular pay type").

(** The seven rules as eight conditional assignments, rule 4 being two. *)
Definition steps (isSunday : string -> bool) : list Step :=
  [ step1; step2; step3; step4pay isSunday; step4rate isSunday;
    step5; step6; step7 ].

End ChangeLog.

(* ================================================================== *)
(** * More entries and texts used as examples *)
(* ================================================================== *)

Module MoreExamples.

Import JS.

(** An entry dated on a Sunday on which rules 1, 2 and 4 all assign. *)
Definition busySunday : Entry :=
  mkEntry "" "" "08/03/2025" (parseFloat "8" "") "Call" "XYZ" "SERVICE" "TechUnapplyd"
          "" "" "Busy Worker" "5" None None.

(** An entry dated on a Monday on which rules 1, 2 and 6 assign. *)
Definition busyMonday : Entry :=
  mkEntry "" "" "08/04/2025" (parseFloat "8" "") "Call" "XYZ" "SERVICE" "TechUnapplyd"
          "No Bill" "" "Busy Worker" "5" None None.

(** Three change records for two employees. *)
Definition sampleChanges : list Change :=
  [ mkChange "Ann Lee" "1" "08/03/2025" "payType" "Regular" "Double Time"
             "Rule 4: Sunday Premium Pay" "Work on Sunday requires Double Time pay type";
    mkChange "Ann Lee" "1" "08/03/2025" "laborRate" "Tech" "PREM"
             "Rule 4: Sunday Premium Rate" "Work on Sunday requires PREM labor rate";
    mkChange "Bo Ray" "2" "08/04/2025" "payType" "Call" "Unapplied"
             "Rule 1: TechUnapplied → Unapplied Pay Type"
             "Cost Category is TechUnapplyd, so Pay Type must be Unapplied" ].

(** The report of [twoEmployeesText] with blank lines and with white space
    around some lines. *)
Definition twoEmployeesSpaced : string :=
  Examples.lines
    [ ""; "  John Smith - 101"; "   ";
      "(J1)Fix AC 08/04/2025 8.00 - Regular - Tech - SERVICE - DirLab - repair  ";
      "(J2)PM visit 08/05/2025 2.50 - Overtime - PMTECH - PM - DirLab - filter";
      ""; "Employee Totals 10.50";
      "Jane Doe - 202";
      "    (J3)Install 08/03/2025 4.00 - Call - WN TECH - INSTALL - DirLab - unit";
      "(J4)Shop 08/06/2025 1.25 - Regular - SHOP - SERVICE - DirLab - bench";
      "Employee Totals 5.25"; "" ].

(** Entries of both layouts with no employee header in front. *)
Definition noHeaderText : string :=
  Examples.lines
    [ "(J1)Fix AC 08/04/2025 8.00 - Regular - Tech - SERVICE - DirLab - repair";
      "(J)desc"; "08/04/2025"; "8.00"; "Regular - Tech - SERVICE - DirLab - x";
      "Employee Totals 16.00" ].

End MoreExamples.

(* ================================================================== *)
(** * Plain objects used as maps *)
(* ================================================================== *)

Module JSObject.

Import JS.

(** The own properties of an object created by [{}], keys being strings,
    in the order of their creation, which is the order in which they are
    enumerated when none is the decimal numeral of an array index. *)
Definition Obj (V : Type) : Type := list (string * V).

(** The property names such an object inherits from [Object.prototype]. *)
Definition inheritedNames : list string :=
  [ "constructor"; "__defineGetter__"; "__defineSetter__"; "hasOwnProperty";
    "__lookupGetter__"; "__lookupSetter__"; "isPrototypeOf";
    "propertyIsEnumerable"; "toString"; "valueOf"; "__proto__";
    "toLocaleString" ].

Definition inherited (k : string) : bool := arrayIncludes inheritedNames k.

(** The own property [k]. *)
Fixpoint own {V : Type} (k : string) (o : Obj V) : option V :=
  match o with
  | [] => None
  | (k', v) :: rest => if String.eqb k k' then Some v else own k rest
  end.

(** [o[k] = v]: the own property is assigned where it stands, a new one
    comes last. *)
Fixpoint assign {V : Type} (k : string) (v : V) (o : Obj V) : Obj V :=
  match o with
  | [] => [(k, v)]
  | (k', v') :: rest =>
      if String.eqb k k' then (k', v) :: rest else (k', v') :: assign k v rest
  end.

(** A number held by a counter: [NaN] or a count. *)
Inductive Count : Set := NaN | Num (n : nat).

(** [if (!o[k]) { o[k] = 0; } o[k]++;]
    An own count that is not zero is truthy and goes up by one; an own
    zero or [NaN] is falsy, is set to zero and goes up to one; so does a
    name the object does not have.  A name it inherits is truthy (a
    function, or the prototype itself for [__proto__]), so that nothing is
    set, and [++] of it is [NaN], which becomes an own property, except
    for [__proto__], whose setter ignores a number. *)
Definition countUp (o : Obj Count) (k : string) : Obj Count :=
  match own k o with
  | Some (Num (S n)) => assign k (Num (S (S n))) o
  | Some (Num O) | Some NaN => assign k (Num 1) o
  | None =>
      if inherited k
      then (if String.eqb k "__proto__" then o else assign k NaN o)
      else assign k (Num 1) o
  end.

(** The sum of the counts, when none is [NaN]. *)
Fixpoint sumCounts (o : Obj Count) : option nat :=
  match o with
  | [] => Some 0
  | (_, Num n) :: rest => option_map (Nat.add n) (sumCounts rest)
  | (_, NaN) :: rest => None
  end.

End JSObject.

(* ================================================================== *)
(** * The summary of the changes *)
(* ================================================================== *)

Module ChangeSummary.

Import JS JSObject.

(** The [summary] object of [getSummary]. *)
Record Summary : Type := mkSummary {
  totalChanges : nat;
  changesByRule : Obj Count;
  changesByEmployee : Obj Count;
  changesByField : Obj Count
}.

(** The body of the [forEach]: one change counted by rule, by employee
    and by field. *)
Definition countChange (summary : Summary) (change : Change) : Summary :=
  mkSummary (totalChanges summary)
            (countUp (changesByRule summary) (chRule change))
            (countUp (changesByEmployee summary) (chEmployeeName change))
            (countUp (changesByField summary) (chField change)).

(** [getSummary(changes)] *)
Definition getSummary (changes : list Change) : Summary :=
  fold_left countChange changes (mkSummary (length changes) [] [] []).

(** The changes whose key is [k]. *)
Definition countOf (key : Change -> string) (k : string) (changes : list Change)
  : nat :=
  length (List.filter (fun c => String.eqb (key c) k) changes).

(** What a counter should hold for a count: nothing for zero. *)
Definition counted (n : nat) : option Count :=
  match n with
  | O => None
  | S _ => Some (Num n)
  end.

End ChangeSummary.

(* ================================================================== *)
(** * The report generator: entries grouped by employee *)
(* ================================================================== *)

Module ReportGroups.

Import JS JSObject.

(** [`${entry.employeeName} - ${entry.employeeId}`] *)
Definition employeeKey (entry : Entry) : string :=
  employeeName entry ++ " - " ++ employeeId entry.

(** The body of the [forEach] of [groupByEmployee]:
    [if (!grouped[key]) { grouped[key] = []; } grouped[key].push(entry);]
    An array is truthy even when empty.  A name the object inherits is
    truthy as well, nothing is set, and [push] is no function of what the
    name holds: a [TypeError], here [None]. *)
Definition groupEntry (grouped : option (Obj (list Entry))) (entry : Entry)
  : option (Obj (list Entry)) :=
  match grouped with
  | Some g =>
      let key := employeeKey entry in
      match own key g with
      | Some entries => Some (assign key (push entries entry) g)
      | None => if inherited key then None else Some (assign key [entry] g)
      end
  | None => None
  end.

(** [groupByEmployee(data)] *)
Definition groupByEmployee (data : list Entry) : option (Obj (list Entry)) :=
  fold_left groupEntry data (Some []).

(** The keys of [data] in the order of their first occurrence. *)
Fixpoint firstKeys (seen : list string) (data : list Entry) : list string :=
  match data with
  | [] => []
  | entry :: rest =>
      if arrayIncludes seen (employeeKey entry)
      then firstKeys seen rest
      else employeeKey entry :: firstKeys (employeeKey entry :: seen) rest
  end.

End ReportGroups.

(* ================================================================== *)
(** * The validation of parsed data *)
(* ================================================================== *)

Module ParsedData.

Import JS Regex.

(** [`${index}`] *)
Definition showIndex (index : nat) : string :=
  NilEmpty.string_of_uint (Nat.to_uint index).

(** [s.match(/\d{1,2}\/\d{1,2}\/\d{4}/)] is no [null]. *)
Definition dateTest (s : string) : bool :=
  match dateMatch s with
  | Some _ => true
  | None => false
  end.

(** The body of the [forEach] of [validateData]: the errors of one entry.
    [hours] is no [NaN] and not negative, so that the three tests on it say
    the same: it is not positive. *)
Definition entryErrors (index : nat) (entry : Entry) : list string :=
  let errors := [] in
  let errors :=
    if negb (truthy (employeeName entry))
    then push errors ("Entry " ++ showIndex index ++ ": Missing employee name")
    else errors in
  let errors :=
    if negb (truthy (date entry)) || negb (dateTest (date entry))
    then push errors ("Entry " ++ showIndex index ++ ": Invalid date format")
    else errors in
  let errors :=
    if negb (positive (hours entry))
    then push errors ("Entry " ++ showIndex index ++ ": Invalid hours")
    else errors in
  let errors :=
    if negb (truthy (payType entry))
    then push errors ("Entry " ++ showIndex index ++ ": Missing pay type")
    else errors in
  let errors :=
    if negb (truthy (laborRate entry))
    then push errors ("Entry " ++ showIndex index ++ ": Missing labor rate")
    else errors in
  errors.

(** The [errors] of [validateData] at the end of its loop. *)
Definition validationErrors (employees : list Entry) : list string :=
  concat (imap entryErrors employees).

(** [validateData(employees)]: the errors are printed, five at most, and
    the result is [true] whatever they are. *)
Definition validateData (employees : list Entry) : bool :=
  let errors := validationErrors employees in
  true.

(** What the extraction made of an entry, the employee left out. *)
Definition rawOf (e : Entry) : RawEntry :=
  mkRawEntry (jobCode e) (jobDescription e) (date e) (hours e) (payType e)
             (laborRate e) (costCode e) (costCategory e) (description e)
             (originalLine e).

End ParsedData.

(* ================================================================== *)
(** * Properties of the rule engine *)
(* ================================================================== *)

Module RuleFacts.

Import JS RuleEngine.

(** ** Strings and lists *)

(** The upper-cased rate of the rules, [rate ? rate.toUpperCase() : '']. *)
Lemma upper_or_empty (s : string) :
  (if truthy s then toUpperCase s else "") = toUpperCase s.
Proof. destruct s; reflexivity. Qed.

(** An empty rate holds no pattern, so the test for emptiness adds
    nothing to the test for the pattern. *)
Lemma falsy_has_no (p s : string) :
  p <> "" ->
  negb (truthy s) || negb (includes p (toUpperCase s))
  = negb (includes p (toUpperCase s)).
Proof.
  intros Hp. destruct s as [|c s]; [|reflexivity].
  destruct p; [congruence | reflexivity].
Qed.

(** Two strings a test tells apart are different. *)
Lemma differ_by (f : string -> bool) (a b : string) :
  f a = false -> f b = true -> String.eqb a b = false.
Proof. intros Ha Hb. apply String.eqb_neq. intros ->. congruence. Qed.

Lemma neq_of_negb_eqb (a b : string) : negb (String.eqb a b) = true -> a <> b.
Proof. intros H. apply String.eqb_neq. now apply negb_true_iff. Qed.

(** Two prefixes of one string start with the same character. *)
Lemma prefix_head (a b : ascii) (p q s : string) :
  startsWith (String a p) s = true -> startsWith (String b q) s = true -> a = b.
Proof.
  unfold startsWith. destruct s as [|c s]; cbn; [discriminate|].
  destruct (ascii_dec a c), (ascii_dec b c); congruence.
Qed.

Lemma push_app {A : Type} (l : list A) (x : A) : push l x = (l ++ [x])%list.
Proof. reflexivity. Qed.

Lemma if_push {A : Type} (c : bool) (l : list A) (x : A) :
  (if c then push l x else l) = (l ++ if c then [x] else [])%list.
Proof. destruct c; [reflexivity | now rewrite app_nil_r]. Qed.

Lemma if_app {A : Type} (c : bool) (l x : list A) :
  (if c then (l ++ x)%list else l) = (l ++ if c then x else [])%list.
Proof. destruct c; [reflexivity | now rewrite app_nil_r]. Qed.

Lemma if_if {A : Type} (a b : bool) (x : list A) :
  (if a then (if b then x else []) else []) = if a && b then x else [].
Proof. destruct a; reflexivity. Qed.

(** ** Entries that differ in payType and laborRate only *)

Lemma assignsOnly_refl (e : Entry) : assignsOnly e e.
Proof. destruct e; reflexivity. Qed.

Lemma assignsOnly_payType (v : string) (e e' : Entry) :
  assignsOnly e e' -> assignsOnly e (setPayType v e').
Proof.
  unfold assignsOnly. intros H. rewrite H at 1.
  destruct e, e'; reflexivity.
Qed.

Lemma assignsOnly_laborRate (v : string) (e e' : Entry) :
  assignsOnly e e' -> assignsOnly e (setLaborRate v e').
Proof.
  unfold assignsOnly. intros H. rewrite H at 1.
  destruct e, e'; reflexivity.
Qed.

Lemma assignsOnly_trans (e1 e2 e3 : Entry) :
  assignsOnly e1 e2 -> assignsOnly e2 e3 -> assignsOnly e1 e3.
Proof.
  unfold assignsOnly. intros H1 H2. rewrite H2, H1.
  destruct e1, e2, e3; reflexivity.
Qed.

Create HintDb payroll.

#[local] Hint Resolve assignsOnly_refl assignsOnly_payType assignsOnly_laborRate
  : payroll.

(** ** Tactics *)

(** Case analysis on every condition of the goal. *)
Ltac split_ifs :=
  repeat match goal with
         | |- context [if ?b then _ else _] => destruct b eqn:?
         end.

(** Projections of records built by the setters. *)
Ltac fields :=
  cbn [jobCode jobDescription date hours payType laborRate costCode costCategory
       description originalLine employeeName employeeId payPeriodId reportDate
       setPayType setLaborRate originalValue correctedValue chRule chField change].

(** Disjunctions among the hypotheses, boolean or not. *)
Ltac orbs :=
  repeat match goal with
         | H : _ || _ = true |- _ => apply orb_true_iff in H; destruct H
         | H : _ || _ = false |- _ => apply orb_false_iff in H; destruct H
         | H : _ \/ _ |- _ => destruct H
         end.

(** Two prefixes of one string that start with different characters. *)
Ltac clash :=
  match goal with
  | H1 : startsWith (String ?a _) ?s = true,
    H2 : startsWith (String ?b _) ?s = true |- _ =>
      pose proof (prefix_head _ _ _ _ _ H1 H2); discriminate
  end.

(** Conditions on constant strings. *)
Ltac consts :=
  cbn [negb andb orb String.eqb Ascii.eqb Bool.eqb fst snd].

(** ** The three tables of rates *)

Lemma premRate_has_PREM (u : string) : includes "PREM" (toUpperCase (premRate u)) = true.
Proof. unfold premRate. split_ifs; reflexivity. Qed.

Lemma premRate_table (u : string) :
  (startsWith "WN " u = true -> premRate u = "WN PREM")
  /\ (startsWith "SCH_" u = true \/ startsWith "SCH " u = true -> premRate u = "SCH PREM")
  /\ (startsWith "MN " u = true \/ startsWith "MNTECH" u = true -> premRate u = "MN PREM")
  /\ (startsWith "WN " u = false -> startsWith "SCH_" u = false ->
      startsWith "SCH " u = false -> startsWith "MN " u = false ->
      startsWith "MNTECH" u = false -> premRate u = "PREM").
Proof.
  unfold premRate.
  repeat split; intros; split_ifs; orbs; try reflexivity; try congruence; try clash.
Qed.

Lemma callRate_has_OT (u : string) : includes "OT" (toUpperCase (callRate u)) = true.
Proof. unfold callRate. split_ifs; reflexivity. Qed.

(** Every rate rule 5 writes is one rule 2 approves. *)
Lemma callRate_allowed (u : string) :
  arrayIncludes SERVICE_INSTALL_LABOR_RATES (callRate u) = true.
Proof. unfold callRate. split_ifs; reflexivity. Qed.

Lemma callRate_table (u : string) :
  (startsWith "WN MN " u = true -> callRate u = "WN MN TECHOT")
  /\ (startsWith "WN " u = true -> startsWith "WN MN " u = false ->
      callRate u = "WN TECHOT")
  /\ (startsWith "SCH_MN" u = true -> callRate u = "SCH_MNTECHOT")
  /\ (startsWith "SCH_" u = true \/ startsWith "SCH " u = true ->
      startsWith "SCH_MN" u = false -> callRate u = "SCH_TECHOT")
  /\ (startsWith "MN " u = true \/ u = "MNTECH" -> callRate u = "MN TECHOT")
  /\ (u = "TECH" -> callRate u = "TechOT").
Proof.
  unfold callRate.
  repeat split; intros; orbs; subst; try reflexivity;
    split_ifs; orbs; try reflexivity; try congruence; try clash.
Qed.

Lemma callRate_keeps_prefix (u : string) :
  (startsWith "WN " u = true -> startsWith "WN " (callRate u) = true)
  /\ (startsWith "SCH_" u = true \/ startsWith "SCH " u = true ->
      startsWith "SCH_" (callRate u) = true)
  /\ (startsWith "MN " u = true -> startsWith "MN " (callRate u) = true).
Proof.
  unfold callRate.
  repeat split; intros; orbs;
    split_ifs; orbs; try reflexivity; try congruence; try clash.
Qed.

(** A string that starts with a text starts with what the text starts
    with. *)
Lemma startsWith_app (p q s : string) :
  startsWith (p ++ q) s = true -> startsWith p s = true.
Proof.
  unfold startsWith. revert s. induction p as [|a p IH]; intros s.
  - destruct s; reflexivity.
  - destruct s as [|c s]; cbn; [discriminate|].
    destruct (ascii_dec a c); [apply IH | discriminate].
Qed.

(** A rate that holds "HELPER": with a branch prefix it gets the TECHOT
    variant of the branch, without one the HELPEROT variant. *)
Lemma callRate_helper (u : string) :
  includes "HELPER" u = true ->
  (startsWith "WN " u = true \/ startsWith "SCH_" u = true
   \/ startsWith "SCH " u = true \/ startsWith "MN " u = true ->
   In (callRate u)
      ["WN MN TECHOT"; "WN TECHOT"; "SCH_MNTECHOT"; "SCH_TECHOT"; "MN TECHOT"])
  /\ (startsWith "WN " u = false -> startsWith "SCH_" u = false ->
      startsWith "SCH " u = false -> startsWith "MN " u = false ->
      callRate u = if startsWith "SCH" u then "SCH_HELPEROT" else "HELPEROT").
Proof.
  intros Hh. unfold callRate. split.
  - intros H. split_ifs; orbs; cbn [In]; try tauto; try congruence; try clash.
  - intros H1 H2 H3 H4. rewrite H1, H2, H3, H4. cbn [orb].
    destruct (startsWith "WN MN " u) eqn:E1.
    { apply (startsWith_app "WN " "MN ") in E1. congruence. }
    destruct (startsWith "SCH_MN" u) eqn:E2.
    { apply (startsWith_app "SCH_" "MN") in E2. congruence. }
    destruct (String.eqb_spec u "MNTECH") as [->|_]; [discriminate Hh|].
    destruct (String.eqb_spec u "TECH") as [->|_]; [discriminate Hh|].
    now rewrite Hh.
Qed.

(** Two values of the branches of rule 5 that it never gives. *)
Lemma callRate_dead (u : string) :
  callRate u <> "WN HELPEROT" /\ callRate u <> "MN HELPEROT".
Proof.
  unfold callRate. split; split_ifs; orbs; try discriminate; try congruence; try clash.
Qed.

(** A rate rule 6 replaces is replaced by one that ends in NB. *)
Lemma noBillRate_ends_NB (r : string) :
  noBillRate r <> r -> endsWith "NB" (toUpperCase (noBillRate r)) = true.
Proof. unfold noBillRate. split_ifs; intros H; try reflexivity; congruence. Qed.

Section Rules.

Variable isSunday : string -> bool.

(** ** Each rule as one conditional *)

Lemma rule1_eq (e : Entry) (ch : list Change) :
  applyRule1_TechUnapplied e ch =
  if fires1 e
  then (setPayType "Unapplied" e,
        push ch (change e "payType" (payType e) "Unapplied"
                   "Rule 1: TechUnapplied → Unapplied Pay Type"
                   "Cost Category is TechUnapplyd, so Pay Type must be Unapplied"))
  else (e, ch).
Proof. reflexivity. Qed.

Lemma rule2_eq (e : Entry) (ch : list Change) :
  applyRule2_ServiceInstallRates e ch =
  if fires2 e
  then (setLaborRate "Tech" e,
        push ch (change e "laborRate" (laborRate e) "Tech"
                   "Rule 2: Service/Install Labor Rate Validation"
                   ("Cost Code is " ++ toUpperCase (costCode e)
                    ++ ", Labor Rate must be one of: "
                    ++ join ", " SERVICE_INSTALL_LABOR_RATES)))
  else (e, ch).
Proof. reflexivity. Qed.

Lemma rule3_eq (e : Entry) (ch : list Change) :
  applyRule3_PMRates e ch =
  if fires3 e
  then (setLaborRate "PMTECH" e,
        push ch (change e "laborRate" (laborRate e) "PMTECH"
                   "Rule 3: PM Labor Rate Validation"
                   ("Cost Code is " ++ toUpperCase (costCode e)
                    ++ ", Labor Rate must be one of: " ++ join ", " PM_LABOR_RATES)))
  else (e, ch).
Proof. reflexivity. Qed.

(** Rule 4 holds two conditionals, each with its own change. *)
Lemma rule4_eq (e : Entry) (ch : list Change) :
  applyRule4_SundayPremium isSunday e ch =
  if isSunday (date e) then
    let e1 := if negb (String.eqb (payType e) "Double Time")
              then setPayType "Double Time" e else e in
    let ch1 := if negb (String.eqb (payType e) "Double Time")
               then push ch (change e "payType" (payType e) "Double Time"
                               "Rule 4: Sunday Premium Pay"
                               "Work on Sunday requires Double Time pay type")
               else ch in
    if negb (includes "PREM" (toUpperCase (laborRate e)))
    then (setLaborRate (premRate (toUpperCase (laborRate e))) e1,
          push ch1 (change e "laborRate" (laborRate e)
                      (premRate (toUpperCase (laborRate e)))
                      "Rule 4: Sunday Premium Rate"
                      "Work on Sunday requires PREM labor rate"))
    else (e1, ch1)
  else (e, ch).
Proof.
  unfold applyRule4_SundayPremium.
  destruct (isSunday (date e)); [|reflexivity].
  destruct (negb (String.eqb (payType e) "Double Time")); cbv zeta beta iota;
    cbn [laborRate setPayType];
    rewrite falsy_has_no by discriminate; rewrite upper_or_empty; reflexivity.
Qed.

(** In rule 5 the last test, that the rate differs from the one to write,
    never fails: the rate to write holds OT and the rate of the entry does
    not. *)
Lemma rule5_eq (e : Entry) (ch : list Change) :
  applyRule5_CallWork e ch =
  if fires5 e
  then (setLaborRate (callRate (toUpperCase (laborRate e))) e,
        push ch (change e "laborRate" (laborRate e)
                   (callRate (toUpperCase (laborRate e)))
                   "Rule 5: Call Work Labor Rate"
                   "Call pay type requires overtime labor rate"))
  else (e, ch).
Proof.
  unfold applyRule5_CallWork, fires5. rewrite upper_or_empty.
  destruct (String.eqb (payType e) "Call"); [|reflexivity].
  destruct (includes "OT" (toUpperCase (laborRate e))) eqn:HOT; [reflexivity|].
  cbn [andb negb].
  rewrite (differ_by (fun s => includes "OT" (toUpperCase s)) _ _ HOT
             (callRate_has_OT _)).
  reflexivity.
Qed.

Lemma rule6_eq (e : Entry) (ch : list Change) :
  applyRule6_NoBillDetection e ch =
  if fires6 e
  then (setLaborRate (noBillRate (laborRate e)) e,
        push ch (change e "laborRate" (laborRate e) (noBillRate (laborRate e))
                   "Rule 6: No Bill Detection"
                   ("Description contains " ++ dquote ++ "No Bill" ++ dquote
                    ++ " - adding NB suffix to labor rate")))
  else (e, ch).
Proof.
  unfold applyRule6_NoBillDetection, fires6, concerns6.
  destruct (truthy (description e) && includes "no bill" (toLowerCase (description e)));
    [|reflexivity].
  destruct (truthy (laborRate e)); [|reflexivity].
  destruct (endsWith "NB" (toUpperCase (laborRate e))); [reflexivity|].
  cbn [andb negb orb].
  destruct (String.eqb (noBillRate (laborRate e)) (laborRate e)); reflexivity.
Qed.

Lemma rule7_eq (e : Entry) (ch : list Change) :
  applyRule7_OfficeOverride e ch =
  if fires7 e
  then (setPayType "Regular" e,
        push ch (change e "payType" (payType e) "Regular"
                   "Rule 7: Office Override"
                   ("Office cost code " ++ toUpperCase (costCode e)
                    ++ " requires Regular pay type")))
  else (e, ch).
Proof. reflexivity. Qed.

(** ** Every rule behaves *)

(** A rule behaves when it treats the list of changes uniformly, does
    nothing when its condition fails and, when it holds, assigns only the
    two fields, pushes changes whose values differ, at least one, and
    leaves an entry on which the condition fails. *)
Lemma behaves_intro (rule : Entry -> list Change -> Entry * list Change)
    (fires : Entry -> bool) :
  (forall e ch, rule e ch = (fst (rule e []), (ch ++ snd (rule e []))%list)) ->
  (forall e, fires e = false -> rule e [] = (e, [])) ->
  (forall e, fires e = true ->
     assignsOnly e (fst (rule e [])) /\ Forall realChange (snd (rule e []))
     /\ snd (rule e []) <> [] /\ fires (fst (rule e [])) = false) ->
  behaves rule fires.
Proof.
  intros Huni Hquiet Hfire e ch.
  exists (fst (rule e [])), (snd (rule e [])).
  split; [apply Huni|].
  destruct (fires e) eqn:HF.
  - destruct (Hfire e HF) as (H1 & H2 & H3 & H4).
    split; [exact H1|]. split; [exact H2|]. split; [discriminate|].
    split; [intros _; exact H3 | exact H4].
  - rewrite (Hquiet e HF). cbn [fst snd].
    split; [apply assignsOnly_refl|]. split; [constructor|].
    split; [intros _; split; reflexivity|]. split; [discriminate | exact HF].
Qed.

Lemma rule1_behaves : behaves applyRule1_TechUnapplied fires1.
Proof.
  apply behaves_intro.
  - intros e ch. rewrite !rule1_eq. destruct (fires1 e); cbn [fst snd].
    + reflexivity.
    + now rewrite app_nil_r.
  - intros e HF. now rewrite rule1_eq, HF.
  - intros e HF. rewrite rule1_eq, HF. cbn [fst snd].
    unfold fires1 in HF. apply andb_true_iff in HF as [_ HF].
    split; [auto with payroll|].
    split; [repeat constructor; exact (neq_of_negb_eqb _ _ HF)|].
    split; [discriminate|].
    unfold fires1. fields. rewrite String.eqb_refl. apply andb_false_r.
Qed.

Lemma rule2_behaves : behaves applyRule2_ServiceInstallRates fires2.
Proof.
  apply behaves_intro.
  - intros e ch. rewrite !rule2_eq. destruct (fires2 e); cbn [fst snd].
    + reflexivity.
    + now rewrite app_nil_r.
  - intros e HF. now rewrite rule2_eq, HF.
  - intros e HF. rewrite rule2_eq, HF. cbn [fst snd].
    unfold fires2 in HF. apply andb_true_iff in HF as [_ HF].
    apply negb_true_iff in HF.
    split; [auto with payroll|].
    split; [repeat constructor; unfold realChange; fields;
            intros Heq; rewrite Heq in HF; discriminate|].
    split; [discriminate|].
    unfold fires2. fields. apply andb_false_r.
Qed.

Lemma rule3_behaves : behaves applyRule3_PMRates fires3.
Proof.
  apply behaves_intro.
  - intros e ch. rewrite !rule3_eq. destruct (fires3 e); cbn [fst snd].
    + reflexivity.
    + now rewrite app_nil_r.
  - intros e HF. now rewrite rule3_eq, HF.
  - intros e HF. rewrite rule3_eq, HF. cbn [fst snd].
    unfold fires3 in HF. apply andb_true_iff in HF as [_ HF].
    apply negb_true_iff in HF.
    split; [auto with payroll|].
    split; [repeat constructor; unfold realChange; fields;
            intros Heq; rewrite Heq in HF; discriminate|].
    split; [discriminate|].
    unfold fires3. fields. apply andb_false_r.
Qed.

Lemma rule4_behaves : behaves (applyRule4_SundayPremium isSunday) (fires4 isSunday).
Proof.
  apply behaves_intro.
  - intros e ch. rewrite !rule4_eq.
    destruct (isSunday (date e)); [|cbn; now rewrite app_nil_r].
    cbv zeta.
    destruct (negb (String.eqb (payType e) "Double Time"));
      destruct (negb (includes "PREM" (toUpperCase (laborRate e))));
      cbn [fst snd]; rewrite ?push_app, ?app_nil_r, <- ?app_assoc; reflexivity.
  - intros e HF. rewrite rule4_eq. unfold fires4 in HF.
    destruct (isSunday (date e)); [|reflexivity].
    cbn [andb] in HF. apply orb_false_iff in HF as [-> ->]. reflexivity.
  - intros e HF. rewrite rule4_eq. unfold fires4 in *.
    destruct (isSunday (date e)) eqn:HS; [|discriminate].
    cbn [andb] in HF. cbv zeta.
    destruct (negb (String.eqb (payType e) "Double Time")) eqn:HP;
      destruct (negb (includes "PREM" (toUpperCase (laborRate e)))) eqn:HR;
      try discriminate; cbn [fst snd]; rewrite ?push_app; cbn [app].
    + split; [auto with payroll|].
      split.
      { repeat constructor.
        - exact (neq_of_negb_eqb _ _ HP).
        - unfold realChange; fields. intros Heq. apply negb_true_iff in HR.
          rewrite Heq, premRate_has_PREM in HR. discriminate. }
      split; [discriminate|].
      fields. rewrite HS, premRate_has_PREM, String.eqb_refl. reflexivity.
    + split; [auto with payroll|].
      split; [repeat constructor; exact (neq_of_negb_eqb _ _ HP)|].
      split; [discriminate|].
      fields. rewrite HS, HR, String.eqb_refl. reflexivity.
    + split; [auto with payroll|].
      split.
      { repeat constructor. unfold realChange; fields. intros Heq.
        apply negb_true_iff in HR. rewrite Heq, premRate_has_PREM in HR.
        discriminate. }
      split; [discriminate|].
      fields. rewrite HS, HP, premRate_has_PREM. reflexivity.
Qed.

Lemma rule5_behaves : behaves applyRule5_CallWork fires5.
Proof.
  apply behaves_intro.
  - intros e ch. rewrite !rule5_eq. destruct (fires5 e); cbn [fst snd].
    + reflexivity.
    + now rewrite app_nil_r.
  - intros e HF. now rewrite rule5_eq, HF.
  - intros e HF. rewrite rule5_eq, HF. cbn [fst snd].
    unfold fires5 in HF. apply andb_true_iff in HF as [_ HF].
    apply negb_true_iff in HF.
    split; [auto with payroll|].
    split; [repeat constructor; unfold realChange; fields; intros Heq;
            rewrite Heq, callRate_has_OT in HF; discriminate|].
    split; [discriminate|].
    unfold fires5. fields. rewrite callRate_has_OT. apply andb_false_r.
Qed.

Lemma rule6_behaves : behaves applyRule6_NoBillDetection fires6.
Proof.
  apply behaves_intro.
  - intros e ch. rewrite !rule6_eq. destruct (fires6 e); cbn [fst snd].
    + reflexivity.
    + now rewrite app_nil_r.
  - intros e HF. now rewrite rule6_eq, HF.
  - intros e HF. rewrite rule6_eq, HF. cbn [fst snd].
    unfold fires6 in HF. apply andb_true_iff in HF as [_ HF].
    apply neq_of_negb_eqb in HF.
    split; [auto with payroll|].
    split; [repeat constructor; unfold realChange; fields; congruence|].
    split; [discriminate|].
    unfold fires6, concerns6. fields. rewrite (noBillRate_ends_NB _ HF).
    cbn [negb]. rewrite andb_false_r. reflexivity.
Qed.

Lemma rule7_behaves : behaves applyRule7_OfficeOverride fires7.
Proof.
  apply behaves_intro.
  - intros e ch. rewrite !rule7_eq. destruct (fires7 e); cbn [fst snd].
    + reflexivity.
    + now rewrite app_nil_r.
  - intros e HF. now rewrite rule7_eq, HF.
  - intros e HF. rewrite rule7_eq, HF. cbn [fst snd].
    unfold fires7 in HF. apply andb_true_iff in HF as [_ HF].
    split; [auto with payroll|].
    split; [repeat constructor; exact (neq_of_negb_eqb _ _ HF)|].
    split; [discriminate|].
    unfold fires7. fields. rewrite String.eqb_refl. apply andb_false_r.
Qed.

Lemma ruleSequence_behaves : Forall2 behaves (ruleSequence isSunday) (firesAll isSunday).
Proof.
  repeat constructor;
    auto using rule1_behaves, rule2_behaves, rule3_behaves, rule4_behaves,
               rule5_behaves, rule6_behaves, rule7_behaves.
Qed.

(** A rule that behaves does nothing on what it has just produced. *)
Lemma behaves_idempotent (rule : Entry -> list Change -> Entry * list Change)
    (fires : Entry -> bool) :
  behaves rule fires ->
  forall e ch, rule (fst (rule e ch)) (snd (rule e ch)) = rule e ch.
Proof.
  intros Hb e ch.
  destruct (Hb e ch) as (e1 & n1 & Hr & _ & _ & _ & _ & Hf).
  rewrite Hr. cbn [fst snd].
  destruct (Hb e1 (ch ++ n1)%list) as (e2 & n2 & Hr2 & _ & _ & Hq & _).
  destruct (Hq Hf) as [-> ->]. now rewrite Hr2, app_nil_r.
Qed.

(** ** The rules in sequence *)

(** Rules that behave, run one after the other: the changes are appended,
    only the two fields are assigned, every change is real, and there is no
    change exactly when no condition holds on the entry, which is then left
    as it is. *)
Lemma run_behaves (rules : list (Entry -> list Change -> Entry * list Change))
    (fs : list (Entry -> bool)) :
  Forall2 behaves rules fs ->
  forall e ch, exists e' new,
    fold_left (fun acc rule => rule (fst acc) (snd acc)) rules (e, ch)
      = (e', (ch ++ new)%list)
    /\ assignsOnly e e'
    /\ Forall realChange new
    /\ (new = [] <-> Forall (fun f => f e = false) fs)
    /\ (new = [] -> e' = e).
Proof.
  induction 1 as [|rule f rules fs Hb _ IH]; intros e ch.
  - exists e, []. cbn. rewrite app_nil_r.
    split; [reflexivity|]. split; [apply assignsOnly_refl|].
    split; [constructor|]. split; [|reflexivity].
    split; [constructor | reflexivity].
  - destruct (Hb e ch) as (e1 & n1 & Hr & Ha1 & Hc1 & Hq & Hf & _).
    destruct (IH e1 (ch ++ n1)%list) as (e' & n2 & Hrun & Ha2 & Hc2 & Hiff & Hid).
    exists e', (n1 ++ n2)%list. cbn [fold_left fst snd].
    rewrite Hr. cbn [fst snd]. rewrite Hrun, app_assoc.
    split; [reflexivity|]. split; [eapply assignsOnly_trans; eassumption|].
    split; [apply Forall_app; split; assumption|].
    split.
    + split.
      * intros Hnil. apply app_eq_nil in Hnil as [Hn1 Hn2].
        destruct (f e) eqn:Hfe; [destruct (Hf eq_refl Hn1)|].
        destruct (Hq eq_refl) as [-> _].
        constructor; [exact Hfe | now apply Hiff].
      * intros Hall. inversion Hall as [|? ? Hfe Hrest]; subst.
        destruct (Hq Hfe) as [-> ->]. cbn. now apply Hiff.
    + intros Hnil. apply app_eq_nil in Hnil as [Hn1 Hn2].
      destruct (f e) eqn:Hfe; [destruct (Hf eq_refl Hn1)|].
      destruct (Hq eq_refl) as [-> _]. now apply Hid.
Qed.

Lemma corrected_spec (e : Entry) :
  exists e' new,
    corrected isSunday e = (e', new)
    /\ assignsOnly e e'
    /\ Forall realChange new
    /\ (new = [] <-> Forall (fun f => f e = false) (firesAll isSunday))
    /\ (new = [] -> e' = e).
Proof.
  destruct (run_behaves _ _ ruleSequence_behaves e []) as (e' & new & H).
  exists e', new. exact H.
Qed.

Lemma corrected_unfold (e : Entry) :
  corrected isSunday e =
  let s1 := applyRule1_TechUnapplied e [] in
  let s2 := applyRule2_ServiceInstallRates (fst s1) (snd s1) in
  let s3 := applyRule3_PMRates (fst s2) (snd s2) in
  let s4 := applyRule4_SundayPremium isSunday (fst s3) (snd s3) in
  let s5 := applyRule5_CallWork (fst s4) (snd s4) in
  let s6 := applyRule6_NoBillDetection (fst s5) (snd s5) in
  applyRule7_OfficeOverride (fst s6) (snd s6).
Proof. reflexivity. Qed.

(** No change is recorded exactly when no rule fires on the entry. *)
Lemma corrected_quiet_iff (e : Entry) :
  snd (corrected isSunday e) = [] <->
  fires1 e = false /\ fires2 e = false /\ fires3 e = false /\ fires4 isSunday e = false
  /\ fires5 e = false /\ fires6 e = false /\ fires7 e = false.
Proof.
  destruct (corrected_spec e) as (e' & new & -> & _ & _ & Hiff & _).
  cbn [snd]. rewrite Hiff. unfold firesAll. split.
  - intros H. repeat match goal with
                     | H : Forall _ (_ :: _) |- _ => inversion H; subst; clear H
                     end.
    repeat split; assumption.
  - intros (H1 & H2 & H3 & H4 & H5 & H6 & H7). repeat constructor; assumption.
Qed.

Lemma corrected_quiet (e : Entry) :
  snd (corrected isSunday e) = [] -> fst (corrected isSunday e) = e.
Proof.
  destruct (corrected_spec e) as (e' & new & -> & _ & _ & _ & Hid).
  exact Hid.
Qed.

(** ** The pay type along the sequence *)

Local Abbreviation notRule5 := (fun c : Change => chRule c <> "Rule 5: Call Work Labor Rate").

(** What a step of the sequence does to the pay type [p] it finds: the
    changes are appended and none is of rule 5, date and cost code stay. *)
Local Abbreviation step rule p' :=
  (forall (e : Entry) (ch : list Change),
     payType (fst (rule e ch)) = p' e
     /\ date (fst (rule e ch)) = date e
     /\ costCode (fst (rule e ch)) = costCode e
     /\ exists new, snd (rule e ch) = (ch ++ new)%list /\ Forall notRule5 new).

Ltac step_done :=
  cbn [fst snd]; fields;
  repeat split; try reflexivity;
  first [ exists []; split; [now rewrite app_nil_r | constructor]
        | eexists [_]; split; [reflexivity|]; repeat constructor; fields; discriminate
        | eexists [_; _]; split; [unfold push; now rewrite <- app_assoc|];
          repeat constructor; fields; discriminate ].

Lemma rule2_step : step applyRule2_ServiceInstallRates payType.
Proof. intros e ch. rewrite rule2_eq. destruct (fires2 e); step_done. Qed.

Lemma rule3_step : step applyRule3_PMRates payType.
Proof. intros e ch. rewrite rule3_eq. destruct (fires3 e); step_done. Qed.

Lemma rule4_step :
  step (applyRule4_SundayPremium isSunday)
       (fun e => if isSunday (date e) then "Double Time" else payType e).
Proof.
  intros e ch. rewrite rule4_eq. destruct (isSunday (date e)); [|step_done].
  cbv zeta.
  destruct (negb (String.eqb (payType e) "Double Time")) eqn:HP;
    destruct (negb (includes "PREM" (toUpperCase (laborRate e))));
    try step_done.
  - cbn [fst snd]. fields. apply negb_false_iff, String.eqb_eq in HP.
    repeat split; try assumption.
    eexists [_]. split; [reflexivity|]. repeat constructor; fields; discriminate.
  - cbn [fst snd]. apply negb_false_iff, String.eqb_eq in HP.
    repeat split; try assumption.
    exists []. split; [now rewrite app_nil_r | constructor].
Qed.

Lemma rule6_step : step applyRule6_NoBillDetection payType.
Proof. intros e ch. rewrite rule6_eq. destruct (fires6 e); step_done. Qed.

Lemma rule7_step :
  step applyRule7_OfficeOverride
       (fun e => if arrayIncludes OFFICE_COST_CODES (toUpperCase (costCode e))
                 then "Regular" else payType e).
Proof.
  intros e ch. rewrite rule7_eq. unfold fires7.
  destruct (arrayIncludes OFFICE_COST_CODES (toUpperCase (costCode e)));
    [|step_done].
  destruct (negb (String.eqb (payType e) "Regular")) eqn:HP; [step_done|].
  cbn [andb fst snd]. apply negb_false_iff, String.eqb_eq in HP.
  repeat split; try assumption.
  exists []. split; [now rewrite app_nil_r | constructor].
Qed.

(** Rule 5 does nothing when the pay type is not "Call". *)
Lemma rule5_quiet (e : Entry) (ch : list Change) :
  String.eqb (payType e) "Call" = false -> applyRule5_CallWork e ch = (e, ch).
Proof. intros H. rewrite rule5_eq. unfold fires5. now rewrite H. Qed.

(** Rule 1 first: with costCategory TechUnapplyd and payType Call the
    sequence starts with the change of rule 1, rule 5 finds a pay type that
    is no longer "Call", and the pay type at the end is the one of the last
    rule that assigns it. *)
Lemma rule1_precedence (e : Entry) :
  costCategory e = "TechUnapplyd" -> payType e = "Call" ->
  exists e' rest,
    corrected isSunday e
    = (e', change e "payType" "Call" "Unapplied"
              "Rule 1: TechUnapplied → Unapplied Pay Type"
              "Cost Category is TechUnapplyd, so Pay Type must be Unapplied" :: rest)
    /\ payType e' =
        (if arrayIncludes OFFICE_COST_CODES (toUpperCase (costCode e)) then "Regular"
         else if isSunday (date e) then "Double Time" else "Unapplied")
    /\ Forall notRule5 rest.
Proof.
  intros Hcat Hpay. rewrite corrected_unfold. cbv zeta.
  rewrite rule1_eq. unfold fires1. rewrite Hcat, Hpay. consts.
  set (e1 := setPayType "Unapplied" e).
  set (c1 := push [] _).
  destruct (rule2_step e1 c1) as (P2 & D2 & C2 & n2 & S2 & F2).
  set (s2 := applyRule2_ServiceInstallRates e1 c1) in *.
  destruct (rule3_step (fst s2) (snd s2)) as (P3 & D3 & C3 & n3 & S3 & F3).
  set (s3 := applyRule3_PMRates (fst s2) (snd s2)) in *.
  destruct (rule4_step (fst s3) (snd s3)) as (P4 & D4 & C4 & n4 & S4 & F4).
  set (s4 := applyRule4_SundayPremium isSunday (fst s3) (snd s3)) in *.
  assert (Hd : date (fst s3) = date e) by (now rewrite D3, D2).
  assert (Hc : costCode (fst s4) = costCode e) by (now rewrite C4, C3, C2).
  assert (Hp4 : payType (fst s4)
                = if isSunday (date e) then "Double Time" else "Unapplied").
  { rewrite P4, Hd, P3, P2. reflexivity. }
  assert (Hq : String.eqb (payType (fst s4)) "Call" = false).
  { rewrite Hp4. destruct (isSunday (date e)); reflexivity. }
  rewrite (rule5_quiet _ _ Hq). cbn [fst snd].
  destruct (rule6_step (fst s4) (snd s4)) as (P6 & D6 & C6 & n6 & S6 & F6).
  set (s6 := applyRule6_NoBillDetection (fst s4) (snd s4)) in *.
  destruct (rule7_step (fst s6) (snd s6)) as (P7 & D7 & C7 & n7 & S7 & F7).
  set (s7 := applyRule7_OfficeOverride (fst s6) (snd s6)) in *.
  exists (fst s7), (n2 ++ n3 ++ n4 ++ n6 ++ n7)%list.
  split; [|split].
  - apply injective_projections; cbn [fst snd]; [reflexivity|].
    rewrite S7, S6, S4, S3, S2. subst c1. unfold push.
    rewrite <- !app_assoc. reflexivity.
  - rewrite P7, C6, Hc, P6, Hp4. reflexivity.
  - repeat (apply Forall_app; split); assumption.
Qed.

(** ** The whole sequence a second time *)

(** On a plain entry only rules 1, 2 and 5 can fire, and each leaves what
    the other two require. *)
Lemma plain_pipeline (e : Entry) :
  plainEntry isSunday e ->
  snd (corrected isSunday (fst (corrected isSunday e))) = [].
Proof.
  intros (Hsun & Hpm & Hoff & Hnb).
  apply corrected_quiet_iff.
  rewrite corrected_unfold. cbv zeta.
  rewrite rule1_eq.
  set (e1 := fst (if fires1 e then _ else _)).
  set (c1 := snd (if fires1 e then _ else _)).
  assert (K1 : costCategory e1 = costCategory e /\ costCode e1 = costCode e
               /\ date e1 = date e /\ description e1 = description e
               /\ laborRate e1 = laborRate e /\ fires1 e1 = false).
  { subst e1. destruct (fires1 e) eqn:F1; cbn [fst]; fields;
      repeat split; try assumption.
    unfold fires1. fields. rewrite String.eqb_refl. apply andb_false_r. }
  destruct K1 as (Kcat1 & Kcode1 & Kdate1 & Kdesc1 & Krate1 & Kf1).
  rewrite rule2_eq.
  set (e2 := fst (if fires2 e1 then _ else _)).
  set (c2 := snd (if fires2 e1 then _ else _)).
  assert (K2 : costCategory e2 = costCategory e /\ costCode e2 = costCode e
               /\ date e2 = date e /\ description e2 = description e
               /\ payType e2 = payType e1 /\ fires2 e2 = false).
  { subst e2. destruct (fires2 e1) eqn:F2; cbn [fst]; fields;
      repeat split; try assumption.
    unfold fires2. fields. apply andb_false_r. }
  destruct K2 as (Kcat2 & Kcode2 & Kdate2 & Kdesc2 & Kpay2 & Kf2).
  assert (Q3 : forall x, costCode x = costCode e -> fires3 x = false).
  { intros x Hx. unfold fires3. now rewrite Hx, Hpm. }
  assert (Q6 : forall x, description x = description e -> fires6 x = false).
  { intros x Hx. unfold fires6, concerns6. rewrite Hx, Hnb.
    now rewrite andb_false_r. }
  assert (Q7 : forall x, costCode x = costCode e -> fires7 x = false).
  { intros x Hx. unfold fires7. now rewrite Hx, Hoff. }
  rewrite rule3_eq, (Q3 e2 Kcode2). cbn [fst snd].
  rewrite rule4_eq, Kdate2, Hsun. cbn [fst snd].
  rewrite rule5_eq.
  set (e5 := fst (if fires5 e2 then _ else _)).
  set (c5 := snd (if fires5 e2 then _ else _)).
  assert (K5 : costCategory e5 = costCategory e /\ costCode e5 = costCode e
               /\ date e5 = date e /\ description e5 = description e
               /\ payType e5 = payType e1 /\ fires2 e5 = false /\ fires5 e5 = false).
  { subst e5. destruct (fires5 e2) eqn:F5; cbn [fst]; fields;
      repeat split; try assumption.
    - unfold fires2. fields. rewrite callRate_allowed. apply andb_false_r.
    - unfold fires5. fields. rewrite callRate_has_OT. apply andb_false_r. }
  destruct K5 as (Kcat5 & Kcode5 & Kdate5 & Kdesc5 & Kpay5 & Kf25 & Kf5).
  rewrite rule6_eq, (Q6 e5 Kdesc5). cbn [fst snd].
  rewrite rule7_eq, (Q7 e5 Kcode5). cbn [fst].
  repeat split; auto.
  - unfold fires1 in *. now rewrite Kcat5, Kpay5, <- Kcat1.
  - unfold fires4. now rewrite Kdate5, Hsun.
Qed.

(** ** The store *)

Lemma load_eq (r : ref) (e : Entry) (σ : Store) :
  σ !! r = Some e -> load r σ = Some (e, σ).
Proof. unfold load. now intros ->. Qed.

Lemma lookup_fresh (σ : Store) (e : Entry) : (σ ++ [e])%list !! length σ = Some e.
Proof. now apply list_lookup_middle. Qed.

Lemma insert_fresh (σ : Store) (e e' : Entry) :
  <[length σ := e']> (σ ++ [e])%list = (σ ++ [e'])%list.
Proof. rewrite insert_app_r_alt by lia. now rewrite Nat.sub_diag. Qed.

(** A rule called on the newest object of the store. *)
Lemma callRule_fresh (rule : Entry -> list Change -> Entry * list Change)
    (σ : Store) (e : Entry) (ch : list Change) :
  callRule rule (length σ) ch (σ ++ [e])%list
  = Some (snd (rule e ch), (σ ++ [fst (rule e ch)])%list).
Proof.
  unfold callRule, mbind, M_bind, mret, M_ret, load, store.
  rewrite lookup_fresh. destruct (rule e ch) as [e' ch'].
  rewrite lookup_fresh, insert_fresh. reflexivity.
Qed.

(** One turn of the loop: the store grows by the corrected copy. *)
Lemma correctEntry_eq (r : ref) (e : Entry) (σ : Store) :
  σ !! r = Some e ->
  correctEntry isSunday r σ
  = Some ((length σ, snd (corrected isSunday e)),
          (σ ++ [fst (corrected isSunday e)])%list).
Proof.
  intros Hr. unfold correctEntry.
  unfold mbind at 1. unfold M_bind at 1. rewrite (load_eq _ _ _ Hr).
  unfold mbind at 1. unfold M_bind at 1. unfold alloc at 1.
  repeat (unfold mbind at 1; unfold M_bind at 1; rewrite callRule_fresh).
  reflexivity.
Qed.

(** The loop: one fresh reference per input reference, the corrected
    copies appended to the store in that order, the changes concatenated. *)
Lemma applyRulesLoop_eq (refs : list ref) (es : list Entry) :
  forall (σ : Store) cd ch,
  Forall2 (fun r e => σ !! r = Some e) refs es ->
  applyRulesLoop isSunday refs cd ch σ
  = Some ((cd ++ seq (length σ) (length refs),
           ch ++ concat (map (fun e => snd (corrected isSunday e)) es)),
          σ ++ map (fun e => fst (corrected isSunday e)) es)%list.
Proof.
  revert es. induction refs as [|r refs IH]; intros es σ cd ch Hall.
  - inversion Hall; subst. cbn. now rewrite !app_nil_r.
  - inversion Hall as [|? e ? es' Hr Hrest]; subst.
    cbn [applyRulesLoop]. unfold mbind at 1. unfold M_bind at 1.
    rewrite (correctEntry_eq _ _ _ Hr).
    rewrite (IH es').
    + rewrite length_app. cbn [length map concat seq].
      rewrite Nat.add_1_r. unfold push.
      rewrite <- !app_assoc. reflexivity.
    + eapply Forall2_impl; [exact Hrest|].
      intros r' e' Hl. cbn beta in Hl. now apply lookup_app_l_Some.
Qed.

Lemma applyRulesTo_eq (e : Entry) :
  applyRulesTo isSunday e = Some (corrected isSunday e).
Proof.
  unfold applyRulesTo, applyRules.
  rewrite (applyRulesLoop_eq [0] [e]) by (repeat constructor).
  cbn [length app seq map concat]. rewrite app_nil_r.
  change ([e] ++ [fst (corrected isSunday e)])%list
    with [e; fst (corrected isSunday e)].
  cbn [lookup list_lookup]. now destruct (corrected isSunday e).
Qed.

(** The corrected copies sit behind the fresh references, in order. *)
Lemma corrected_copies (σ : Store) (es pre : list Entry) :
  Forall2 (fun r' e =>
             length σ <= r'
             /\ exists e', (σ ++ pre ++ map (fun e => fst (corrected isSunday e)) es)%list
                             !! r' = Some e'
                           /\ assignsOnly e e')
          (seq (length σ + length pre) (length es)) es.
Proof.
  revert pre. induction es as [|e es IH]; intros pre; [constructor|].
  cbn [length seq map]. constructor.
  - split; [lia|]. exists (fst (corrected isSunday e)). split.
    + rewrite app_assoc. apply list_lookup_middle. now rewrite length_app.
    + destruct (corrected_spec e) as (e' & new & -> & Ha & _). exact Ha.
  - specialize (IH (pre ++ [fst (corrected isSunday e)])%list).
    rewrite length_app, Nat.add_assoc, Nat.add_1_r in IH. cbn [length] in IH.
    rewrite <- app_assoc in IH. exact IH.
Qed.

(** ** The issues of validateEntry *)

(** The list of issues, condition by condition. *)
Lemma issuesOf_eq (e : Entry) :
  issuesOf isSunday e =
  ((if fires1 e then ["Cost Category is TechUnapplyd but Pay Type is not Unapplied"] else [])
   ++ (if fires2 e
       then [String.append "Service/Install work requires approved labor rate, got: "
                           (laborRate e)]
       else [])
   ++ (if fires3 e
       then [String.append "PM work requires approved labor rate, got: " (laborRate e)]
       else [])
   ++ (if isSunday (date e) && negb (String.eqb (payType e) "Double Time")
       then ["Sunday work requires Double Time pay type"] else [])
   ++ (if isSunday (date e) && negb (includes "PREM" (toUpperCase (laborRate e)))
       then ["Sunday work requires PREM labor rate"] else [])
   ++ (if fires5 e then ["Call work requires overtime labor rate"] else [])
   ++ (if concerns6 e then [noBillIssue] else [])
   ++ (if fires7 e
       then [String.append "Office cost code "
               (String.append (toUpperCase (costCode e)) " requires Regular pay type")]
       else []))%list.
Proof.
  unfold issuesOf. cbv zeta. rewrite !upper_or_empty.
  rewrite !if_push. rewrite <- !app_assoc. rewrite !if_app, !if_if.
  cbn [app]. rewrite <- !app_assoc.
  unfold fires1, fires2, fires3, fires5, concerns6, fires7, noBillIssue.
  rewrite <- !andb_assoc.
  destruct (isSunday (date e)); cbn [andb]; rewrite <- ?app_assoc, ?app_nil_r;
    reflexivity.
Qed.

(** The list is empty when no condition holds, and is the issue of rule 6
    alone when only rule 6 is concerned. *)
Lemma issuesOf_nil_iff (e : Entry) :
  (issuesOf isSunday e = [] <->
   fires1 e = false /\ fires2 e = false /\ fires3 e = false
   /\ fires4 isSunday e = false /\ fires5 e = false /\ concerns6 e = false
   /\ fires7 e = false)
  /\ (issuesOf isSunday e = [noBillIssue] <->
      fires1 e = false /\ fires2 e = false /\ fires3 e = false
      /\ fires4 isSunday e = false /\ fires5 e = false /\ concerns6 e = true
      /\ fires7 e = false).
Proof.
  rewrite issuesOf_eq. unfold fires4.
  destruct (fires1 e);
    [split; split; [discriminate | intros (H & _); discriminate H
                   | intros H; inversion H | intros (H & _); discriminate H]|].
  destruct (fires2 e);
    [split; split; [discriminate | intros (_ & H & _); discriminate H
                   | intros H; inversion H | intros (_ & H & _); discriminate H]|].
  destruct (fires3 e);
    [split; split; [discriminate | intros (_ & _ & H & _); discriminate H
                   | intros H; inversion H | intros (_ & _ & H & _); discriminate H]|].
  destruct (isSunday (date e)); cbn [andb app].
  - destruct (negb (String.eqb (payType e) "Double Time"));
      [split; split; [discriminate | intros (_ & _ & _ & H & _); discriminate H
                     | intros H; inversion H | intros (_ & _ & _ & H & _); discriminate H]|].
    destruct (negb (includes "PREM" (toUpperCase (laborRate e))));
      [split; split; [discriminate | intros (_ & _ & _ & H & _); discriminate H
                     | intros H; inversion H | intros (_ & _ & _ & H & _); discriminate H]|].
    cbn [orb app].
    destruct (fires5 e);
      [split; split; [discriminate | intros (_ & _ & _ & _ & H & _); discriminate H
                     | intros H; inversion H
                     | intros (_ & _ & _ & _ & H & _); discriminate H]|].
    destruct (concerns6 e), (fires7 e); cbn [app];
      split; split; intros H; try discriminate H; try (repeat split; reflexivity);
      try (inversion H; fail);
      try (destruct H as (_ & _ & _ & _ & _ & H6 & H7); discriminate).
  - destruct (fires5 e);
      [split; split; [discriminate | intros (_ & _ & _ & _ & H & _); discriminate H
                     | intros H; inversion H
                     | intros (_ & _ & _ & _ & H & _); discriminate H]|].
    destruct (concerns6 e), (fires7 e); cbn [app];
      split; split; intros H; try discriminate H; try (repeat split; reflexivity);
      try (inversion H; fail);
      try (destruct H as (_ & _ & _ & _ & _ & H6 & H7); discriminate).
Qed.

End Rules.

End RuleFacts.


(* ================================================================== *)
(** * Properties of the parser *)
(* ================================================================== *)

Module ParserFacts.
Import JS Regex ReportScan.

(** ** Characters of a match *)

Lemma allChars_app p a b : allChars p (a ++ b) = allChars p a && allChars p b.
Proof. induction a as [|c a IH]; cbn; [reflexivity|]. now rewrite IH, andb_assoc. Qed.

(** [allChars] is monotone in the class of characters. *)
Lemma allChars_impl (p q : ascii -> bool) s :
  (forall c, p c = true -> q c = true) -> allChars p s = true -> allChars q s = true.
Proof.
  intros Hpq. induction s as [|c s IH]; cbn; [reflexivity|].
  intros H. apply andb_true_iff in H as [Hc Hs].
  now rewrite (Hpq _ Hc), IH.
Qed.

(** The characters of a prefix are characters of the string. *)
Lemma prefix_allChars p pat s :
  String.prefix pat s = true -> allChars p s = true -> allChars p pat = true.
Proof.
  revert s. induction pat as [|a pat IH]; intros s; [reflexivity|].
  destruct s as [|c s]; cbn; [discriminate|].
  destruct (ascii_dec a c) as [->|]; [|discriminate].
  intros Hp H. apply andb_true_iff in H as [Hc Hs].
  now rewrite Hc, (IH _ Hp Hs).
Qed.

(** The characters of a substring are characters of the string. *)
Lemma includes_allChars p pat s :
  includes pat s = true -> allChars p s = true -> allChars p pat = true.
Proof.
  induction s as [|c s IH]; cbn [includes]; intros H Hall.
  - rewrite orb_false_r in H. eapply prefix_allChars; eassumption.
  - apply orb_true_iff in H as [H|H]; [eapply prefix_allChars; eassumption|].
    cbn in Hall. apply andb_true_iff in Hall as [_ Hall]. now apply IH.
Qed.

(** [span] cuts the string in two, the first part of the class. *)
Lemma span_inv p s a r : span p s = (a, r) -> s = a ++ r /\ allChars p a = true.
Proof.
  revert a r. induction s as [|c s IH]; cbn; intros a r H.
  - now inversion H.
  - destruct (p c) eqn:Hc; [|now inversion H].
    destruct (span p s) as [a' r']. inversion H; subst.
    destruct (IH _ _ eq_refl) as [-> Ha]. cbn. now rewrite Hc, Ha.
Qed.

(** So does [spanUpTo]. *)
Lemma spanUpTo_inv n p s a r :
  spanUpTo n p s = (a, r) -> s = a ++ r /\ allChars p a = true.
Proof.
  revert s a r. induction n as [|n IH]; intros s a r H.
  - destruct s; cbn in H; now inversion H.
  - destruct s as [|c s]; cbn in H; [now inversion H|].
    destruct (p c) eqn:Hc; [|now inversion H].
    destruct (spanUpTo n p s) as [a' r'] eqn:Hs. inversion H; subst.
    destruct (IH _ _ _ Hs) as [-> Ha]. cbn. now rewrite Hc, Ha.
Qed.

(** What a match of [some] gives. *)
Lemma some_inv p s a r : some p s = Some (a, r) -> s = a ++ r /\ allChars p a = true.
Proof.
  unfold some. destruct (span p s) as [a' r'] eqn:Hs.
  destruct (truthy a'); [|discriminate]. intros H; inversion H; subst.
  now apply span_inv.
Qed.

(** What a match of [someUpTo] gives. *)
Lemma someUpTo_inv n p s a r :
  someUpTo n p s = Some (a, r) -> s = a ++ r /\ allChars p a = true.
Proof.
  unfold someUpTo. destruct (spanUpTo n p s) as [a' r'] eqn:Hs.
  destruct (truthy a'); [|discriminate]. intros H; inversion H; subst.
  now apply spanUpTo_inv in Hs.
Qed.

(** What a match of [exactly] gives. *)
Lemma exactly_inv n p s a r :
  exactly n p s = Some (a, r) -> s = a ++ r /\ allChars p a = true.
Proof.
  unfold exactly. destruct (spanUpTo n p s) as [a' r'] eqn:Hs.
  destruct (Nat.eqb _ _); [|discriminate]. intros H; inversion H; subst.
  now apply spanUpTo_inv in Hs.
Qed.

(** What a match of [lit] gives. *)
Lemma lit_inv c s r : lit c s = Some r -> s = String c r.
Proof.
  unfold lit. destruct s as [|c' s]; [discriminate|].
  destruct (Ascii.eqb_spec c c'); [|discriminate]. intros H; inversion H; now subst.
Qed.

(** The only falsy string is the empty one. *)
Lemma falsy_empty s : truthy s = false -> s = "".
Proof. unfold truthy. destruct s; [reflexivity | discriminate]. Qed.


Ltac unbind :=
  repeat match goal with
         | H : (?m ≫= _) = Some _ |- _ =>
             let E := fresh "E" in
             (destruct m as [[? ?]|] eqn:E || destruct m as [?|] eqn:E);
             cbn [mbind option_bind] in H; [|discriminate H]
         end.

Ltac invs :=
  repeat match goal with
         | H : someUpTo _ _ _ = Some _ |- _ => apply someUpTo_inv in H as [? ?]
         | H : some _ _ = Some _ |- _ => apply some_inv in H as [? ?]
         | H : exactly _ _ _ = Some _ |- _ => apply exactly_inv in H as [? ?]
         | H : lit _ _ = Some _ |- _ => apply lit_inv in H
         end.

(** Digits are characters of a date. *)
Lemma digit_dateChar c : isDigit c = true -> dateChar c = true.
Proof. unfold dateChar. now intros ->. Qed.

(** Digits are characters of a number of hours. *)
Lemma digit_hoursChar c : isDigit c = true -> hoursChar c = true.
Proof. unfold hoursChar. now intros ->. Qed.

(** White space may surround a number of hours. *)
Lemma space_hoursChar c : isSpace c = true -> hoursChar c = true.
Proof. unfold hoursChar. intros ->. apply orb_true_r. Qed.

Ltac somes :=
  repeat match goal with
         | H : Some _ = Some _ |- _ => inversion H; subst; clear H
         end.

Ltac chars :=
  repeat (rewrite allChars_app || cbn [allChars]);
  rewrite ?(allChars_impl isDigit dateChar _ digit_dateChar) by assumption;
  rewrite ?(allChars_impl isDigit hoursChar _ digit_hoursChar) by assumption;
  rewrite ?(allChars_impl isSpace hoursChar _ space_hoursChar) by assumption;
  try reflexivity.

(** A line that is a date holds digits and slashes only. *)
Lemma dateOnlyMatch_chars s d : dateOnlyMatch s = Some d -> allChars dateChar s = true.
Proof.
  unfold dateOnlyMatch, dateAt. intros H. unbind.
  destruct (truthy _) eqn:Hr in H; [discriminate|]. apply falsy_empty in Hr.
  invs. subst. somes. chars.
Qed.

(** A line that is a number of hours holds digits, a point and white space
    only. *)
Lemma hoursOnlyMatch_chars s h : hoursOnlyMatch s = Some h -> allChars hoursChar s = true.
Proof.
  unfold hoursOnlyMatch. intros H. unbind. invs. subst.
  destruct (lit "." _ ≫= some isDigit) as [[fp r]|] eqn:E.
  - unbind. invs. subst.
    destruct (span isSpace r) as [sp r'] eqn:Hsp. cbn [snd] in H.
    destruct (truthy r') eqn:Hr; [discriminate|]. apply falsy_empty in Hr. subst.
    apply span_inv in Hsp as [-> Hsp]. chars.
  - destruct (span isSpace _) as [sp r'] eqn:Hsp in H. cbn [snd] in H.
    destruct (truthy r') eqn:Hr; [discriminate|]. apply falsy_empty in Hr. subst.
    apply span_inv in Hsp as [-> Hsp]. chars.
Qed.

(** A line of digits. *)
Lemma numericOnlyMatch_chars s : numericOnlyMatch s = true -> allChars isDigit s = true.
Proof.
  unfold numericOnlyMatch. destruct (some isDigit s) as [[a r]|] eqn:E; [|discriminate].
  intros H. apply negb_true_iff, falsy_empty in H. subst. invs. subst.
  now rewrite allChars_app, H0.
Qed.

(** A line that holds "Report Totals" is none of the lines an entry of the
    four-line layout is made of, unless it is the line of fields. *)
Lemma report_totals_not_consumed t :
  includes "Report Totals" t = true ->
  dateOnlyMatch t = None /\ hoursOnlyMatch t = None
  /\ numericOnlyMatch t = false /\ String.eqb t "Source" = false.
Proof.
  intros H. repeat split.
  - destruct (dateOnlyMatch t) eqn:E; [|reflexivity].
    apply dateOnlyMatch_chars in E.
    pose proof (includes_allChars _ _ _ H E). discriminate.
  - destruct (hoursOnlyMatch t) eqn:E; [|reflexivity].
    apply hoursOnlyMatch_chars in E.
    pose proof (includes_allChars _ _ _ H E). discriminate.
  - destruct (numericOnlyMatch t) eqn:E; [|reflexivity].
    apply numericOnlyMatch_chars in E.
    pose proof (includes_allChars _ _ _ H E). discriminate.
  - destruct (String.eqb_spec t "Source"); [|reflexivity]. subst. discriminate.
Qed.


(** ** The scan of the single-line revision *)

Lemma SL_scan_cons st line rest :
  SingleLineParser.scan st (line :: rest) =
  let trimmedLine := trim line in
  if negb (truthy trimmedLine) then SingleLineParser.scan st rest
  else
    let st := notePayPeriod trimmedLine st in
    let st := noteReportDate trimmedLine st in
    match employeeMatchAnchored trimmedLine with
    | Some (name, id) => SingleLineParser.scan (startEmployee name id st) rest
    | None =>
        let st := SingleLineParser.timeEntries trimmedLine st in
        let st := employeeTotals trimmedLine st in
        if includes "Report Totals" trimmedLine then st
        else SingleLineParser.scan st rest
    end.
Proof. reflexivity. Qed.

(** A line that holds a non-empty text is not empty. *)
Lemma includes_truthy p t : p <> "" -> includes p t = true -> truthy t = true.
Proof.
  intros Hp H. destruct t; [|reflexivity].
  destruct p; [congruence | cbn in H; discriminate].
Qed.

(** The loop of the first revision does not read past a line that ends
    the report. *)
Lemma SL_scan_cut pre : forall st rt post post',
  SingleLineParser.endsReport rt ->
  SingleLineParser.scan st (pre ++ rt :: post)
  = SingleLineParser.scan st (pre ++ rt :: post').
Proof.
  induction pre as [|l pre IH]; intros st rt post post' Hrt; cbn [app];
    rewrite !SL_scan_cons; cbv zeta.
  - destruct Hrt as [Hh Hr].
    rewrite (includes_truthy "Report Totals" _ ltac:(discriminate) Hr), Hh, Hr.
    reflexivity.
  - destruct (negb (truthy (trim l))); [now apply IH|].
    destruct (employeeMatchAnchored (trim l)) as [[n i]|]; [now apply IH|].
    destruct (includes "Report Totals" (trim l)); [reflexivity | now apply IH].
Qed.

(** The notes of pay period and report date leave the entries and the
    current employee. *)
Lemma notes_shape t st :
  exists pp rd,
    noteReportDate t (notePayPeriod t st)
    = mkScan (allEntries st) (currentEmployee st) (employeeEntries st) pp rd.
Proof.
  unfold noteReportDate, notePayPeriod. destruct st as [a c es pp rd].
  destruct (includes "Pay Period Id:" t); [destruct (payPeriodIdMatch t)|];
    cbn [scanReportDate]; destruct rd; destruct (reportDateMatch t);
    eexists _, _; reflexivity.
Qed.





(** [parseTimeEntry] of the first revision returns entries of positive
    hours only. *)
Lemma SL_parseTimeEntry_positive l d e :
  SingleLineParser.parseTimeEntry l d = Some e -> positive (rawHours e) = true.
Proof.
  unfold SingleLineParser.parseTimeEntry.
  destruct (negb (truthy d)); [discriminate|]. cbv zeta.
  match goal with
  | |- (if positive ?h then _ else _) = _ -> _ =>
      destruct (positive h) eqn:Hpos; [|discriminate]
  end.
  intros H. inversion H. exact Hpos.
Qed.

(** So does [parseTimeEntry] of the second revision, which its loop does
    not call. *)
Lemma FL_parseTimeEntry_positive l d e :
  FourLineParser.parseTimeEntry l d = Some e -> positive (rawHours e) = true.
Proof.
  unfold FourLineParser.parseTimeEntry.
  destruct (negb (truthy d)); [discriminate|]. cbv zeta.
  match goal with
  | |- (if positive ?h then _ else _) = _ -> _ =>
      destruct (positive h) eqn:Hpos; [|discriminate]
  end.
  intros H. inversion H. exact Hpos.
Qed.

(** Saving keeps the hours positive. *)
Lemma saved_positive st :
  positiveHours st -> Forall (fun e => positive (hours e) = true) (saved st).
Proof.
  intros [Ha He]. unfold saved. destruct (currentEmployee st) as [[n i]|]; [|exact Ha].
  destruct (Nat.ltb 0 _); [|exact Ha].
  apply Forall_app. split; [exact Ha|].
  apply Forall_map. eapply Forall_impl; [exact He|]. now intros x Hx.
Qed.

(** The loop of the first revision keeps the hours positive. *)
Lemma SL_scan_positive lines : forall st,
  positiveHours st -> positiveHours (SingleLineParser.scan st lines).
Proof.
  induction lines as [|l lines IH]; intros st Hst; [exact Hst|].
  rewrite SL_scan_cons. cbv zeta.
  destruct (negb (truthy (trim l))); [now apply IH|].
  destruct (notes_shape (trim l) st) as (pp & rd & ->).
  assert (Hst' : positiveHours (mkScan (allEntries st) (currentEmployee st)
                                       (employeeEntries st) pp rd)) by exact Hst.
  destruct (employeeMatchAnchored (trim l)) as [[n i]|].
  - apply IH. split; [now apply saved_positive | constructor].
  - assert (Hte : positiveHours (SingleLineParser.timeEntries (trim l)
              (mkScan (allEntries st) (currentEmployee st) (employeeEntries st) pp rd))).
    { unfold SingleLineParser.timeEntries. cbn [currentEmployee].
      destruct (currentEmployee st); [|exact Hst'].
      destruct (dateMatch (trim l)) as [d|]; [|exact Hst'].
      destruct (_ && _); [|exact Hst'].
      destruct (SingleLineParser.parseTimeEntry (trim l) d) as [e|] eqn:Hp; [|exact Hst'].
      destruct Hst' as [Ha He]. split; [exact Ha|].
      cbn [pushEntry employeeEntries]. unfold push. apply Forall_app.
      split; [exact He|]. repeat constructor.
      eapply SL_parseTimeEntry_positive; exact Hp. }
    assert (Het : positiveHours (employeeTotals (trim l)
              (SingleLineParser.timeEntries (trim l)
              (mkScan (allEntries st) (currentEmployee st) (employeeEntries st) pp rd)))).
    { unfold employeeTotals. destruct (includes "Employee Totals" _); [|exact Hte].
      split; [now apply saved_positive | constructor]. }
    destruct (includes "Report Totals" _); [exact Het | now apply IH].
Qed.

(** The first revision returns entries of positive hours only. *)
Lemma SL_hours_positive text :
  Forall (fun e => positive (hours e) = true) (SingleLineParser.parseEmployeeData text).
Proof.
  unfold SingleLineParser.parseEmployeeData. apply saved_positive, SL_scan_positive.
  split; constructor.
Qed.

(** ** The scan of the four-line revision *)

Lemma FL_scan_cons skip st line rest :
  FourLineParser.scan skip st (line :: rest) =
  match skip with
  | S k => FourLineParser.scan k st rest
  | O =>
      let trimmedLine := trim line in
      if negb (truthy trimmedLine) then FourLineParser.scan 0 st rest
      else
        let st := notePayPeriod trimmedLine st in
        let st := noteReportDate trimmedLine st in
        match FourLineParser.employeeHeader trimmedLine with
        | Some (name, id) => FourLineParser.scan 0 (startEmployee name id st) rest
        | None =>
            let '(st, consumed) := FourLineParser.timeEntries trimmedLine rest st in
            let st := employeeTotals trimmedLine st in
            if includes "Report Totals" trimmedLine then st
            else FourLineParser.scan consumed st rest
        end
  end.
Proof. destruct skip; reflexivity. Qed.

(** The lines passed over after an entry stop before a line that ends the
    report, whatever follows that line. *)
Lemma trailingNoise_cut tl rt post post' :
  FourLineParser.endsReport rt ->
  FourLineParser.trailingNoise (tl ++ rt :: post)
  = FourLineParser.trailingNoise (tl ++ rt :: post')
  /\ FourLineParser.trailingNoise (tl ++ rt :: post) <= length tl.
Proof.
  intros (_ & Hr & _ & _ & Hlab).
  destruct (report_totals_not_consumed _ Hr) as (_ & _ & Hnum & Hsrc).
  unfold FourLineParser.trailingNoise.
  destruct tl as [|x [|y tl]]; cbn [app lookup list_lookup length].
  - rewrite Hsrc, Hlab. cbn [orb lookup list_lookup]. rewrite Hnum.
    split; [reflexivity | lia].
  - destruct (String.eqb (trim x) "Source" || startsWith "Labor" (trim x));
      cbn [lookup list_lookup].
    + rewrite Hnum. split; [reflexivity | lia].
    + destruct (numericOnlyMatch (trim x)); split; (reflexivity || lia).
  - destruct (String.eqb (trim x) "Source" || startsWith "Labor" (trim x));
      cbn [lookup list_lookup].
    + destruct (numericOnlyMatch (trim y)); split; (reflexivity || lia).
    + destruct (numericOnlyMatch (trim x)); split; (reflexivity || lia).
Qed.

(** An entry that starts before a line that ends the report does not read
    past it. *)
Lemma timeEntries_cut t tl rt post post' st :
  FourLineParser.endsReport rt ->
  FourLineParser.timeEntries t (tl ++ rt :: post) st
  = FourLineParser.timeEntries t (tl ++ rt :: post') st
  /\ snd (FourLineParser.timeEntries t (tl ++ rt :: post) st) <= length tl.
Proof.
  intros Hrt. pose proof Hrt as (_ & Hr & _ & Hdash & _).
  destruct (report_totals_not_consumed _ Hr) as (Hdate & Hhours & _ & _).
  unfold FourLineParser.timeEntries.
  destruct (currentEmployee st); [|split; [reflexivity | cbn; lia]].
  destruct (FourLineParser.jobCodeMatch t) as [[jc ac]|];
    [|split; [reflexivity | cbn; lia]].
  destruct tl as [|a [|b [|c tl]]]; cbn [app length].
  - destruct post as [|? [|? ?]], post' as [|? [|? ?]]; rewrite ?Hdate;
      split; (reflexivity || (cbn; lia)).
  - destruct post as [|? ?], post' as [|? ?]; rewrite ?Hhours;
      destruct (dateOnlyMatch (trim a)); split; (reflexivity || (cbn; lia)).
  - rewrite Hdash.
    destruct (dateOnlyMatch (trim a)), (hoursOnlyMatch (trim b)) as [[? ?]|];
      split; (reflexivity || (cbn; lia)).
  - destruct (trailingNoise_cut tl rt post post' Hrt) as [Heq Hle].
    rewrite Heq.
    destruct (dateOnlyMatch (trim a)), (hoursOnlyMatch (trim b)) as [[? ?]|],
      (includes " - " (trim c)); split; try reflexivity; cbn [snd]; lia.
Qed.

(** The loop of the second revision does not read past a line that ends the
    report. *)
Lemma FL_scan_cut pre : forall skip st rt post post',
  FourLineParser.endsReport rt -> skip <= length pre ->
  FourLineParser.scan skip st (pre ++ rt :: post)
  = FourLineParser.scan skip st (pre ++ rt :: post').
Proof.
  induction pre as [|l pre IH]; intros skip st rt post post' Hrt Hskip; cbn [app];
    rewrite !FL_scan_cons.
  - cbn in Hskip. assert (skip = 0) as -> by lia. cbv zeta.
    pose proof Hrt as (Hh & Hr & Hjob & _).
    rewrite (includes_truthy "Report Totals" _ ltac:(discriminate) Hr), Hh. cbn [negb].
    unfold FourLineParser.timeEntries. rewrite Hjob.
    destruct (currentEmployee _); rewrite Hr; reflexivity.
  - destruct skip as [|k]; [|apply IH; [assumption | cbn in Hskip; lia]].
    cbv zeta.
    destruct (negb (truthy (trim l))); [apply IH; [assumption | lia]|].
    destruct (FourLineParser.employeeHeader (trim l)) as [[n i]|];
      [apply IH; [assumption | lia]|].
    destruct (timeEntries_cut (trim l) pre rt post post'
                (noteReportDate (trim l) (notePayPeriod (trim l) st)) Hrt) as [Heq Hle].
    rewrite <- Heq.
    destruct (FourLineParser.timeEntries (trim l) (pre ++ rt :: post) _) as [st' consumed].
    destruct (includes "Report Totals" (trim l)); [reflexivity|].
    apply IH; [assumption | exact Hle].
Qed.

(** ** The scan of the four-line revision, turn by turn *)









(** ** A text with no line that is a date *)




End ParserFacts.

(* ================================================================== *)
(** * The properties of the specification *)
(* ================================================================== *)

Import JS RuleEngine RuleFacts Regex ReportScan ParserFacts Examples.

(** C1, as amended: each rule, run again on what it left, does nothing
    more, its condition being false on its own result; and the whole
    pipeline run again on its corrected entry records no change when the
    entry is plain (no Sunday, no PM or office cost code, no no-bill
    description), the cases in which no later rule undoes an earlier one. *)
Theorem rules_idempotent (isSunday : string -> bool) (e : Entry) :
  (forall rule, In rule (ruleSequence isSunday) ->
     forall changes,
       rule (fst (rule e changes)) (snd (rule e changes)) = rule e changes)
  /\ (plainEntry isSunday e ->
      exists e' changes,
        applyRulesTo isSunday e = Some (e', changes)
        /\ applyRulesTo isSunday e' = Some (e', [])).
Proof.
  split.
  - intros rule Hin changes.
    pose proof (ruleSequence_behaves isSunday) as Hall.
    unfold ruleSequence, firesAll in *.
    repeat match goal with
           | H : Forall2 _ (_ :: _) (_ :: _) |- _ => inversion H; subst; clear H
           end.
    cbn [In] in Hin.
    repeat match goal with
           | H : _ \/ _ |- _ => destruct H as [<-|H]
           end;
      try (eapply behaves_idempotent; eassumption).
    destruct Hin.
  - intros Hplain.
    exists (fst (corrected isSunday e)), (snd (corrected isSunday e)).
    rewrite !applyRulesTo_eq. split; [now destruct (corrected isSunday e)|].
    pose proof (plain_pipeline isSunday e Hplain) as Hq.
    pose proof (corrected_quiet isSunday _ Hq) as Hid.
    destruct (corrected isSunday (fst (corrected isSunday e))) as [e2 c2].
    cbn [fst snd] in *. now subst.
Qed.

Lemma rules_idempotent_witness :
  plainEntry Moment.isSundayMDY plainCall
  /\ exists e' changes,
       applyRulesTo Moment.isSundayMDY plainCall = Some (e', changes)
       /\ applyRulesTo Moment.isSundayMDY e' = Some (e', []).
Proof.
  assert (H : plainEntry Moment.isSundayMDY plainCall)
    by (repeat split; vm_compute; reflexivity).
  split; [exact H|].
  exact (proj2 (rules_idempotent Moment.isSundayMDY plainCall) H).
Defined.

(** C1 as stated fails: on the Sunday entry of the repository's own rule
    test (SERVICE, WN TECH) the corrected entry carries WN PREM, which rule 2
    rejects on the second run. *)
Lemma rerun_changes_sunday_service :
  exists e1 changes1 e2 changes2,
    applyRulesTo Moment.isSundayMDY testWorker = Some (e1, changes1)
    /\ applyRulesTo Moment.isSundayMDY e1 = Some (e2, changes2)
    /\ laborRate e1 = "WN PREM"
    /\ map correctedValue changes2 = ["Tech"; "PREM"]
    /\ changes2 <> [].
Proof.
  eexists _, _, _, _.
  split; [vm_compute; reflexivity|].
  split; [vm_compute; reflexivity|].
  split; [reflexivity|]. split; [reflexivity | discriminate].
Qed.

(** C3: on a Sunday rule 4 leaves payType "Double Time"; a labor rate that
    holds "PREM" (in any case) is kept, any other is replaced by the PREM
    variant of its branch prefix, and nothing else of the entry is assigned.
    In particular 08/03/2025 is a Sunday, and Regular / SCH_TECH on that day
    ends as Double Time / SCH PREM. *)
Theorem rule4_sunday_premium :
  (forall (isSunday : string -> bool) (e : Entry) (changes : list Change),
     isSunday (date e) = true ->
     let e' := fst (applyRule4_SundayPremium isSunday e changes) in
     let u := toUpperCase (laborRate e) in
     payType e' = "Double Time"
     /\ assignsOnly e e'
     /\ (includes "PREM" u = true -> laborRate e' = laborRate e)
     /\ (includes "PREM" u = false ->
         (startsWith "WN " u = true -> laborRate e' = "WN PREM")
         /\ (startsWith "SCH_" u = true \/ startsWith "SCH " u = true ->
             laborRate e' = "SCH PREM")
         /\ (startsWith "MN " u = true \/ startsWith "MNTECH" u = true ->
             laborRate e' = "MN PREM")
         /\ (startsWith "WN " u = false -> startsWith "SCH_" u = false ->
             startsWith "SCH " u = false -> startsWith "MN " u = false ->
             startsWith "MNTECH" u = false -> laborRate e' = "PREM")))
  /\ (forall (e : Entry) (changes : list Change),
        date e = "08/03/2025" -> payType e = "Regular" -> laborRate e = "SCH_TECH" ->
        let e' := fst (applyRule4_SundayPremium Moment.isSundayMDY e changes) in
        payType e' = "Double Time" /\ laborRate e' = "SCH PREM").
Proof.
  split.
  - intros isSunday e changes HS. cbv zeta. rewrite rule4_eq, HS. cbv zeta.
    destruct (premRate_table (toUpperCase (laborRate e))) as (T1 & T2 & T3 & T4).
    destruct (negb (String.eqb (payType e) "Double Time")) eqn:HP;
      destruct (includes "PREM" (toUpperCase (laborRate e))) eqn:HR;
      cbn [negb fst]; fields.
    all: split; [first [reflexivity
                       | apply negb_false_iff, String.eqb_eq in HP; exact HP]|].
    all: split; [auto using assignsOnly_refl, assignsOnly_payType,
                   assignsOnly_laborRate|].
    all: split; [intros; (reflexivity || discriminate)|].
    all: intros; try discriminate; repeat split; auto.
  - intros e changes Hd Hp Hr. cbv zeta. rewrite rule4_eq, Hd, Hp, Hr.
    split; reflexivity.
Qed.

Lemma rule4_sunday_premium_witness :
  Moment.isSundayMDY (date sundaySchTech) = true
  /\ payType (fst (applyRule4_SundayPremium Moment.isSundayMDY sundaySchTech []))
     = "Double Time"
  /\ laborRate (fst (applyRule4_SundayPremium Moment.isSundayMDY sundaySchTech []))
     = "SCH PREM".
Proof.
  split; [reflexivity|]. split.
  - exact (proj1 (proj1 rule4_sunday_premium Moment.isSundayMDY sundaySchTech []
                    eq_refl)).
  - exact (proj2 (proj2 rule4_sunday_premium sundaySchTech [] eq_refl eq_refl eq_refl)).
Defined.

(** C5, the defect: with payType "Call" and a labor rate without "OT" (in
    any case) rule 5 writes the rate its branches give for the upper-cased
    rate and records that one change; the rate written holds "OT" and keeps
    the branch prefix WN, SCH or MN of the rate it replaces, and "WN TECH"
    becomes "WN TECHOT".  But the branch prefix is tested before "HELPER":
    a helper rate with a branch prefix gets the TECHOT rate of its branch
    and is a helper rate no more, "WN HELPER" becoming "WN TECHOT", and
    rule 5 never writes "WN HELPEROT" nor "MN HELPEROT", which two of its
    branches hold. *)
Theorem rule5_call_overtime :
  (forall (e : Entry) (changes : list Change),
     payType e = "Call" ->
     includes "OT" (toUpperCase (laborRate e)) = false ->
     let u := toUpperCase (laborRate e) in
     let e' := fst (applyRule5_CallWork e changes) in
     laborRate e' = callRate u
     /\ e' = setLaborRate (callRate u) e
     /\ snd (applyRule5_CallWork e changes)
        = (changes ++ [change e "laborRate" (laborRate e) (callRate u)
                         "Rule 5: Call Work Labor Rate"
                         "Call pay type requires overtime labor rate"])%list
     /\ includes "OT" (toUpperCase (laborRate e')) = true
     /\ (startsWith "WN " u = true -> startsWith "WN " (laborRate e') = true)
     /\ (startsWith "SCH_" u = true \/ startsWith "SCH " u = true ->
         startsWith "SCH_" (laborRate e') = true)
     /\ (startsWith "MN " u = true -> startsWith "MN " (laborRate e') = true)
     /\ (startsWith "WN MN " u = true -> laborRate e' = "WN MN TECHOT")
     /\ (startsWith "WN " u = true -> startsWith "WN MN " u = false ->
         laborRate e' = "WN TECHOT")
     /\ (startsWith "SCH_MN" u = true -> laborRate e' = "SCH_MNTECHOT")
     /\ (startsWith "SCH_" u = true \/ startsWith "SCH " u = true ->
         startsWith "SCH_MN" u = false -> laborRate e' = "SCH_TECHOT")
     /\ (startsWith "MN " u = true \/ u = "MNTECH" -> laborRate e' = "MN TECHOT")
     /\ (u = "TECH" -> laborRate e' = "TechOT")
     /\ (includes "HELPER" u = true ->
         startsWith "WN " u = true \/ startsWith "SCH_" u = true
         \/ startsWith "SCH " u = true \/ startsWith "MN " u = true ->
         In (laborRate e')
            ["WN MN TECHOT"; "WN TECHOT"; "SCH_MNTECHOT"; "SCH_TECHOT"; "MN TECHOT"]
         /\ includes "HELPER" (laborRate e') = false)
     /\ (includes "HELPER" u = true ->
         startsWith "WN " u = false -> startsWith "SCH_" u = false ->
         startsWith "SCH " u = false -> startsWith "MN " u = false ->
         laborRate e' = if startsWith "SCH" u then "SCH_HELPEROT" else "HELPEROT")
     /\ laborRate e' <> "WN HELPEROT" /\ laborRate e' <> "MN HELPEROT")
  /\ (forall (e : Entry) (changes : list Change),
        payType e = "Call" -> laborRate e = "WN TECH" ->
        laborRate (fst (applyRule5_CallWork e changes)) = "WN TECHOT")
  /\ (forall (e : Entry) (changes : list Change),
        payType e = "Call" ->
        (laborRate e = "WN HELPER" ->
         laborRate (fst (applyRule5_CallWork e changes)) = "WN TECHOT")
        /\ (laborRate e = "MN HELPER" ->
            laborRate (fst (applyRule5_CallWork e changes)) = "MN TECHOT")
        /\ (laborRate e = "SCH_HELPER" ->
            laborRate (fst (applyRule5_CallWork e changes)) = "SCH_TECHOT")
        /\ (laborRate e = "HELPER" ->
            laborRate (fst (applyRule5_CallWork e changes)) = "HELPEROT")).
Proof.
  split; [|split].
  - intros e changes Hp HOT. cbv zeta. rewrite rule5_eq. unfold fires5.
    rewrite Hp, HOT. cbn [String.eqb Ascii.eqb Bool.eqb andb negb fst snd]. fields.
    destruct (callRate_table (toUpperCase (laborRate e))) as (T1 & T2 & T3 & T4 & T5 & T6).
    destruct (callRate_keeps_prefix (toUpperCase (laborRate e))) as (P1 & P2 & P3).
    destruct (callRate_dead (toUpperCase (laborRate e))) as (D1 & D2).
    repeat match goal with |- _ /\ _ => split end; auto using callRate_has_OT.
    + intros Hh Hpre.
      destruct (callRate_helper _ Hh) as [Hin _]. specialize (Hin Hpre).
      split; [exact Hin|]. cbn [In] in Hin.
      repeat (destruct Hin as [<-|Hin]; [reflexivity|]). destruct Hin.
    + intros Hh. destruct (callRate_helper _ Hh) as [_ Hno]. exact Hno.
  - intros e changes Hp Hr. rewrite rule5_eq. unfold fires5. rewrite Hp, Hr.
    reflexivity.
  - intros e changes Hp.
    repeat split; intros Hr; rewrite rule5_eq; unfold fires5; rewrite Hp, Hr;
      reflexivity.
Qed.

Lemma rule5_call_overtime_witness :
  payType callWnTech = "Call"
  /\ includes "OT" (toUpperCase (laborRate callWnTech)) = false
  /\ includes "OT" (toUpperCase (laborRate (fst (applyRule5_CallWork callWnTech []))))
     = true
  /\ laborRate (fst (applyRule5_CallWork callWnTech [])) = "WN TECHOT"
  /\ payType callWnHelper = "Call"
  /\ laborRate callWnHelper = "WN HELPER"
  /\ laborRate (fst (applyRule5_CallWork callWnHelper [])) = "WN TECHOT".
Proof.
  split; [reflexivity|]. split; [reflexivity|]. split; [|split; [|split; [|split]]].
  - exact (proj1 (proj2 (proj2 (proj2
             (proj1 rule5_call_overtime callWnTech [] eq_refl eq_refl))))).
  - exact (proj1 (proj2 rule5_call_overtime) callWnTech [] eq_refl eq_refl).
  - reflexivity.
  - reflexivity.
  - exact (proj1 (proj2 (proj2 rule5_call_overtime) callWnHelper [] eq_refl) eq_refl).
Defined.

(** C6, as amended: with costCategory "TechUnapplyd" and payType "Call",
    rule 1 records the first change (Call to Unapplied) and no change of the
    run comes from rule 5, payType being no longer "Call" when rule 5 runs;
    the final payType is "Unapplied" unless a later rule assigns it:
    "Double Time" on a Sunday, "Regular" with an office cost code. *)
Theorem rule1_before_rule5 (isSunday : string -> bool) (e : Entry) :
  costCategory e = "TechUnapplyd" -> payType e = "Call" ->
  exists e' rest,
    applyRulesTo isSunday e
    = Some (e', change e "payType" "Call" "Unapplied"
                  "Rule 1: TechUnapplied → Unapplied Pay Type"
                  "Cost Category is TechUnapplyd, so Pay Type must be Unapplied"
                :: rest)
    /\ payType e' =
       (if arrayIncludes OFFICE_COST_CODES (toUpperCase (costCode e)) then "Regular"
        else if isSunday (date e) then "Double Time" else "Unapplied")
    /\ Forall (fun c => chRule c <> "Rule 5: Call Work Labor Rate") rest.
Proof.
  intros Hc Hp.
  destruct (rule1_precedence isSunday e Hc Hp) as (e' & rest & Heq & H).
  exists e', rest. rewrite applyRulesTo_eq, Heq. split; [reflexivity | exact H].
Qed.

Lemma rule1_before_rule5_witness :
  exists e' rest,
    applyRulesTo Moment.isSundayMDY unappliedCallSunday
    = Some (e', change unappliedCallSunday "payType" "Call" "Unapplied"
                  "Rule 1: TechUnapplied → Unapplied Pay Type"
                  "Cost Category is TechUnapplyd, so Pay Type must be Unapplied"
                :: rest)
    /\ payType e' =
       (if arrayIncludes OFFICE_COST_CODES (toUpperCase (costCode unappliedCallSunday))
        then "Regular"
        else if Moment.isSundayMDY (date unappliedCallSunday)
             then "Double Time" else "Unapplied")
    /\ Forall (fun c => chRule c <> "Rule 5: Call Work Labor Rate") rest.
Proof.
  exact (rule1_before_rule5 Moment.isSundayMDY unappliedCallSunday eq_refl eq_refl).
Defined.

(** C6 as stated fails: a TechUnapplyd / Call entry dated on a Sunday ends
    with payType "Double Time", which rule 4 assigns after rule 1. *)
Lemma unapplied_call_on_sunday :
  costCategory unappliedCallSunday = "TechUnapplyd"
  /\ payType unappliedCallSunday = "Call"
  /\ exists e' changes,
       applyRulesTo Moment.isSundayMDY unappliedCallSunday = Some (e', changes)
       /\ payType e' = "Double Time"
       /\ payType e' <> "Unapplied".
Proof.
  split; [reflexivity|]. split; [reflexivity|].
  eexists _, _. split; [vm_compute; reflexivity|].
  split; [reflexivity | discriminate].
Qed.

(** C7, as amended: validateEntry reads the entry and leaves the store as
    it is; an empty list of issues means that applyRules records no change;
    and applyRules records no change exactly when the list is empty or holds
    only the no-bill issue for a rate rule 6 has no NB variant of. *)
Theorem validateEntry_mirrors (isSunday : string -> bool) (r : ref) (e : Entry)
    (σ : Store) :
  σ !! r = Some e ->
  validateEntry isSunday r σ = Some (issuesOf isSunday e, σ)
  /\ exists e' changes,
       applyRulesTo isSunday e = Some (e', changes)
       /\ (issuesOf isSunday e = [] -> changes = [])
       /\ (changes = [] <->
           issuesOf isSunday e = []
           \/ (issuesOf isSunday e = [noBillIssue]
               /\ noBillRate (laborRate e) = laborRate e)).
Proof.
  intros Hr. split.
  { unfold validateEntry, mbind, M_bind, mret, M_ret. now rewrite (load_eq _ _ _ Hr). }
  exists (fst (corrected isSunday e)), (snd (corrected isSunday e)).
  rewrite applyRulesTo_eq. split; [now destruct (corrected isSunday e)|].
  destruct (issuesOf_nil_iff isSunday e) as [Hnil Hone].
  rewrite corrected_quiet_iff, Hnil, Hone. unfold fires6.
  split; [|split].
  - intros (H1 & H2 & H3 & H4 & H5 & H6 & H7). rewrite H6. repeat split; assumption.
  - intros (H1 & H2 & H3 & H4 & H5 & H6 & H7).
    destruct (concerns6 e); [right | left; repeat split; assumption].
    cbn [andb] in H6. apply negb_false_iff, String.eqb_eq in H6.
    split; [repeat split; assumption | exact H6].
  - intros [(H1 & H2 & H3 & H4 & H5 & H6 & H7)
           | [(H1 & H2 & H3 & H4 & H5 & H6 & H7) Hrate]];
      rewrite H6; repeat split; try assumption.
    cbn [andb]. rewrite Hrate. apply negb_false_iff, String.eqb_refl.
Qed.

Lemma validateEntry_mirrors_witness :
  validateEntry Moment.isSundayMDY 0 [noBillShop]
  = Some (issuesOf Moment.isSundayMDY noBillShop, [noBillShop])
  /\ exists e' changes,
       applyRulesTo Moment.isSundayMDY noBillShop = Some (e', changes)
       /\ (issuesOf Moment.isSundayMDY noBillShop = [] -> changes = [])
       /\ (changes = [] <->
           issuesOf Moment.isSundayMDY noBillShop = []
           \/ (issuesOf Moment.isSundayMDY noBillShop = [noBillIssue]
               /\ noBillRate (laborRate noBillShop) = laborRate noBillShop)).
Proof.
  exact (validateEntry_mirrors Moment.isSundayMDY 0 noBillShop [noBillShop] eq_refl).
Defined.

(** C7 as stated fails: for a no-bill description on the rate SHOP, which
    rule 6 has no NB variant of, applyRules records no change and
    validateEntry still reports an issue. *)
Lemma no_bill_unmapped_rate :
  applyRulesTo Moment.isSundayMDY noBillShop = Some (noBillShop, [])
  /\ issuesOf Moment.isSundayMDY noBillShop = [noBillIssue]
  /\ issuesOf Moment.isSundayMDY noBillShop <> [].
Proof.
  split; [vm_compute; reflexivity|].
  split; [vm_compute; reflexivity | discriminate].
Qed.

(** C9: applyRules assigns to no object that existed before the call, so
    the entries of its input are as they were; it hands back one new object
    per input entry, in the same order, which is its input entry up to
    payType and laborRate. *)
Theorem applyRules_leaves_input (isSunday : string -> bool) (refs : list ref)
    (es : list Entry) (σ : Store) :
  Forall2 (fun r e => σ !! r = Some e) refs es ->
  exists correctedData changes σ',
    applyRules isSunday refs σ = Some ((correctedData, changes), σ')
    /\ (forall r e, σ !! r = Some e -> σ' !! r = Some e)
    /\ Forall2 (fun r e => σ' !! r = Some e) refs es
    /\ Forall2 (fun r' e =>
                  length σ <= r'
                  /\ exists e', σ' !! r' = Some e'
                                /\ assignsOnly e e')
               correctedData es.
Proof.
  intros Hrefs. unfold applyRules.
  rewrite (applyRulesLoop_eq isSunday refs es σ [] [] Hrefs).
  eexists _, _, _. split; [reflexivity|].
  split; [intros r e Hr; now apply lookup_app_l_Some|].
  split.
  - eapply Forall2_impl; [exact Hrefs|].
    intros r e Hr. cbn beta in *. now apply lookup_app_l_Some.
  - cbn [app]. rewrite (Forall2_length _ _ _ Hrefs).
    pose proof (corrected_copies isSunday σ es []) as H.
    cbn [app length] in H. rewrite Nat.add_0_r in H. exact H.
Qed.

Lemma applyRules_leaves_input_witness :
  exists correctedData changes σ',
    applyRules Moment.isSundayMDY [0; 1; 0] [testWorker; plainCall]
    = Some ((correctedData, changes), σ')
    /\ (forall r e, [testWorker; plainCall] !! r = Some e -> σ' !! r = Some e)
    /\ Forall2 (fun r e => σ' !! r = Some e) [0; 1; 0] [testWorker; plainCall; testWorker]
    /\ Forall2 (fun r' e =>
                  length [testWorker; plainCall] <= r'
                  /\ exists e', σ' !! r' = Some e'
                                /\ assignsOnly e e')
               correctedData [testWorker; plainCall; testWorker].
Proof.
  apply (applyRules_leaves_input Moment.isSundayMDY [0; 1; 0]
           [testWorker; plainCall; testWorker] [testWorker; plainCall]).
  repeat constructor.
Defined.

(** C10: the two values of every change record that applyRules emits
    differ. *)
Theorem changes_have_distinct_values (isSunday : string -> bool) (refs : list ref)
    (es : list Entry) (σ : Store) :
  Forall2 (fun r e => σ !! r = Some e) refs es ->
  exists correctedData changes σ',
    applyRules isSunday refs σ = Some ((correctedData, changes), σ')
    /\ Forall (fun c => originalValue c <> correctedValue c) changes.
Proof.
  intros Hrefs. unfold applyRules.
  rewrite (applyRulesLoop_eq isSunday refs es σ [] [] Hrefs).
  eexists _, _, _. split; [reflexivity|].
  cbn [app]. clear Hrefs. induction es as [|e es IH]; [constructor|].
  cbn [map concat]. apply Forall_app. split; [|exact IH].
  destruct (corrected_spec isSunday e) as (e' & new & -> & _ & Hc & _). exact Hc.
Qed.

Lemma changes_have_distinct_values_witness :
  exists correctedData changes σ',
    applyRules Moment.isSundayMDY [0; 1] [testWorker; plainCall]
    = Some ((correctedData, changes), σ')
    /\ Forall (fun c => originalValue c <> correctedValue c) changes.
Proof.
  apply (changes_have_distinct_values Moment.isSundayMDY [0; 1]
           [testWorker; plainCall] [testWorker; plainCall]).
  repeat constructor.
Defined.

(** C2, the defect: the first revision of the parser returns entries of
    positive hours only; in the four-line layout of the second revision an
    entry whose hours line reads "0" is kept, and parseEmployeeData returns
    it with hours that are not positive. *)
Theorem four_line_keeps_zero_hours :
  (forall text : string,
     Forall (fun e => positive (hours e) = true)
            (SingleLineParser.parseEmployeeData text))
  /\ exists e,
       FourLineParser.parseEmployeeData zeroHoursText = [e]
       /\ hours e = parseFloat "0" ""
       /\ positive (hours e) = false.
Proof.
  split; [exact SL_hours_positive|].
  eexists. split; [vm_compute; reflexivity|]. split; reflexivity.
Qed.




(** C8, as amended: in both revisions the scan stops at a line that holds
    "Report Totals" and is not taken for an employee header, and whatever
    follows that line has no part in the result; in the four-line revision
    the line must also start no entry itself and be none of the lines an
    entry consumes. *)
Theorem report_totals_truncation (text text' : string) (pre post post' : list string)
    (rt : string) :
  split SingleLineParser.newline text = (pre ++ rt :: post)%list ->
  split SingleLineParser.newline text' = (pre ++ rt :: post')%list ->
  (SingleLineParser.endsReport rt ->
   SingleLineParser.parseEmployeeData text = SingleLineParser.parseEmployeeData text')
  /\ (FourLineParser.endsReport rt ->
      FourLineParser.parseEmployeeData text = FourLineParser.parseEmployeeData text').
Proof.
  intros Hs Hs'. split; intros Hrt.
  - unfold SingleLineParser.parseEmployeeData. rewrite Hs, Hs'. cbv zeta.
    now rewrite (SL_scan_cut pre initial rt post post' Hrt).
  - unfold FourLineParser.parseEmployeeData. rewrite Hs, Hs'. cbv zeta.
    now rewrite (FL_scan_cut pre 0 initial rt post post' Hrt (Nat.le_0_l _)).
Qed.

Lemma report_totals_truncation_witness :
  (SingleLineParser.parseEmployeeData truncatedText
   = SingleLineParser.parseEmployeeData truncatedTextCut)
  /\ (FourLineParser.parseEmployeeData truncatedText
      = FourLineParser.parseEmployeeData truncatedTextCut)
  /\ length (FourLineParser.parseEmployeeData truncatedText) = 1.
Proof.
  assert (H := report_totals_truncation truncatedText truncatedTextCut
                 [ "A B - 1"; "(J)desc"; "08/04/2025"; "8.00";
                   "Regular - Tech - SERVICE - DirLab - x" ]
                 [ "(K)late"; "08/05/2025"; "1.00";
                   "Regular - Tech - SERVICE - DirLab - y";
                   "(L)late 08/05/2025 2.00 - Regular - Tech - SERVICE - DirLab - z" ]
                 [] "Report Totals 8.00" eq_refl eq_refl).
  destruct H as [H1 H2].
  split; [apply H1; repeat split; vm_compute; reflexivity|].
  split; [apply H2; repeat split; vm_compute; reflexivity|].
  vm_compute; reflexivity.
Defined.

(** C8 as stated fails: a line "Report Totals - 2" is taken for the header
    of an employee, the scan goes on, and the entry of the line after it is
    produced. *)
Lemma report_totals_header_goes_on :
  includes "Report Totals" "Report Totals - 2" = true
  /\ exists e,
       SingleLineParser.parseEmployeeData headerLikeTotalsText = [e]
       /\ employeeName e = "Report Totals"
       /\ originalLine e
          = "(J)d 08/04/2025 8.00 - Regular - Tech - SERVICE - DirLab - w".
Proof.
  split; [reflexivity|].
  eexists. split; [vm_compute; reflexivity|]. split; reflexivity.
Qed.
(* ================================================================== *)
(** * Further properties of the rule engine *)
(* ================================================================== *)

Module PipelineFacts.

Import JS RuleEngine RuleFacts ChangeLog.

(** ** Steps in general *)

Lemma runSteps_cons (s : Step) (ss : list Step) (acc : Entry * list Change) :
  runSteps (s :: ss) acc = runSteps ss (runStep s acc).
Proof. reflexivity. Qed.

Lemma runStep_eq (s : Step) (e : Entry) (ch : list Change) :
  runStep s (e, ch) = (stepEntry s e, (ch ++ stepChanges s e)%list).
Proof.
  unfold runStep, stepEntry, stepChanges, push.
  destruct (cond s e); [reflexivity | now rewrite app_nil_r].
Qed.

(** Running steps: the entry that is left and the changes appended. *)
Lemma runSteps_eq (ss : list Step) :
  forall (e : Entry) (ch : list Change),
    runSteps ss (e, ch) = (entryAfter ss e, (ch ++ changesAfter ss e)%list).
Proof.
  induction ss as [|s ss IH]; intros e ch.
  - cbn. now rewrite app_nil_r.
  - rewrite runSteps_cons, runStep_eq, IH. cbn [entryAfter changesAfter].
    now rewrite app_assoc.
Qed.

Lemma stepEntry_assigns (s : Step) (e : Entry) : assignsOnly e (stepEntry s e).
Proof.
  unfold stepEntry. destruct (cond s e); [|apply assignsOnly_refl].
  destruct (field s); cbn [setField];
    [apply assignsOnly_payType | apply assignsOnly_laborRate];
    apply assignsOnly_refl.
Qed.

(** The fields no step assigns. *)
Lemma stepEntry_keeps (s : Step) (e : Entry) :
  date (stepEntry s e) = date e
  /\ costCode (stepEntry s e) = costCode e
  /\ costCategory (stepEntry s e) = costCategory e
  /\ description (stepEntry s e) = description e
  /\ employeeName (stepEntry s e) = employeeName e
  /\ employeeId (stepEntry s e) = employeeId e.
Proof.
  unfold stepEntry. destruct (cond s e), (field s); cbn [setField]; fields;
    repeat split.
Qed.

Lemma stepEntry_payType (s : Step) (e : Entry) :
  payType (stepEntry s e) =
  match field s with
  | PayType => if cond s e then value s e else payType e
  | LaborRate => payType e
  end.
Proof. unfold stepEntry. destruct (cond s e), (field s); reflexivity. Qed.

Lemma stepEntry_laborRate (s : Step) (e : Entry) :
  laborRate (stepEntry s e) =
  match field s with
  | LaborRate => if cond s e then value s e else laborRate e
  | PayType => laborRate e
  end.
Proof. unfold stepEntry. destruct (cond s e), (field s); reflexivity. Qed.

Lemma replay_app (a b : list Change) :
  forall e : Entry,
    replay (a ++ b) e = match replay a e with
                        | Some e' => replay b e'
                        | None => None
                        end.
Proof.
  induction a as [|c a IH]; intros e; [reflexivity|].
  cbn [app replay]. destruct (applyChange c e); [apply IH | reflexivity].
Qed.

(** The change of a step replayed is the assignment of the step. *)
Lemma stepChanges_replay (s : Step) (e : Entry) :
  replay (stepChanges s e) e = Some (stepEntry s e).
Proof.
  unfold stepChanges, stepEntry. destruct (cond s e); [|reflexivity].
  cbn [replay]. unfold applyChange. destruct (field s); fields;
    cbn [fieldName getField setField String.eqb Ascii.eqb Bool.eqb];
    now rewrite String.eqb_refl.
Qed.

Lemma stepChanges_recordOf (s : Step) (e : Entry) :
  Forall (recordOf e) (stepChanges s e).
Proof.
  unfold stepChanges. destruct (cond s e); repeat constructor.
Qed.

Lemma stepChanges_label (s : Step) (e : Entry) :
  sublist (map chRule (stepChanges s e)) [label s].
Proof.
  unfold stepChanges. destruct (cond s e); cbn [map]; fields.
  - reflexivity.
  - apply sublist_nil_l.
Qed.

Lemma stepChanges_length (s : Step) (e : Entry) :
  length (stepChanges s e) = if cond s e then 1 else 0.
Proof. unfold stepChanges. now destruct (cond s e). Qed.

(** The changes of a list of steps: replayed on the entry they give the
    entry that is left; they name the employee and the date of the entry;
    their labels follow the order of the steps, one change at most for
    each. *)
Lemma changesAfter_log (ss : list Step) :
  forall e : Entry,
    replay (changesAfter ss e) e = Some (entryAfter ss e)
    /\ Forall (recordOf e) (changesAfter ss e)
    /\ sublist (map chRule (changesAfter ss e)) (map label ss).
Proof.
  induction ss as [|s ss IH]; intros e.
  - cbn. repeat split; constructor.
  - cbn [changesAfter entryAfter map].
    destruct (IH (stepEntry s e)) as (Hr & Ho & Hs).
    destruct (stepEntry_keeps s e) as (Kd & _ & _ & _ & Kn & Ki).
    split; [|split].
    + now rewrite replay_app, stepChanges_replay.
    + apply Forall_app. split; [apply stepChanges_recordOf|].
      eapply Forall_impl; [exact Ho|].
      intros c (X1 & X2 & X3). unfold recordOf. now rewrite X1, X2, X3.
    + rewrite map_app. change (label s :: map label ss)
        with ([label s] ++ map label ss)%list.
      apply sublist_app; [apply stepChanges_label | exact Hs].
Qed.

Section Rules.

Variable isSunday : string -> bool.

(** ** The rules as steps *)

(** Rule 4 is its two conditional assignments one after the other. *)
Lemma rule4_steps (e : Entry) (ch : list Change) :
  applyRule4_SundayPremium isSunday e ch
  = runSteps [step4pay isSunday; step4rate isSunday] (e, ch).
Proof.
  rewrite rule4_eq. unfold runSteps, fold_left, runStep, step4pay, step4rate.
  cbn [cond].
  destruct (isSunday (date e)) eqn:HS; cbn [andb]; [|now rewrite HS].
  cbv zeta.
  destruct (negb (String.eqb (payType e) "Double Time"));
    cbn [field value label reason setField getField fieldName]; fields;
    rewrite HS; cbn [andb];
    destruct (negb (includes "PREM" (toUpperCase (laborRate e)))); reflexivity.
Qed.

(** The sequence of the seven rules is the sequence of the eight
    conditional assignments. *)
Lemma corrected_steps (e : Entry) :
  corrected isSunday e = runSteps (steps isSunday) (e, []).
Proof.
  rewrite corrected_unfold. cbv zeta.
  unfold steps, runSteps. cbn [fold_left].
  replace (runStep step1 (e, [])) with (applyRule1_TechUnapplied e [])
    by reflexivity.
  destruct (applyRule1_TechUnapplied e []) as [e1 c1]. cbn [fst snd].
  replace (runStep step2 (e1, c1)) with (applyRule2_ServiceInstallRates e1 c1)
    by reflexivity.
  destruct (applyRule2_ServiceInstallRates e1 c1) as [e2 c2]. cbn [fst snd].
  replace (runStep step3 (e2, c2)) with (applyRule3_PMRates e2 c2)
    by reflexivity.
  destruct (applyRule3_PMRates e2 c2) as [e3 c3]. cbn [fst snd].
  rewrite rule4_steps. unfold runSteps. cbn [fold_left].
  destruct (runStep _ (runStep _ (e3, c3))) as [e4 c4]. cbn [fst snd].
  replace (runStep step5 (e4, c4)) with (applyRule5_CallWork e4 c4)
    by (rewrite rule5_eq; reflexivity).
  destruct (applyRule5_CallWork e4 c4) as [e5 c5]. cbn [fst snd].
  replace (runStep step6 (e5, c5)) with (applyRule6_NoBillDetection e5 c5)
    by (rewrite rule6_eq; reflexivity).
  destruct (applyRule6_NoBillDetection e5 c5) as [e6 c6]. cbn [fst snd].
  reflexivity.
Qed.

Lemma corrected_eq (e : Entry) :
  corrected isSunday e
  = (entryAfter (steps isSunday) e, changesAfter (steps isSunday) e).
Proof. now rewrite corrected_steps, runSteps_eq. Qed.

(** ** The entries between the steps *)

Lemma stepEntry_sameFacts (s : Step) (e x : Entry) :
  sameFacts e x -> sameFacts e (stepEntry s x).
Proof.
  intros (H1 & H2 & H3 & H4).
  destruct (stepEntry_keeps s x) as (K1 & K2 & K3 & K4 & _).
  unfold sameFacts. now rewrite K1, K2, K3, K4.
Qed.

(** The eight entries of a run, with the pay type and the labor rate of
    each in terms of the one before. *)
Lemma pipeline_chain (e : Entry) :
  exists e1 e2 e3 e4 e5 e6 e7 e8 : Entry,
    entryAfter (steps isSunday) e = e8
    /\ changesAfter (steps isSunday) e
       = (stepChanges step1 e ++ stepChanges step2 e1 ++ stepChanges step3 e2
          ++ stepChanges (step4pay isSunday) e3
          ++ stepChanges (step4rate isSunday) e4
          ++ stepChanges step5 e5 ++ stepChanges step6 e6
          ++ stepChanges step7 e7)%list
    /\ (e1 = stepEntry step1 e /\ e2 = stepEntry step2 e1
        /\ e3 = stepEntry step3 e2 /\ e4 = stepEntry (step4pay isSunday) e3
        /\ e5 = stepEntry (step4rate isSunday) e4 /\ e6 = stepEntry step5 e5
        /\ e7 = stepEntry step6 e6 /\ e8 = stepEntry step7 e7)
    /\ Forall (sameFacts e) [e1; e2; e3; e4; e5; e6; e7; e8]
    /\ (payType e1 = (if fires1 e then "Unapplied" else payType e)
        /\ laborRate e1 = laborRate e)
    /\ (payType e2 = payType e1
        /\ laborRate e2 = (if fires2 e1 then "Tech" else laborRate e1))
    /\ (payType e3 = payType e2
        /\ laborRate e3 = (if fires3 e2 then "PMTECH" else laborRate e2))
    /\ (payType e4 = (if cond (step4pay isSunday) e3 then "Double Time"
                      else payType e3)
        /\ laborRate e4 = laborRate e3)
    /\ (payType e5 = payType e4
        /\ laborRate e5 = (if cond (step4rate isSunday) e4
                           then premRate (toUpperCase (laborRate e4))
                           else laborRate e4))
    /\ (payType e6 = payType e5
        /\ laborRate e6 = (if fires5 e5 then callRate (toUpperCase (laborRate e5))
                           else laborRate e5))
    /\ (payType e7 = payType e6
        /\ laborRate e7 = (if fires6 e6 then noBillRate (laborRate e6)
                           else laborRate e6))
    /\ (payType e8 = (if fires7 e7 then "Regular" else payType e7)
        /\ laborRate e8 = laborRate e7).
Proof.
  exists (stepEntry step1 e).
  exists (stepEntry step2 (stepEntry step1 e)).
  set (e1 := stepEntry step1 e). set (e2 := stepEntry step2 e1).
  exists (stepEntry step3 e2). set (e3 := stepEntry step3 e2).
  exists (stepEntry (step4pay isSunday) e3).
  set (e4 := stepEntry (step4pay isSunday) e3).
  exists (stepEntry (step4rate isSunday) e4).
  set (e5 := stepEntry (step4rate isSunday) e4).
  exists (stepEntry step5 e5). set (e6 := stepEntry step5 e5).
  exists (stepEntry step6 e6). set (e7 := stepEntry step6 e6).
  exists (stepEntry step7 e7). set (e8 := stepEntry step7 e7).
  split; [reflexivity|]. split.
  { cbn [changesAfter steps]. now rewrite app_nil_r. }
  split; [repeat split|]. split.
  { assert (S0 : sameFacts e e) by (repeat split).
    pose proof (stepEntry_sameFacts step1 e e S0) as S1.
    pose proof (stepEntry_sameFacts step2 e _ S1) as S2.
    pose proof (stepEntry_sameFacts step3 e _ S2) as S3.
    pose proof (stepEntry_sameFacts (step4pay isSunday) e _ S3) as S4.
    pose proof (stepEntry_sameFacts (step4rate isSunday) e _ S4) as S5.
    pose proof (stepEntry_sameFacts step5 e _ S5) as S6.
    pose proof (stepEntry_sameFacts step6 e _ S6) as S7.
    pose proof (stepEntry_sameFacts step7 e _ S7) as S8.
    repeat (constructor; [assumption|]). constructor. }
  repeat split;
    first [exact (stepEntry_payType _ _) | exact (stepEntry_laborRate _ _)].
Qed.

(** The entries of a run taken apart. *)
Ltac chain e :=
  destruct (pipeline_chain e)
    as (e1 & e2 & e3 & e4 & e5 & e6 & e7 & e8 & Hlast & Hchanges
        & (E1 & E2 & E3 & E4 & E5 & E6 & E7 & E8) & Hsame
        & (P1 & R1) & (P2 & R2) & (P3 & R3) & (P4 & R4) & (P5 & R5)
        & (P6 & R6) & (P7 & R7) & (P8 & R8));
  apply Forall_cons in Hsame as [(D1 & C1 & G1 & T1) Hsame];
  apply Forall_cons in Hsame as [(D2 & C2 & G2 & T2) Hsame];
  apply Forall_cons in Hsame as [(D3 & C3 & G3 & T3) Hsame];
  apply Forall_cons in Hsame as [(D4 & C4 & G4 & T4) Hsame];
  apply Forall_cons in Hsame as [(D5 & C5 & G5 & T5) Hsame];
  apply Forall_cons in Hsame as [(D6 & C6 & G6 & T6) Hsame];
  apply Forall_cons in Hsame as [(D7 & C7 & G7 & T7) Hsame];
  apply Forall_cons in Hsame as [(D8 & C8 & G8 & T8) _].

(** ** The tables of rates against each other *)

(** A rate rule 6 replaces holds neither OT nor PREM. *)
Lemma noBillRate_mapped (r : string) :
  noBillRate r <> r ->
  includes "OT" (toUpperCase r) = false /\ includes "PREM" (toUpperCase r) = false.
Proof.
  unfold noBillRate. cbv zeta. intros H.
  repeat match type of H with
         | context [String.eqb ?a ?b] =>
             let E := fresh "E" in
             destruct (String.eqb_spec a b) as [E|E];
               [rewrite E; split; reflexivity|]
         end.
  exfalso. apply H.
  repeat match goal with
         | |- context [if ?b then _ else _] => destruct b
         end; reflexivity.
Qed.

(** Rule 6 leaves a rate that holds OT or PREM. *)
Lemma fires6_no_OT_PREM (x : Entry) :
  fires6 x = true ->
  includes "OT" (toUpperCase (laborRate x)) = false
  /\ includes "PREM" (toUpperCase (laborRate x)) = false.
Proof.
  unfold fires6. intros H. apply andb_true_iff in H as [_ H].
  apply noBillRate_mapped. now apply neq_of_negb_eqb.
Qed.

(** The three classes of cost codes the rules know exclude each other. *)
Lemma costCode_classes (u : string) :
  let service := String.eqb u "SERVICE" || String.eqb u "INSTALL" in
  let pm := arrayIncludes ["PM"; "PMF"; "FTPM"] u in
  let office := arrayIncludes OFFICE_COST_CODES u in
  (service = true -> pm = false /\ office = false)
  /\ (pm = true -> office = false).
Proof.
  cbv zeta. unfold arrayIncludes, OFFICE_COST_CODES. cbn [existsb].
  split; intros H;
    repeat match type of H with
           | context [String.eqb ?a ?b] =>
               let E := fresh "E" in
               destruct (String.eqb_spec a b) as [E|E]; [subst; now cbn|]
           end; discriminate H.
Qed.

(** ** What a run leaves *)

(** Each rule leaves an entry on which its condition fails. *)
Lemma step_settles (e : Entry) :
  fires5 (stepEntry step5 e) = false
  /\ fires6 (stepEntry step6 e) = false
  /\ fires7 (stepEntry step7 e) = false.
Proof.
  split; [|split].
  - destruct (rule5_behaves e []) as (e' & new & Heq & _ & _ & _ & _ & H).
    rewrite rule5_eq in Heq.
    replace (stepEntry step5 e) with e'; [exact H|].
    unfold stepEntry. cbn [cond step5 field value setField].
    destruct (fires5 e); now inversion Heq.
  - destruct (rule6_behaves e []) as (e' & new & Heq & _ & _ & _ & _ & H).
    rewrite rule6_eq in Heq.
    replace (stepEntry step6 e) with e'; [exact H|].
    unfold stepEntry. cbn [cond step6 field value setField].
    destruct (fires6 e); now inversion Heq.
  - destruct (rule7_behaves e []) as (e' & new & Heq & _ & _ & _ & _ & H).
    rewrite rule7_eq in Heq.
    replace (stepEntry step7 e) with e'; [exact H|].
    unfold stepEntry. cbn [cond step7 field value setField].
    destruct (fires7 e); now inversion Heq.
Qed.

(** Constant strings compared, and the conditionals they decide. *)
Ltac strings :=
  repeat (match goal with
          | |- context [String.eqb ?a ?b] =>
              is_var a; destruct (String.eqb_spec a b); subst
          end;
          cbn [negb andb orb String.eqb Ascii.eqb Bool.eqb]);
  try reflexivity; try congruence.

(** The pay type a run leaves. *)
Lemma corrected_payType (e : Entry) :
  payType (fst (corrected isSunday e)) =
  if arrayIncludes OFFICE_COST_CODES (toUpperCase (costCode e)) then "Regular"
  else if isSunday (date e) then "Double Time"
  else if String.eqb (costCategory e) "TechUnapplyd" then "Unapplied"
  else payType e.
Proof.
  rewrite corrected_eq. cbn [fst]. chain e. rewrite Hlast.
  rewrite P8. unfold fires7. rewrite C7, P7, P6, P5, P4.
  cbn [cond step4pay]. rewrite D3, P3, P2, P1. unfold fires1.
  generalize (payType e) (costCategory e) (isSunday (date e))
    (arrayIncludes OFFICE_COST_CODES (toUpperCase (costCode e))).
  intros p c sun office. destruct sun, office; cbn [andb]; strings.
Qed.

(** On a Sunday the run ends with a PREM rate: rule 4 writes one or finds
    one, rule 5 finds the pay type Double Time, and rule 6 has no NB
    variant of a PREM rate. *)
Lemma sunday_chain (e e3 e4 e5 e6 e7 : Entry) :
  isSunday (date e) = true ->
  date e3 = date e -> date e4 = date e ->
  payType e4 = (if cond (step4pay isSunday) e3 then "Double Time" else payType e3) ->
  payType e5 = payType e4 ->
  laborRate e5 = (if cond (step4rate isSunday) e4
                  then premRate (toUpperCase (laborRate e4)) else laborRate e4) ->
  payType e6 = payType e5 ->
  laborRate e6 = (if fires5 e5 then callRate (toUpperCase (laborRate e5))
                  else laborRate e5) ->
  payType e7 = payType e6 ->
  laborRate e7 = (if fires6 e6 then noBillRate (laborRate e6) else laborRate e6) ->
  fires5 e5 = false /\ fires6 e6 = false
  /\ payType e7 = "Double Time"
  /\ includes "PREM" (toUpperCase (laborRate e7)) = true.
Proof.
  intros HS D3 D4 P4 P5 R5 P6 R6 P7 R7.
  cbn [cond step4pay step4rate] in *. rewrite D3, HS in P4. rewrite D4, HS in R5.
  cbn [andb] in *.
  assert (Q4 : payType e4 = "Double Time").
  { rewrite P4. destruct (String.eqb_spec (payType e3) "Double Time");
      [assumption | reflexivity]. }
  assert (Q5 : includes "PREM" (toUpperCase (laborRate e5)) = true).
  { rewrite R5. destruct (includes "PREM" (toUpperCase (laborRate e4))) eqn:H;
      [exact H | apply premRate_has_PREM]. }
  assert (F5 : fires5 e5 = false).
  { unfold fires5. now rewrite P5, Q4. }
  rewrite F5 in R6.
  assert (F6 : fires6 e6 = false).
  { destruct (fires6 e6) eqn:H; [|reflexivity].
    apply fires6_no_OT_PREM in H as [_ H]. rewrite R6 in H. congruence. }
  rewrite F6 in R7.
  repeat split; [assumption .. | congruence | congruence].
Qed.

(** The conditions of the rules on the entry a run leaves: those of rules
    5, 6 and 7 fail; that of rule 4 holds when the day is a Sunday and the
    cost code an office code; that of rule 1 when the cost category is
    TechUnapplyd and the day a Sunday or the cost code an office code. *)
Lemma corrected_residual (e : Entry) :
  let e' := fst (corrected isSunday e) in
  let office := arrayIncludes OFFICE_COST_CODES (toUpperCase (costCode e)) in
  fires5 e' = false /\ fires6 e' = false /\ fires7 e' = false
  /\ fires4 isSunday e' = isSunday (date e) && office
  /\ fires1 e' = String.eqb (costCategory e) "TechUnapplyd"
                 && (office || isSunday (date e)).
Proof.
  cbv zeta. pose proof (corrected_payType e) as HP. revert HP.
  rewrite corrected_eq. cbn [fst]. chain e. rewrite Hlast. intros HP.
  destruct (step_settles e5) as (S5 & _ & _). rewrite <- E6 in S5.
  destruct (step_settles e6) as (_ & S6 & _). rewrite <- E7 in S6.
  destruct (step_settles e7) as (_ & _ & S7). rewrite <- E8 in S7.
  assert (F6 : fires6 e8 = false).
  { unfold fires6, concerns6 in *. now rewrite T8, R8, <- T7. }
  split; [|split; [exact F6 | split; [exact S7 | split]]].
  - (* rule 5 *)
    unfold fires5 in *. rewrite P8, R8.
    destruct (fires7 e7); [reflexivity|].
    destruct (String.eqb (payType e7) "Call") eqn:HC; [|reflexivity].
    cbn [andb]. rewrite P7 in HC. rewrite HC in S5. cbn [andb] in S5.
    apply negb_false_iff in S5.
    destruct (fires6 e6) eqn:H6.
    + apply fires6_no_OT_PREM in H6 as [H6 _]. congruence.
    + rewrite R7. now rewrite S5.
  - (* rule 4 *)
    unfold fires4. rewrite D8.
    destruct (isSunday (date e)) eqn:HS; [|reflexivity]. cbn [andb].
    destruct (sunday_chain e e3 e4 e5 e6 e7 HS D3 D4 P4 P5 R5 P6 R6 P7 R7)
      as (_ & _ & _ & HPREM).
    rewrite R8, HPREM, HP. cbn [negb orb].
    destruct (arrayIncludes OFFICE_COST_CODES (toUpperCase (costCode e)));
      reflexivity.
  - (* rule 1 *)
    unfold fires1. rewrite G8, HP.
    generalize (payType e) (costCategory e) (isSunday (date e))
      (arrayIncludes OFFICE_COST_CODES (toUpperCase (costCode e))).
    intros p c sun office. destruct sun, office; cbn [andb orb]; strings.
Qed.

(** ** How many changes an entry can get *)

(** Of rules 2, 3 and 7 one at most assigns: their cost codes differ. *)
Lemma one_cost_code_rule (e x y z : Entry) :
  costCode x = costCode e -> costCode y = costCode e -> costCode z = costCode e ->
  (if fires2 x then 1 else 0) + (if fires3 y then 1 else 0)
  + (if fires7 z then 1 else 0) <= 1.
Proof.
  intros Hx Hy Hz. unfold fires2, fires3, fires7. rewrite Hx, Hy, Hz.
  destruct (costCode_classes (toUpperCase (costCode e))) as [HS HPM].
  cbv zeta in HS, HPM.
  destruct (String.eqb (toUpperCase (costCode e)) "SERVICE"
            || String.eqb (toUpperCase (costCode e)) "INSTALL").
  - destruct (HS eq_refl) as [-> ->]. cbn [andb].
    destruct (negb _); cbn; lia.
  - cbn [andb].
    destruct (arrayIncludes ["PM"; "PMF"; "FTPM"] (toUpperCase (costCode e))).
    + rewrite (HPM eq_refl). cbn [andb]. destruct (negb _); cbn; lia.
    + cbn [andb]. destruct (_ && _); cbn; lia.
Qed.

(** An entry gets four changes at most, and three when the day is no
    Sunday. *)
Lemma corrected_count (e : Entry) :
  length (snd (corrected isSunday e)) <= (if isSunday (date e) then 4 else 3).
Proof.
  rewrite corrected_eq. cbn [snd]. chain e. rewrite Hchanges.
  rewrite !length_app, !stepChanges_length.
  cbn [cond step1 step2 step3 step5 step6 step7].
  pose proof (one_cost_code_rule e e1 e2 e7 C1 C2 C7) as H237.
  destruct (isSunday (date e)) eqn:HS.
  - destruct (sunday_chain e e3 e4 e5 e6 e7 HS D3 D4 P4 P5 R5 P6 R6 P7 R7)
      as (F5 & F6 & _).
    rewrite F5, F6.
    destruct (fires1 e), (cond (step4pay isSunday) e3),
      (cond (step4rate isSunday) e4); cbn; lia.
  - cbn [cond step4pay step4rate]. rewrite D3, D4, HS. cbn [andb].
    assert (H15 : (if fires1 e then 1 else 0) + (if fires5 e5 then 1 else 0) <= 1).
    { destruct (fires1 e) eqn:F1; [|destruct (fires5 e5); cbn; lia].
      assert (fires5 e5 = false) as ->; [|cbn; lia].
      unfold fires5. rewrite P5, P4. cbn [cond step4pay]. rewrite D3, HS.
      cbn [andb]. now rewrite P3, P2, P1. }
    assert (H56 : (if fires5 e5 then 1 else 0) + (if fires6 e6 then 1 else 0) <= 1).
    { destruct (fires5 e5) eqn:F5; [|destruct (fires6 e6); cbn; lia].
      assert (fires6 e6 = false) as ->; [|cbn; lia].
      destruct (fires6 e6) eqn:H6; [|reflexivity].
      apply fires6_no_OT_PREM in H6 as [H6 _]. rewrite R6 in H6.
      now rewrite callRate_has_OT in H6. }
    destruct (fires1 e), (fires2 e1), (fires3 e2), (fires5 e5), (fires6 e6),
      (fires7 e7); cbn in *; lia.
Qed.

(** The changes of one entry, read back. *)
Lemma corrected_log (e : Entry) :
  replay (snd (corrected isSunday e)) e = Some (fst (corrected isSunday e))
  /\ Forall (recordOf e) (snd (corrected isSunday e))
  /\ sublist (map chRule (snd (corrected isSunday e))) ruleLabels.
Proof.
  rewrite corrected_eq. cbn [fst snd].
  exact (changesAfter_log (steps isSunday) e).
Qed.

(** [applyRulesTo] never fails. *)
Lemma applyRulesTo_pair (e : Entry) :
  applyRulesTo isSunday e
  = Some (fst (corrected isSunday e), snd (corrected isSunday e)).
Proof. rewrite applyRulesTo_eq. now destruct (corrected isSunday e). Qed.

(** The changes name the field they assign and the rule they come from. *)
Lemma changesAfter_fields (ss : list Step) :
  forall e : Entry,
    Forall (fun c => (chField c = "payType" \/ chField c = "laborRate")
                     /\ In (chRule c) (map label ss))
           (changesAfter ss e).
Proof.
  induction ss as [|s ss IH]; intros e; [constructor|].
  cbn [changesAfter map]. apply Forall_app. split.
  - unfold stepChanges. destruct (cond s e); [|constructor].
    constructor; [|constructor]. fields.
    split; [destruct (field s); [now left | now right] | now left].
  - eapply Forall_impl; [apply IH|]. intros c [Hf Hr]. split; [exact Hf | now right].
Qed.

Lemma corrected_fields (e : Entry) :
  Forall (fun c => (chField c = "payType" \/ chField c = "laborRate")
                   /\ In (chRule c) ruleLabels)
         (snd (corrected isSunday e)).
Proof.
  rewrite corrected_eq. cbn [snd]. exact (changesAfter_fields (steps isSunday) e).
Qed.

(** What is appended to the store is found behind the next references. *)
Lemma lookup_appended (l : list Entry) :
  forall σ : Store,
    Forall2 (fun r e' => (σ ++ l)%list !! r = Some e') (seq (length σ) (length l)) l.
Proof.
  induction l as [|x l IH]; intros σ; cbn [length seq]; constructor.
  - now apply list_lookup_middle.
  - specialize (IH (σ ++ [x])%list). rewrite length_app in IH. cbn [length] in IH.
    rewrite Nat.add_1_r, <- app_assoc in IH. exact IH.
Qed.

(** On entries the first revision of the parser can return, rule 7 finds
    no office cost code. *)
Lemma no_office_code (c : string) :
  In c SingleLineParser.costCodes ->
  arrayIncludes OFFICE_COST_CODES (toUpperCase c) = false.
Proof.
  intros H. cbn in H.
  repeat (destruct H as [<-|H]; [reflexivity|]). destruct H.
Qed.

Lemma corrected_without_rule7 (e : Entry) :
  arrayIncludes OFFICE_COST_CODES (toUpperCase (costCode e)) = false ->
  Forall (fun c => chRule c <> "Rule 7: Office Override") (snd (corrected isSunday e)).
Proof.
  intros Hoff. rewrite corrected_eq. cbn [snd]. chain e. rewrite Hchanges.
  assert (H7 : stepChanges step7 e7 = []).
  { unfold stepChanges. cbn [cond step7]. unfold fires7. now rewrite C7, Hoff. }
  rewrite H7.
  repeat (apply Forall_app; split); try constructor;
    unfold stepChanges;
    match goal with
    | |- context [if ?b then _ else _] => destruct b
    end; repeat constructor; fields; discriminate.
Qed.
End Rules.

End PipelineFacts.

(* ================================================================== *)
(** * Properties of the summary of the changes *)
(* ================================================================== *)

Module SummaryFacts.

Import JS JSObject ChangeSummary.

(** ** Own properties *)

Lemma own_assign_same {V : Type} (k : string) (v : V) (o : Obj V) :
  own k (assign k v o) = Some v.
Proof.
  induction o as [|[k' v'] o IH]; cbn [assign own].
  - now rewrite String.eqb_refl.
  - destruct (String.eqb k k') eqn:E; cbn [own]; rewrite E; [reflexivity | exact IH].
Qed.

Lemma own_assign_other {V : Type} (k k' : string) (v : V) (o : Obj V) :
  k <> k' -> own k (assign k' v o) = own k o.
Proof.
  intros Hk. induction o as [|[k2 v2] o IH]; cbn [assign own].
  - destruct (String.eqb_spec k k'); [contradiction | reflexivity].
  - destruct (String.eqb_spec k' k2) as [->|]; cbn [own].
    + destruct (String.eqb_spec k k2); [contradiction | reflexivity].
    + destruct (String.eqb k k2); [reflexivity | exact IH].
Qed.

(** The names of the own properties; assigning adds one at most. *)
Lemma own_keys {V : Type} (k : string) (o : Obj V) :
  own k o <> None <-> In k (map fst o).
Proof.
  induction o as [|[k' v'] o IH]; cbn [own map fst In]; [tauto|].
  destruct (String.eqb_spec k k') as [->|Hn].
  - split; [now left | discriminate].
  - rewrite IH. split; [now right | intros [H|H]; [congruence | exact H]].
Qed.

(** ** One key counted *)

(** A key the object does not inherit is counted up by one. *)
Lemma countUp_same (o : Obj Count) (k : string) (n : nat) :
  inherited k = false -> own k o = counted n ->
  own k (countUp o k) = counted (S n).
Proof.
  intros Hk Ho. unfold countUp. rewrite Ho, Hk.
  destruct n as [|n]; cbn [counted]; apply own_assign_same.
Qed.

(** Counting a key leaves the others. *)
Lemma countUp_other (o : Obj Count) (k k' : string) :
  k <> k' -> own k (countUp o k') = own k o.
Proof.
  intros Hk. unfold countUp.
  destruct (own k' o) as [[|[|n]]|]; try apply own_assign_other; try assumption.
  destruct (inherited k'); [|now apply own_assign_other].
  destruct (String.eqb k' "__proto__"); [reflexivity | now apply own_assign_other].
Qed.

(** Counting the keys of a list of changes. *)
Lemma counts_own (key : Change -> string) (k : string) (changes : list Change) :
  inherited k = false ->
  forall (o : Obj Count) (n : nat),
    own k o = counted n ->
    own k (fold_left (fun o c => countUp o (key c)) changes o)
    = counted (n + countOf key k changes).
Proof.
  intros Hk. induction changes as [|c changes IH]; intros o n Ho.
  - cbn. now rewrite Nat.add_0_r.
  - cbn [fold_left]. unfold countOf. cbn [List.filter].
    destruct (String.eqb_spec (key c) k) as [E|E].
    + cbn [length]. rewrite Nat.add_succ_r. apply (IH _ (S n)).
      rewrite E. now apply countUp_same.
    + apply IH. rewrite countUp_other by congruence. exact Ho.
Qed.

(** ** The sum of the counts *)

Lemma sumCounts_assign (k : string) (m : nat) (o : Obj Count) (s : nat) :
  sumCounts o = Some s ->
  sumCounts (assign k (Num m) o)
  = Some (match own k o with
          | Some (Num n) => s - n + m
          | _ => s + m
          end)
  /\ match own k o with
     | Some (Num n) => n <= s
     | Some NaN => False
     | None => True
     end.
Proof.
  revert s. induction o as [|[k' [|n']] o IH]; intros s Hs; cbn [sumCounts] in Hs.
  - inversion Hs. cbn. split; [f_equal; lia | exact I].
  - discriminate.
  - destruct (sumCounts o) as [s'|] eqn:Ho; [|discriminate].
    cbn [option_map] in Hs. inversion Hs; subst. clear Hs.
    cbn [assign own]. destruct (String.eqb k k').
    + cbn [sumCounts]. rewrite Ho. cbn [option_map].
      split; [f_equal; lia | lia].
    + cbn [sumCounts]. destruct (IH s' eq_refl) as [-> Hle]. cbn [option_map].
      destruct (own k o) as [[|n]|]; [contradiction | |];
        (split; [f_equal; lia | try lia; exact I]).
Qed.

(** A key the object does not inherit adds one to the sum. *)
Lemma countUp_sum (o : Obj Count) (k : string) (s : nat) :
  inherited k = false -> sumCounts o = Some s ->
  sumCounts (countUp o k) = Some (S s).
Proof.
  intros Hk Hs. unfold countUp. rewrite Hk.
  destruct (sumCounts_assign k 1 o s Hs) as [H1 Hle].
  destruct (own k o) as [[|[|n]]|] eqn:Ho.
  - contradiction.
  - rewrite H1. f_equal. lia.
  - destruct (sumCounts_assign k (S (S n)) o s Hs) as [H2 _].
    rewrite Ho in H2. rewrite H2. f_equal. lia.
  - rewrite H1. f_equal. lia.
Qed.

Lemma counts_sum (key : Change -> string) (changes : list Change) :
  Forall (fun c => inherited (key c) = false) changes ->
  forall (o : Obj Count) (s : nat),
    sumCounts o = Some s ->
    sumCounts (fold_left (fun o c => countUp o (key c)) changes o)
    = Some (s + length changes).
Proof.
  induction 1 as [|c changes Hc _ IH]; intros o s Hs.
  - cbn. now rewrite Nat.add_0_r.
  - cbn [fold_left length]. rewrite Nat.add_succ_r. apply (IH _ (S s)).
    now apply countUp_sum.
Qed.

(** ** The three tables of the summary *)

Lemma getSummary_tables (changes : list Change) :
  forall s : Summary,
    fold_left countChange changes s
    = mkSummary (totalChanges s)
        (fold_left (fun o c => countUp o (chRule c)) changes (changesByRule s))
        (fold_left (fun o c => countUp o (chEmployeeName c)) changes
                   (changesByEmployee s))
        (fold_left (fun o c => countUp o (chField c)) changes (changesByField s)).
Proof.
  induction changes as [|c changes IH]; intros s; [now destruct s|].
  cbn [fold_left]. now rewrite IH.
Qed.

(** A counter holds a key only if a change has it. *)
Lemma counts_keys (key : Change -> string) (k : string) (changes : list Change) :
  forall o : Obj Count,
    own k (fold_left (fun o c => countUp o (key c)) changes o) <> None ->
    own k o <> None \/ Exists (fun c => key c = k) changes.
Proof.
  induction changes as [|c changes IH]; intros o H; [now left|].
  cbn [fold_left] in H. destruct (IH _ H) as [H1|H1].
  - destruct (String.eqb_spec k (key c)) as [->|Hn].
    + right. now constructor.
    + left. now rewrite countUp_other in H1.
  - right. now constructor 2.
Qed.

(** What [getSummary] holds: the total, the count of a key that is not
    inherited, and the sum of a table none of whose keys is inherited. *)
Lemma getSummary_counts (changes : list Change) :
  totalChanges (getSummary changes) = length changes
  /\ (forall k : string,
        inherited k = false ->
        own k (changesByRule (getSummary changes))
        = counted (countOf chRule k changes)
        /\ own k (changesByEmployee (getSummary changes))
           = counted (countOf chEmployeeName k changes)
        /\ own k (changesByField (getSummary changes))
           = counted (countOf chField k changes))
  /\ (Forall (fun c => inherited (chRule c) = false) changes ->
      sumCounts (changesByRule (getSummary changes)) = Some (length changes))
  /\ (Forall (fun c => inherited (chEmployeeName c) = false) changes ->
      sumCounts (changesByEmployee (getSummary changes)) = Some (length changes))
  /\ (Forall (fun c => inherited (chField c) = false) changes ->
      sumCounts (changesByField (getSummary changes)) = Some (length changes)).
Proof.
  unfold getSummary. rewrite getSummary_tables.
  cbn [totalChanges changesByRule changesByEmployee changesByField].
  split; [reflexivity|]. split; [|split; [|split]].
  - intros k Hk. repeat split; apply (counts_own _ k changes Hk [] 0); reflexivity.
  - intros H. apply (counts_sum _ changes H [] 0). reflexivity.
  - intros H. apply (counts_sum _ changes H [] 0). reflexivity.
  - intros H. apply (counts_sum _ changes H [] 0). reflexivity.
Qed.

End SummaryFacts.

(* ================================================================== *)
(** * Properties of the grouping by employee *)
(* ================================================================== *)

Module GroupFacts.

Import JS JSObject ReportGroups SummaryFacts.

(** ** The key of an entry is no inherited name *)

Lemma includes_prefix (p s : string) :
  String.prefix p s = true -> includes p s = true.
Proof. intros H. destruct s; cbn [includes]; now rewrite H. Qed.

Lemma prefix_append (p b : string) : String.prefix p (p ++ b) = true.
Proof.
  induction p as [|c p IH]; cbn; [now destruct b|].
  destruct (ascii_dec c c); [exact IH | contradiction].
Qed.

Lemma includes_middle (p a b : string) : includes p (a ++ p ++ b) = true.
Proof.
  induction a as [|c a IH]; cbn [append].
  - apply includes_prefix, prefix_append.
  - cbn [includes]. rewrite IH. apply orb_true_r.
Qed.

Lemma key_not_inherited (e : Entry) : inherited (employeeKey e) = false.
Proof.
  unfold inherited, arrayIncludes, inheritedNames. cbn [existsb].
  pose proof (includes_middle " - " (employeeName e) (employeeId e)) as H.
  fold (employeeKey e) in H.
  repeat match goal with
         | |- context [String.eqb ?a ?b] =>
             let E := fresh "E" in
             destruct (String.eqb_spec a b) as [E|E];
               [rewrite E in H; discriminate H|]
         end.
  reflexivity.
Qed.

(** ** Keys *)

Lemma own_none {V : Type} (k : string) (o : Obj V) :
  own k o = None <-> arrayIncludes (map fst o) k = false.
Proof.
  unfold arrayIncludes.
  induction o as [|[k' v'] o IH]; cbn [own map fst existsb]; [tauto|].
  destruct (String.eqb k k'); cbn [orb]; [split; discriminate | exact IH].
Qed.

Lemma assign_keys {V : Type} (k : string) (v : V) (o : Obj V) :
  map fst (assign k v o)
  = if arrayIncludes (map fst o) k then map fst o else (map fst o ++ [k])%list.
Proof.
  unfold arrayIncludes.
  induction o as [|[k' v'] o IH]; cbn [assign map fst existsb app]; [reflexivity|].
  destruct (String.eqb k k'); cbn [orb map fst]; [reflexivity|].
  rewrite IH. now destruct (existsb (String.eqb k) (map fst o)).
Qed.

Lemma arrayIncludes_app (a b : list string) (x : string) :
  arrayIncludes (a ++ b) x = arrayIncludes a x || arrayIncludes b x.
Proof. apply existsb_app. Qed.

(** The first occurrences depend on what was seen, not on its order. *)
Lemma firstKeys_ext (data : list Entry) :
  forall s1 s2 : list string,
    (forall k, arrayIncludes s1 k = arrayIncludes s2 k) ->
    firstKeys s1 data = firstKeys s2 data.
Proof.
  induction data as [|e data IH]; intros s1 s2 H; [reflexivity|].
  cbn [firstKeys]. rewrite (H (employeeKey e)).
  destruct (arrayIncludes s2 (employeeKey e)); [now apply IH|].
  f_equal. apply IH. intros k. unfold arrayIncludes in *. cbn [existsb].
  now rewrite H.
Qed.

Lemma firstKeys_fresh (data : list Entry) :
  forall seen : list string,
    NoDup (firstKeys seen data)
    /\ Forall (fun k => arrayIncludes seen k = false) (firstKeys seen data).
Proof.
  induction data as [|e data IH]; intros seen; cbn [firstKeys].
  - split; constructor.
  - destruct (arrayIncludes seen (employeeKey e)) eqn:Hin; [apply IH|].
    destruct (IH (employeeKey e :: seen)) as [Hnd Hall]. split.
    + constructor; [|exact Hnd].
      intros Hel. rewrite Forall_forall in Hall. apply Hall in Hel.
      unfold arrayIncludes in Hel. cbn [existsb] in Hel.
      now rewrite String.eqb_refl in Hel.
    + constructor; [exact Hin|].
      eapply Forall_impl; [exact Hall|].
      intros k Hk. unfold arrayIncludes in *. cbn [existsb] in Hk.
      now apply orb_false_iff in Hk as [_ Hk].
Qed.

(** ** The loop *)

(** The entries of [data] whose key is [k]. *)
Local Abbreviation keyed k data :=
  (List.filter (fun e : Entry => String.eqb (employeeKey e) k) data).

Lemma groups_fold (data : list Entry) :
  forall g : Obj (list Entry),
  exists g',
    fold_left groupEntry data (Some g) = Some g'
    /\ (forall k,
          own k g' = match own k g with
                     | Some es => Some (es ++ keyed k data)%list
                     | None => match keyed k data with
                               | [] => None
                               | f => Some f
                               end
                     end)
    /\ map fst g' = (map fst g ++ firstKeys (map fst g) data)%list.
Proof.
  induction data as [|e data IH]; intros g.
  - exists g. cbn. split; [reflexivity|]. split.
    + intros k. destruct (own k g); [now rewrite app_nil_r | reflexivity].
    + now rewrite app_nil_r.
  - cbn [fold_left].
    set (key := employeeKey e).
    set (g1 := assign key (match own key g with
                           | Some es => push es e
                           | None => [e]
                           end) g).
    assert (Hstep : groupEntry (Some g) e = Some g1).
    { unfold groupEntry. fold key. subst g1.
      destruct (own key g); [reflexivity|].
      unfold key. now rewrite key_not_inherited. }
    rewrite Hstep. destruct (IH g1) as (g' & Hf & Ho & Hk).
    exists g'. split; [exact Hf|]. split.
    + intros k. rewrite Ho. cbn [List.filter]. fold key.
      destruct (String.eqb_spec key k) as [<-|Hn].
      * subst g1. rewrite own_assign_same.
        destruct (own key g); unfold push; [now rewrite <- app_assoc | reflexivity].
      * subst g1. rewrite own_assign_other by congruence. reflexivity.
    + rewrite Hk. subst g1. rewrite assign_keys. cbn [firstKeys]. fold key.
      destruct (arrayIncludes (map fst g) key) eqn:Hin; [reflexivity|].
      rewrite <- app_assoc. cbn [app]. do 2 f_equal.
      apply firstKeys_ext. intros k. rewrite arrayIncludes_app.
      unfold arrayIncludes. cbn [existsb]. rewrite orb_false_r. apply orb_comm.
Qed.

(** With distinct keys, what the object lists is what it holds. *)
Lemma own_listed {V : Type} (o : Obj V) :
  NoDup (map fst o) -> Forall (fun kv => own (fst kv) o = Some (snd kv)) o.
Proof.
  induction o as [|[k v] o IH]; intros Hnd; [constructor|].
  cbn [map fst] in Hnd. apply NoDup_cons in Hnd as [Hk Hnd].
  constructor.
  - cbn [own fst snd]. now rewrite String.eqb_refl.
  - specialize (IH Hnd). rewrite Forall_forall in IH |- *.
    intros [k' v'] Hin. cbn [own fst snd].
    destruct (String.eqb_spec k' k) as [->|]; [|now apply (IH (k', v'))].
    exfalso. apply Hk. apply list_elem_of_fmap. now exists (k, v').
Qed.

(** [groupByEmployee] never fails; the keys come in the order of their
    first occurrence, each once; the group of a key holds the entries of
    that key in their order, and there is no empty group. *)
Lemma groupByEmployee_spec (data : list Entry) :
  exists g,
    groupByEmployee data = Some g
    /\ map fst g = firstKeys [] data
    /\ NoDup (map fst g)
    /\ (forall k, own k g = match keyed k data with
                            | [] => None
                            | f => Some f
                            end)
    /\ Forall (fun kv => snd kv = keyed (fst kv) data /\ snd kv <> []) g.
Proof.
  destruct (groups_fold data []) as (g & Hf & Ho & Hk).
  cbn [own map app] in Ho, Hk.
  assert (Hnd : NoDup (map fst g)).
  { rewrite Hk. apply firstKeys_fresh. }
  exists g. repeat split; try assumption.
  pose proof (own_listed g Hnd) as Hl.
  eapply Forall_impl; [exact Hl|].
  intros [k es] H. cbn [fst snd] in *. rewrite Ho in H.
  destruct (keyed k data); [discriminate|].
  inversion H. split; [reflexivity | discriminate].
Qed.

End GroupFacts.

(* ================================================================== *)
(** * Further properties of the parser *)
(* ================================================================== *)

Module ParsedFacts.

Import JS Regex ReportScan ParserFacts ParsedData.

(** ** White space at the ends *)

Lemma rtrim_idem (s : string) : rtrim (rtrim s) = rtrim s.
Proof.
  induction s as [|c s IH]; [reflexivity|]. cbn [rtrim].
  destruct (isSpace c && String.eqb (rtrim s) "") eqn:E; [reflexivity|].
  cbn [rtrim]. now rewrite IH, E.
Qed.

(** What [ltrim] leaves starts with no white space. *)
Lemma ltrim_head (s : string) :
  match ltrim s with
  | String c _ => isSpace c = false
  | EmptyString => True
  end.
Proof.
  unfold ltrim. induction s as [|c s IH]; cbn [span]; [exact I|].
  destruct (isSpace c) eqn:E.
  - destruct (span isSpace s). exact IH.
  - cbn [snd]. exact E.
Qed.

Lemma ltrim_fixed (c : ascii) (s : string) :
  isSpace c = false -> ltrim (String c s) = String c s.
Proof. intros H. unfold ltrim. cbn [span]. now rewrite H. Qed.

Lemma rtrim_head (c : ascii) (s : string) :
  isSpace c = false -> rtrim (String c s) = String c (rtrim s).
Proof. intros H. cbn [rtrim]. now rewrite H. Qed.

(** A trimmed string starts with no white space. *)
Lemma trim_head (s : string) :
  match trim s with
  | String c _ => isSpace c = false
  | EmptyString => True
  end.
Proof.
  unfold trim. pose proof (ltrim_head s) as H.
  destruct (ltrim s) as [|c r]; [exact I|].
  now rewrite rtrim_head.
Qed.

Lemma trim_idem (s : string) : trim (trim s) = trim s.
Proof.
  pose proof (trim_head s) as H. unfold trim at 1.
  destruct (trim s) as [|c r] eqn:E; [reflexivity|].
  rewrite ltrim_fixed by exact H. rewrite <- E. unfold trim. apply rtrim_idem.
Qed.

(** A string that starts with no white space keeps something when
    trimmed. *)
Lemma trim_truthy (c : ascii) (s : string) :
  isSpace c = false -> truthy (trim (String c s)) = true.
Proof.
  intros H. unfold trim. now rewrite ltrim_fixed, rtrim_head.
Qed.

(** A string without white space is trimmed already. *)
Lemma trim_no_space (s : string) :
  allChars notSpace s = true -> trim s = s.
Proof.
  intros H. unfold trim.
  assert (Hl : ltrim s = s).
  { destruct s as [|c s]; [reflexivity|]. cbn in H.
    apply andb_true_iff in H as [H _]. apply ltrim_fixed.
    now apply negb_true_iff in H. }
  rewrite Hl. induction s as [|c s IH]; [reflexivity|].
  cbn in H. apply andb_true_iff in H as [Hc Hs].
  apply negb_true_iff in Hc. rewrite rtrim_head by exact Hc. f_equal.
  apply IH; [exact Hs|].
  destruct s as [|c' s]; [reflexivity|]. cbn in Hs.
  apply andb_true_iff in Hs as [Hc' _]. apply ltrim_fixed.
  now apply negb_true_iff in Hc'.
Qed.

Lemma digit_notSpace (c : ascii) : isDigit c = true -> notSpace c = true.
Proof.
  unfold isDigit, notSpace, isSpace, between. intros H.
  apply andb_true_iff in H as [H1 H2].
  apply Nat.leb_le in H1, H2. apply negb_true_iff, orb_false_iff. split.
  - apply andb_false_iff. right. apply Nat.leb_gt. lia.
  - apply Nat.eqb_neq. lia.
Qed.

(** ** Lengths of what the matchers take *)

Lemma length_append (a b : string) :
  String.length (a ++ b) = String.length a + String.length b.
Proof. induction a as [|c a IH]; cbn; [reflexivity | now rewrite IH]. Qed.

Lemma take_append (a b : string) : take (String.length a) (a ++ b) = a.
Proof. induction a as [|c a IH]; cbn; [now destruct b | now rewrite IH]. Qed.

Lemma matched_append (a r : string) : matched (a ++ r) r = a.
Proof.
  unfold matched. rewrite length_append.
  replace (String.length a + String.length r - String.length r)
    with (String.length a) by lia.
  apply take_append.
Qed.

Lemma append_nil (a : string) : a ++ "" = a.
Proof. induction a as [|c a IH]; cbn; [reflexivity | now rewrite IH]. Qed.

Lemma append_assoc (a b c : string) : (a ++ b) ++ c = a ++ b ++ c.
Proof. induction a as [|x a IH]; cbn; [reflexivity | now rewrite IH]. Qed.

Lemma spanUpTo_length (n : nat) (p : ascii -> bool) :
  forall s a r, spanUpTo n p s = (a, r) -> String.length a <= n.
Proof.
  induction n as [|n IH]; intros s a r H.
  - destruct s; cbn in H; inversion H; cbn; lia.
  - destruct s as [|c s]; cbn in H; [inversion H; cbn; lia|].
    destruct (p c); [|inversion H; cbn; lia].
    destruct (spanUpTo n p s) as [a' r'] eqn:E. inversion H; subst.
    cbn. apply IH in E. lia.
Qed.

(** A run of [p] in front of a character that is not [p] is what
    [spanUpTo] takes, when it is not too long. *)
Lemma spanUpTo_stop (n : nat) (p : ascii -> bool) (a : string) (c : ascii)
    (rest : string) :
  allChars p a = true -> String.length a <= n -> p c = false ->
  spanUpTo n p (a ++ String c rest) = (a, String c rest).
Proof.
  revert n. induction a as [|x a IH]; intros n Ha Hn Hc.
  - cbn [append]. destruct n; cbn [spanUpTo]; [reflexivity | now rewrite Hc].
  - cbn in Ha. apply andb_true_iff in Ha as [Hx Ha].
    destruct n as [|n]; [cbn in Hn; lia|].
    cbn [append spanUpTo]. rewrite Hx.
    rewrite (IH n Ha ltac:(cbn in Hn; lia) Hc). reflexivity.
Qed.

Lemma spanUpTo_all (n : nat) (p : ascii -> bool) (a : string) :
  allChars p a = true -> String.length a <= n -> spanUpTo n p a = (a, "").
Proof.
  revert n. induction a as [|x a IH]; intros n Ha Hn.
  - now destruct n.
  - cbn in Ha. apply andb_true_iff in Ha as [Hx Ha].
    destruct n as [|n]; [cbn in Hn; lia|].
    cbn [spanUpTo]. rewrite Hx.
    rewrite (IH n Ha ltac:(cbn in Hn; lia)). reflexivity.
Qed.

Lemma someUpTo_full (n : nat) (p : ascii -> bool) (s a r : string) :
  someUpTo n p s = Some (a, r) ->
  s = a ++ r /\ allChars p a = true /\ String.length a <= n /\ truthy a = true.
Proof.
  intros H. pose proof (someUpTo_inv _ _ _ _ _ H) as [H1 H2].
  unfold someUpTo in H. destruct (spanUpTo n p s) as [a' r'] eqn:E.
  destruct (truthy a') eqn:T; [|discriminate]. inversion H; subst a' r'.
  repeat split; try assumption. eapply spanUpTo_length; exact E.
Qed.

Lemma exactly_full (n : nat) (p : ascii -> bool) (s a r : string) :
  exactly n p s = Some (a, r) ->
  s = a ++ r /\ allChars p a = true /\ String.length a = n.
Proof.
  intros H. pose proof (exactly_inv _ _ _ _ _ H) as [H1 H2].
  unfold exactly in H. destruct (spanUpTo n p s) as [a' r'] eqn:E.
  destruct (Nat.eqb_spec (String.length a') n); [|discriminate].
  inversion H; subst a' r'. repeat split; assumption.
Qed.

(** ** Dates *)

(** What [dateAt] matches is a date by itself. *)
Lemma dateAt_shape (s d r : string) :
  dateAt s = Some (d, r) -> s = d ++ r /\ dateAt d = Some (d, "").
Proof.
  unfold dateAt at 1. intros H. unbind.
  apply someUpTo_full in E as (-> & A1 & L1 & T1).
  apply lit_inv in E0. subst s1.
  apply someUpTo_full in E1 as (-> & A2 & L2 & T2).
  apply lit_inv in E2. subst s4.
  apply exactly_full in E3 as (-> & A3 & L3).
  inversion H; subst; clear H.
  set (whole := s0 ++ String "/" (s3 ++ String "/" (s6 ++ r))).
  assert (Hw : whole = (s0 ++ String "/" (s3 ++ String "/" s6)) ++ r).
  { subst whole. rewrite !append_assoc. cbn [append].
    rewrite !append_assoc. cbn [append]. reflexivity. }
  rewrite Hw, matched_append. split; [reflexivity|].
  unfold dateAt, someUpTo, exactly.
  rewrite (spanUpTo_stop 2 isDigit s0 "/" _ A1 L1 eq_refl), T1.
  cbn [mbind option_bind lit Ascii.eqb Bool.eqb].
  rewrite (spanUpTo_stop 2 isDigit s3 "/" _ A2 L2 eq_refl), T2.
  cbn [mbind option_bind lit Ascii.eqb Bool.eqb].
  rewrite (spanUpTo_all 4 isDigit s6 A3 ltac:(lia)), L3.
  cbn [Nat.eqb mbind option_bind].
  replace (s0 ++ String "/" (s3 ++ String "/" s6))
    with ((s0 ++ String "/" (s3 ++ String "/" s6)) ++ "") at 1
    by apply append_nil.
  now rewrite matched_append.
Qed.

Lemma searchFrom_found {A : Type} (m : option ascii -> string -> option A) :
  forall (s : string) (prev : option ascii) (a : A),
    searchFrom m prev s = Some a -> exists prev' s', m prev' s' = Some a.
Proof.
  induction s as [|c s IH]; intros prev a H; cbn [searchFrom] in H.
  - destruct (m prev "") eqn:E; [|discriminate]. inversion H; subst. eauto.
  - destruct (m prev (String c s)) eqn:E; [inversion H; subst; eauto|].
    eapply IH; exact H.
Qed.

(** The date found on a line is a date by itself, and is found again in
    it. *)
Lemma dateMatch_shape (s d : string) :
  dateMatch s = Some d ->
  dateOnlyMatch d = Some d /\ dateMatch d = Some d /\ truthy d = true.
Proof.
  unfold dateMatch, search. intros H.
  apply searchFrom_found in H as (prev & s' & H).
  destruct (dateAt s') as [[d' r]|] eqn:E; [|discriminate].
  cbn [mbind option_bind] in H. inversion H; subst d'. clear H.
  apply dateAt_shape in E as [_ E].
  split; [|split].
  - unfold dateOnlyMatch. now rewrite E.
  - destruct d as [|c d]; cbn [searchFrom]; now rewrite E.
  - destruct d; [cbn in E; discriminate | reflexivity].
Qed.

(** ** Employee headers *)

(** The lazy group starts at the first character of the text and is not
    empty; the rest of the pattern matched somewhere. *)
Lemma lazyName_inv {A : Type} (tail : string -> option A) :
  forall (s name n : string) (a : A),
    lazyName tail name s = Some (n, a) ->
    exists c x r, s = String c r /\ n = name ++ String c x
                  /\ exists r', tail r' = Some a.
Proof.
  induction s as [|c s IH]; intros name n a H; cbn [lazyName] in H; [discriminate|].
  destruct (isNameChar c); [|discriminate].
  destruct (tail s) as [a'|] eqn:E.
  - inversion H; subst. exists c, "", s. repeat split. now exists s.
  - apply IH in H as (c' & x & r & -> & -> & Htail).
    exists c, (String c' x), (String c' r). repeat split; [|exact Htail].
    now rewrite append_assoc.
Qed.

Lemma digits_trimmed (i : string) :
  allChars isDigit i = true -> trim i = i.
Proof.
  intros H. apply trim_no_space.
  eapply allChars_impl; [|exact H]. exact digit_notSpace.
Qed.

(** The header of the first revision on a trimmed line: a name that keeps
    something when trimmed, and an id made of digits. *)
Lemma anchored_header (l n i : string) :
  employeeMatchAnchored (trim l) = Some (n, i) ->
  truthy (trim n) = true
  /\ allChars isDigit (trim i) = true /\ truthy (trim i) = true.
Proof.
  unfold employeeMatchAnchored. intros H.
  apply lazyName_inv in H as (c & x & r & Hl & -> & r' & Htail).
  pose proof (trim_head l) as Hh. rewrite Hl in Hh. cbn [append].
  split; [now apply trim_truthy|].
  destruct (span isSpace r') as [sp r1]. unbind.
  apply lit_inv in E. destruct (span isSpace s) as [sp2 r2].
  cbn [mbind option_bind] in Htail.
  destruct (some isDigit r2) as [[id r3]|] eqn:E2; [|discriminate].
  cbn [mbind option_bind] in Htail.
  destruct (span isSpace r3) as [sp3 r4].
  destruct (truthy r4); [discriminate|]. inversion Htail; subst id.
  pose proof E2 as E3. apply some_inv in E2 as [_ Hd].
  unfold some in E3. destruct (span isDigit r2) as [a b].
  destruct (truthy a) eqn:T; [|discriminate]. inversion E3; subst a b.
  now rewrite (digits_trimmed _ Hd).
Qed.

(** The same for the header of the second revision. *)
Lemma spaced_header (l n i : string) :
  FourLineParser.employeeHeader (trim l) = Some (n, i) ->
  truthy (trim n) = true
  /\ allChars isDigit (trim i) = true /\ truthy (trim i) = true.
Proof.
  unfold FourLineParser.employeeHeader.
  destruct (employeeMatchSpaced (trim l)) as [[n' i']|] eqn:Hm; [|discriminate].
  destruct (_ && _); [|discriminate]. intros H. inversion H; subst n' i'. clear H.
  unfold employeeMatchSpaced in Hm.
  apply lazyName_inv in Hm as (c & x & r & Hl & -> & r' & Htail).
  pose proof (trim_head l) as Hh. rewrite Hl in Hh. cbn [append].
  split; [now apply trim_truthy|].
  unbind. inversion Htail; subst. clear Htail.
  pose proof E2 as E3. apply some_inv in E2 as [_ Hd].
  unfold some in E3. destruct (span isDigit s3) as [a b].
  destruct (truthy a) eqn:T; [|discriminate]. inversion E3; subst a b.
  now rewrite (digits_trimmed _ Hd).
Qed.

(** ** The sorted list of labor rates *)

Lemma insertByLength_In (x y : string) (l : list string) :
  In y (SingleLineParser.insertByLength x l) <-> y = x \/ In y l.
Proof.
  induction l as [|z l IH]; cbn [SingleLineParser.insertByLength In].
  - split; intros [H|H]; auto.
  - destruct (Nat.leb _ _); cbn [In]; [|rewrite IH]; split; intros H;
      intuition congruence.
Qed.

Lemma sortByLengthDesc_In (y : string) (l : list string) :
  In y (SingleLineParser.sortByLengthDesc l) <-> In y l.
Proof.
  unfold SingleLineParser.sortByLengthDesc.
  induction l as [|x l IH]; cbn [fold_right In]; [tauto|].
  rewrite insertByLength_In, IH. split; intros [H|H]; auto.
Qed.

(** No string of the sorted list is shorter than one after it. *)
Lemma insertByLength_sorted (x : string) (l : list string) :
  StronglySorted (fun a b => String.length b <= String.length a) l ->
  StronglySorted (fun a b => String.length b <= String.length a)
                 (SingleLineParser.insertByLength x l).
Proof.
  induction 1 as [|z l Hs IH Hz]; cbn [SingleLineParser.insertByLength].
  - repeat constructor.
  - destruct (Nat.leb_spec (String.length z) (String.length x)).
    + constructor; [now constructor|].
      constructor; [assumption|].
      eapply Forall_impl; [exact Hz|]. cbn beta. intros; lia.
    + constructor; [exact IH|].
      apply List.Forall_forall. intros y Hy. apply insertByLength_In in Hy as [->|Hy].
      * lia.
      * rewrite List.Forall_forall in Hz. now apply Hz.
Qed.

Lemma sortByLengthDesc_sorted (l : list string) :
  StronglySorted (fun a b => String.length b <= String.length a)
                 (SingleLineParser.sortByLengthDesc l).
Proof.
  unfold SingleLineParser.sortByLengthDesc.
  induction l as [|x l IH]; cbn [fold_right]; [constructor|].
  now apply insertByLength_sorted.
Qed.

(** The first string of such a list that satisfies a test is a longest
    one that does. *)
Lemma find_longest (p : string -> bool) (l : list string) (x : string) :
  StronglySorted (fun a b => String.length b <= String.length a) l ->
  List.find p l = Some x ->
  forall y, In y l -> p y = true -> String.length y <= String.length x.
Proof.
  induction 1 as [|z l Hs IH Hz]; intros Hf y Hy Hp; [discriminate|].
  cbn [List.find] in Hf. destruct (p z) eqn:Hpz.
  - inversion Hf; subst z. destruct Hy as [->|Hy]; [lia|].
    rewrite List.Forall_forall in Hz. now apply Hz.
  - destruct Hy as [->|Hy]; [congruence|]. now apply IH.
Qed.

Lemma find_none_all {A : Type} (p : A -> bool) (l : list A) :
  List.find p l = None -> forall y, In y l -> p y = false.
Proof.
  induction l as [|z l IH]; intros Hf y Hy; [destruct Hy|].
  cbn [List.find] in Hf. destruct (p z) eqn:Hpz; [discriminate|].
  destruct Hy as [->|Hy]; [exact Hpz | now apply IH].
Qed.

Lemma default_find_In (d : string) (p : string -> bool) (l : list string) :
  In d l -> In (default d (List.find p l)) l.
Proof.
  intros Hd. destruct (List.find p l) eqn:E; cbn [default]; [|exact Hd].
  now apply List.find_some in E as [E _].
Qed.

(** ** What [parseTimeEntry] of the first revision extracts *)

Lemma SL_parseTimeEntry_fields (line d : string) (raw : RawEntry) :
  SingleLineParser.parseTimeEntry line d = Some raw ->
  rawDate raw = d /\ truthy d = true
  /\ rawOriginalLine raw = trim line
  /\ In (rawPayType raw) SingleLineParser.payTypes
  /\ In (rawLaborRate raw) SingleLineParser.laborRates
  /\ In (rawCostCode raw) SingleLineParser.costCodes
  /\ In (rawCostCategory raw) ["DirLab"; "TechUnapplyd"; "Office"; "CLEARING"]
  /\ (forall r, In r SingleLineParser.laborRates -> includes r line = true ->
                includes (rawLaborRate raw) line = true
                /\ String.length r <= String.length (rawLaborRate raw)).
Proof.
  unfold SingleLineParser.parseTimeEntry.
  destruct (truthy d) eqn:Td; [|discriminate].
  cbv beta iota zeta delta [negb].
  match goal with
  | |- (if positive ?h then _ else _) = _ -> _ =>
      destruct (positive h); [|discriminate]
  end.
  intros H. apply (inj Some) in H. rewrite <- H. clear H.
  cbv beta iota delta [rawDate rawOriginalLine rawPayType rawLaborRate
                       rawCostCode rawCostCategory].
  split; [reflexivity|]. split; [reflexivity|]. split; [reflexivity|].
  split; [apply default_find_In; cbn; auto|].
  split.
  { apply sortByLengthDesc_In, default_find_In, sortByLengthDesc_In. cbn. auto. }
  split; [apply default_find_In; cbn; auto|].
  split.
  { destruct (List.find _ SingleLineParser.categories) as [cat|] eqn:E;
      [|cbn; auto].
    apply List.find_some in E as [E _]. cbn in E.
    repeat (destruct E as [<-|E]; [cbn; auto|]). destruct E. }
  intros r Hr Hin.
  destruct (List.find (fun rate => includes rate line)
              (SingleLineParser.sortByLengthDesc SingleLineParser.laborRates))
    as [x|] eqn:E; cbn [default].
  - split; [now apply List.find_some in E as [_ E]|].
    eapply (find_longest _ _ _ (sortByLengthDesc_sorted _) E r);
      [now apply sortByLengthDesc_In | exact Hin].
  - pose proof (find_none_all _ _ E r) as Hn. cbn beta in Hn.
    rewrite Hn in Hin; [discriminate | now apply sortByLengthDesc_In].
Qed.

(** ** What holds of every entry the first revision returns *)

Lemma rawOf_stamp (n i : string) (pp rd : option string) (raw : RawEntry) :
  rawOf (stamp n i pp rd raw) = raw.
Proof. now destruct raw. Qed.

Section Invariant.

(** A property [PE] of the name and the id of an employee, a property [PR]
    of what is extracted from a line. *)
Variable PE : string -> string -> Prop.
Variable PR : RawEntry -> Prop.

Local Abbreviation PQ :=
  (fun e : Entry => PE (employeeName e) (employeeId e) /\ PR (rawOf e)).

(** The state of the loop keeps to [PE] and [PR]. *)
Local Abbreviation kept st :=
  (Forall PQ (allEntries st)
   /\ match currentEmployee st with
      | Some (n, i) => PE n i
      | None => True
      end
   /\ Forall PR (employeeEntries st)).

Lemma saved_kept (st : Scan) : kept st -> Forall PQ (saved st).
Proof.
  intros (Ha & Hc & He). unfold saved.
  destruct (currentEmployee st) as [[n i]|]; [|exact Ha].
  destruct (Nat.ltb 0 _); [|exact Ha].
  apply Forall_app. split; [exact Ha|].
  apply Forall_map. eapply Forall_impl; [exact He|].
  intros raw Hraw. cbn beta. rewrite rawOf_stamp. split; [exact Hc | exact Hraw].
Qed.

Lemma SL_timeEntries_kept (t : string) (st : Scan) :
  kept st ->
  (forall d raw, dateMatch t = Some d ->
     SingleLineParser.parseTimeEntry t d = Some raw -> PR raw) ->
  kept (SingleLineParser.timeEntries t st).
Proof.
  intros Hst HR. unfold SingleLineParser.timeEntries.
  destruct st as [a c es pp rd]. cbn [currentEmployee allEntries employeeEntries] in *.
  destruct c as [[n i]|]; [|exact Hst].
  destruct (dateMatch t) as [d|] eqn:Hd; [|exact Hst].
  destruct (_ && _); [|exact Hst].
  destruct (SingleLineParser.parseTimeEntry t d) as [raw|] eqn:Hp; [|exact Hst].
  destruct Hst as (Ha & Hc & He).
  cbn [pushEntry allEntries currentEmployee employeeEntries].
  split; [exact Ha|]. split; [exact Hc|].
  unfold push. apply Forall_app. split; [exact He|].
  constructor; [|constructor]. eapply HR; [reflexivity | exact Hp].
Qed.

Lemma SL_scan_kept (lines : list string) :
  (forall l n i, In l lines ->
     employeeMatchAnchored (trim l) = Some (n, i) -> PE (trim n) (trim i)) ->
  (forall l d raw, In l lines ->
     employeeMatchAnchored (trim l) = None ->
     dateMatch (trim l) = Some d ->
     SingleLineParser.parseTimeEntry (trim l) d = Some raw -> PR raw) ->
  forall st, kept st -> kept (SingleLineParser.scan st lines).
Proof.
  induction lines as [|l lines IH]; intros HE HR st Hst; [exact Hst|].
  assert (IH' : forall st, kept st -> kept (SingleLineParser.scan st lines)).
  { apply IH; intros; [eapply HE | eapply HR]; try eassumption; now right. }
  rewrite SL_scan_cons. cbv zeta.
  destruct (negb (truthy (trim l))); [now apply IH'|].
  destruct (notes_shape (trim l) st) as (pp & rd & ->).
  set (st1 := mkScan (allEntries st) (currentEmployee st) (employeeEntries st) pp rd).
  assert (Hst1 : kept st1) by exact Hst.
  destruct (employeeMatchAnchored (trim l)) as [[n i]|] eqn:Hm.
  - apply IH'. split; [now apply saved_kept|]. split; [|constructor].
    cbn [currentEmployee startEmployee]. eapply HE; [now left | exact Hm].
  - assert (Hte : kept (SingleLineParser.timeEntries (trim l) st1)).
    { apply SL_timeEntries_kept; [exact Hst1|].
      intros d raw Hd Hp. eapply HR; [now left | exact Hm | exact Hd | exact Hp]. }
    assert (Het : kept (employeeTotals (trim l)
                          (SingleLineParser.timeEntries (trim l) st1))).
    { unfold employeeTotals. destruct (includes "Employee Totals" _); [|exact Hte].
      split; [now apply saved_kept|]. split; [exact I | constructor]. }
    destruct (includes "Report Totals" _); [exact Het | now apply IH'].
Qed.

Lemma SL_parse_kept (text : string) :
  (forall l n i, In l (split SingleLineParser.newline text) ->
     employeeMatchAnchored (trim l) = Some (n, i) -> PE (trim n) (trim i)) ->
  (forall l d raw, In l (split SingleLineParser.newline text) ->
     employeeMatchAnchored (trim l) = None ->
     dateMatch (trim l) = Some d ->
     SingleLineParser.parseTimeEntry (trim l) d = Some raw -> PR raw) ->
  Forall PQ (SingleLineParser.parseEmployeeData text).
Proof.
  intros HE HR. unfold SingleLineParser.parseEmployeeData. cbv zeta.
  apply saved_kept, SL_scan_kept; try assumption.
  split; [constructor|]. split; [exact I | constructor].
Qed.

(** An entry of the four-line layout joins those of the current employee
    and touches nothing else. *)
Lemma FL_timeEntries_same (t : string) (rest : list string) (st : Scan) :
  allEntries (fst (FourLineParser.timeEntries t rest st)) = allEntries st
  /\ currentEmployee (fst (FourLineParser.timeEntries t rest st))
     = currentEmployee st.
Proof.
  unfold FourLineParser.timeEntries. destruct st as [a c es pp rd].
  cbn [currentEmployee]. destruct c; [|split; reflexivity].
  destruct (FourLineParser.jobCodeMatch t) as [[jc ac]|]; [|split; reflexivity].
  destruct rest as [|l1 [|l2 [|l3 after]]]; try (split; reflexivity). cbv zeta.
  destruct (dateOnlyMatch _); [|split; reflexivity].
  destruct (hoursOnlyMatch _) as [[ip fp]|]; [|split; reflexivity].
  destruct (includes _ _); split; reflexivity.
Qed.

(** The same for the second revision, [PR] being kept by whatever a line
    and the lines after it give. *)
Lemma FL_scan_kept (all : list string) (lines : list string) :
  forall pre : list string,
  all = (pre ++ lines)%list ->
  (forall l n i, In l all ->
     FourLineParser.employeeHeader (trim l) = Some (n, i) -> PE (trim n) (trim i)) ->
  (forall pre' l rest st,
     all = (pre' ++ l :: rest)%list ->
     Forall PR (employeeEntries st) ->
     Forall PR (employeeEntries (fst (FourLineParser.timeEntries (trim l) rest st)))) ->
  forall skip st, kept st -> kept (FourLineParser.scan skip st lines).
Proof.
  induction lines as [|l lines IH]; intros pre Hall HE HR skip st Hst; [exact Hst|].
  assert (IH' : forall skip st, kept st -> kept (FourLineParser.scan skip st lines)).
  { apply (IH (pre ++ [l])%list); [|exact HE | exact HR].
    now rewrite <- app_assoc. }
  rewrite FL_scan_cons. destruct skip as [|k]; [|now apply IH']. cbv zeta.
  destruct (negb (truthy (trim l))); [now apply IH'|].
  destruct (notes_shape (trim l) st) as (pp & rd & ->).
  set (st1 := mkScan (allEntries st) (currentEmployee st) (employeeEntries st) pp rd).
  assert (Hst1 : kept st1) by exact Hst.
  destruct (FourLineParser.employeeHeader (trim l)) as [[n i]|] eqn:Hm.
  - apply IH'. split; [now apply saved_kept|]. split; [|constructor].
    cbn [currentEmployee startEmployee]. eapply HE; [|exact Hm].
    rewrite Hall. apply in_or_app. right. now left.
  - pose proof (HR pre l lines st1 Hall (proj2 (proj2 Hst1))) as Hraw.
    pose proof (FL_timeEntries_same (trim l) lines st1) as Hsame.
    destruct (FourLineParser.timeEntries (trim l) lines st1) as [st2 consumed].
    cbn [fst] in *. destruct Hsame as [Ha Hc].
    assert (Hst2 : kept st2).
    { rewrite Ha, Hc. destruct Hst1 as (H1 & H2 & _). repeat split; assumption. }
    assert (Het : kept (employeeTotals (trim l) st2)).
    { unfold employeeTotals. destruct (includes "Employee Totals" _); [|exact Hst2].
      split; [now apply saved_kept|]. split; [exact I | constructor]. }
    destruct (includes "Report Totals" _); [exact Het | now apply IH'].
Qed.

Lemma FL_parse_kept (text : string) :
  (forall l n i, In l (split SingleLineParser.newline text) ->
     FourLineParser.employeeHeader (trim l) = Some (n, i) -> PE (trim n) (trim i)) ->
  (forall pre l rest st,
     split SingleLineParser.newline text = (pre ++ l :: rest)%list ->
     Forall PR (employeeEntries st) ->
     Forall PR (employeeEntries (fst (FourLineParser.timeEntries (trim l) rest st)))) ->
  Forall PQ (FourLineParser.parseEmployeeData text).
Proof.
  intros HE HR. unfold FourLineParser.parseEmployeeData. cbv zeta.
  apply saved_kept.
  apply (FL_scan_kept (split SingleLineParser.newline text) _ []);
    try assumption; [reflexivity|].
  split; [constructor|]. split; [exact I | constructor].
Qed.

End Invariant.

(** ** The entries of the first revision *)

(** Every entry the first revision returns: a name that is not empty, an
    id made of digits, fields taken from the lists of [parseTimeEntry], a
    date that is one by itself, positive hours, the longest listed rate of
    its line, and a line of the text it stems from. *)
Lemma SL_entries (text : string) :
  Forall (fun e =>
            (truthy (employeeName e) = true
             /\ allChars isDigit (employeeId e) = true
             /\ truthy (employeeId e) = true)
            /\ (In (payType e) SingleLineParser.payTypes
                /\ In (laborRate e) SingleLineParser.laborRates
                /\ In (costCode e) SingleLineParser.costCodes
                /\ In (costCategory e) ["DirLab"; "TechUnapplyd"; "Office"; "CLEARING"])
            /\ (dateOnlyMatch (date e) = Some (date e)
                /\ dateMatch (date e) = Some (date e)
                /\ truthy (date e) = true)
            /\ positive (hours e) = true
            /\ (forall r, In r SingleLineParser.laborRates ->
                  includes r (originalLine e) = true ->
                  includes (laborRate e) (originalLine e) = true
                  /\ String.length r <= String.length (laborRate e))
            /\ (exists l, In l (split SingleLineParser.newline text)
                          /\ originalLine e = trim l
                          /\ dateMatch (trim l) = Some (date e)))
         (SingleLineParser.parseEmployeeData text).
Proof.
  pose proof (SL_parse_kept
    (fun n i => truthy n = true /\ allChars isDigit i = true /\ truthy i = true)
    (fun raw =>
       (In (rawPayType raw) SingleLineParser.payTypes
        /\ In (rawLaborRate raw) SingleLineParser.laborRates
        /\ In (rawCostCode raw) SingleLineParser.costCodes
        /\ In (rawCostCategory raw) ["DirLab"; "TechUnapplyd"; "Office"; "CLEARING"])
       /\ (dateOnlyMatch (rawDate raw) = Some (rawDate raw)
           /\ dateMatch (rawDate raw) = Some (rawDate raw)
           /\ truthy (rawDate raw) = true)
       /\ positive (rawHours raw) = true
       /\ (forall r, In r SingleLineParser.laborRates ->
             includes r (rawOriginalLine raw) = true ->
             includes (rawLaborRate raw) (rawOriginalLine raw) = true
             /\ String.length r <= String.length (rawLaborRate raw))
       /\ (exists l, In l (split SingleLineParser.newline text)
                     /\ rawOriginalLine raw = trim l
                     /\ dateMatch (trim l) = Some (rawDate raw)))
    text) as H.
  cbv beta in H. apply H; clear H.
  - intros l n i _ Hm. now apply anchored_header in Hm.
  - intros l d raw Hin _ Hd Hp.
    pose proof (SL_parseTimeEntry_positive _ _ _ Hp) as Hpos.
    apply SL_parseTimeEntry_fields in Hp
      as (Hdate & _ & Hline & Hpay & Hrate & Hcode & Hcat & Hlong).
    rewrite trim_idem in Hline. rewrite Hdate, Hline.
    split; [repeat split; assumption|].
    split; [now apply dateMatch_shape in Hd|].
    split; [exact Hpos|]. split; [exact Hlong|].
    exists l. repeat split; assumption.
Qed.

(** ** Blank lines and white space around the lines *)

Lemma SL_scan_blank (lines : list string) :
  List.filter (fun l => truthy (trim l)) lines = [] ->
  forall st, SingleLineParser.scan st lines = st.
Proof.
  induction lines as [|l lines IH]; intros H st; [reflexivity|].
  cbn [List.filter] in H. rewrite SL_scan_cons. cbv zeta.
  destruct (truthy (trim l)); [discriminate|]. cbn [negb]. now apply IH.
Qed.

(** The loop of the first revision reads the trimmed lines that are not
    empty, and nothing else of the lines. *)
Lemma SL_scan_trimmed (lines : list string) :
  forall (lines' : list string) (st : Scan),
    map trim (List.filter (fun l => truthy (trim l)) lines)
    = map trim (List.filter (fun l => truthy (trim l)) lines') ->
    SingleLineParser.scan st lines = SingleLineParser.scan st lines'.
Proof.
  induction lines as [|l lines IH]; intros lines' st H.
  - cbn [List.filter map] in H. symmetry. apply SL_scan_blank.
    destruct (List.filter _ lines'); [reflexivity | discriminate].
  - cbn [List.filter] in H. rewrite SL_scan_cons. cbv zeta.
    destruct (truthy (trim l)) eqn:Hl; cbn [negb]; [|now apply IH].
    cbn [map] in H. revert st.
    induction lines' as [|l' lines' IH']; intros st; [discriminate|].
    cbn [List.filter] in H. rewrite (SL_scan_cons st l'). cbv zeta.
    destruct (truthy (trim l')) eqn:Hl'; cbn [negb]; [|now apply IH'].
    cbn [map] in H. injection H as Ht Hrest. rewrite <- Ht.
    destruct (employeeMatchAnchored (trim l)) as [[n i]|]; [now apply IH|].
    destruct (includes "Report Totals" (trim l)); [reflexivity | now apply IH].
Qed.

(** ** Lines in front of the first header *)

Lemma SL_scan_no_employee (lines : list string) :
  Forall (fun l => employeeMatchAnchored (trim l) = None) lines ->
  forall st, currentEmployee st = None ->
    currentEmployee (SingleLineParser.scan st lines) = None
    /\ allEntries (SingleLineParser.scan st lines) = allEntries st.
Proof.
  induction 1 as [|l lines Hl _ IH]; intros st Hst; [now split|].
  rewrite SL_scan_cons. cbv zeta.
  destruct (negb (truthy (trim l))); [now apply IH|].
  rewrite Hl.
  destruct (notes_shape (trim l) st) as (pp & rd & ->). rewrite Hst.
  unfold SingleLineParser.timeEntries. cbn [currentEmployee].
  unfold employeeTotals, saved. cbn [currentEmployee allEntries].
  destruct (includes "Employee Totals" (trim l));
    (destruct (includes "Report Totals" (trim l)); [now split|]);
    match goal with
    | |- context [SingleLineParser.scan ?s lines] =>
        destruct (IH s eq_refl) as [H1 H2]; split; [exact H1 | now rewrite H2]
    end.
Qed.

Lemma FL_scan_no_employee (lines : list string) :
  Forall (fun l => FourLineParser.employeeHeader (trim l) = None) lines ->
  forall skip st, currentEmployee st = None ->
    currentEmployee (FourLineParser.scan skip st lines) = None
    /\ allEntries (FourLineParser.scan skip st lines) = allEntries st.
Proof.
  induction 1 as [|l lines Hl _ IH]; intros skip st Hst; [now split|].
  rewrite FL_scan_cons. destruct skip as [|k]; [|now apply IH]. cbv zeta.
  destruct (negb (truthy (trim l))); [now apply IH|].
  rewrite Hl.
  destruct (notes_shape (trim l) st) as (pp & rd & ->). rewrite Hst.
  unfold FourLineParser.timeEntries. cbn [currentEmployee].
  unfold employeeTotals, saved. cbn [currentEmployee allEntries].
  destruct (includes "Employee Totals" (trim l));
    (destruct (includes "Report Totals" (trim l)); [now split|]);
    match goal with
    | |- context [FourLineParser.scan ?k ?s lines] =>
        destruct (IH k s eq_refl) as [H1 H2]; split; [exact H1 | now rewrite H2]
    end.
Qed.

Lemma saved_no_employee (st : Scan) :
  currentEmployee st = None -> saved st = allEntries st.
Proof. intros H. unfold saved. now rewrite H. Qed.

(** ** The entries of the second revision *)

Lemma orDefault_truthy (a : list string) (i : nat) (d : string) :
  truthy d = true -> truthy (FourLineParser.orDefault a i d) = true.
Proof.
  intros Hd. unfold FourLineParser.orDefault.
  destruct (a !! i) as [s|]; [|exact Hd].
  destruct (truthy s) eqn:Hs; [exact Hs | exact Hd].
Qed.

Lemma dateOnlyMatch_shape (t d : string) :
  dateOnlyMatch t = Some d ->
  dateOnlyMatch d = Some d /\ dateMatch d = Some d /\ truthy d = true.
Proof.
  unfold dateOnlyMatch at 1. intros H.
  destruct (dateAt t) as [[d' r]|] eqn:E; [|discriminate].
  cbn [mbind option_bind] in H. destruct (truthy r); [discriminate|].
  inversion H; subst d'. clear H.
  apply dateAt_shape in E as [_ E]. split; [|split].
  - unfold dateOnlyMatch. now rewrite E.
  - unfold dateMatch, search. destruct d as [|c d]; cbn [searchFrom]; now rewrite E.
  - destruct d; [cbn in E; discriminate | reflexivity].
Qed.

(** What the four lines of an entry give: a date that is one by itself,
    a pay type, a labor rate, a cost code and a cost category that are not
    empty, and the four lines themselves. *)
Local Abbreviation shaped lines :=
  (fun raw : RawEntry =>
     ((dateOnlyMatch (rawDate raw) = Some (rawDate raw)
       /\ dateMatch (rawDate raw) = Some (rawDate raw)
       /\ truthy (rawDate raw) = true)
      /\ truthy (rawPayType raw) = true /\ truthy (rawLaborRate raw) = true
      /\ truthy (rawCostCode raw) = true /\ truthy (rawCostCategory raw) = true)
     /\ exists pre l0 l1 l2 l3 post code after,
          lines = (pre ++ l0 :: l1 :: l2 :: l3 :: post)%list
          /\ FourLineParser.jobCodeMatch (trim l0) = Some (code, after)
          /\ rawJobCode raw = code /\ rawJobDescription raw = trim after
          /\ rawDate raw = trim l1
          /\ hoursOnlyMatch (trim l2) <> None
          /\ includes " - " (trim l3) = true
          /\ rawOriginalLine raw
             = trim l0 ++ " " ++ trim l1 ++ " " ++ trim l2 ++ " " ++ trim l3).

(** A line that is a date is the date. *)
Lemma dateOnlyMatch_whole (t d : string) : dateOnlyMatch t = Some d -> d = t.
Proof.
  unfold dateOnlyMatch. intros H.
  destruct (dateAt t) as [[d' r]|] eqn:E; [|discriminate].
  cbn [mbind option_bind] in H. destruct (truthy r) eqn:Hr; [discriminate|].
  inversion H; subst d'. apply falsy_empty in Hr. subst r.
  apply dateAt_shape in E as [E _]. now rewrite append_nil in E.
Qed.

Lemma FL_timeEntries_shaped (lines pre : list string) (l : string)
    (rest : list string) (st : Scan) :
  lines = (pre ++ l :: rest)%list ->
  Forall (shaped lines) (employeeEntries st) ->
  Forall (shaped lines)
         (employeeEntries (fst (FourLineParser.timeEntries (trim l) rest st))).
Proof.
  intros Hlines Hst. unfold FourLineParser.timeEntries. destruct st as [a c es pp rd].
  cbn [currentEmployee employeeEntries] in *. destruct c; [|exact Hst].
  destruct (FourLineParser.jobCodeMatch (trim l)) as [[jc ac]|] eqn:Hj; [|exact Hst].
  destruct rest as [|l1 [|l2 [|l3 after]]]; try exact Hst. cbv zeta.
  destruct (dateOnlyMatch (trim l1)) as [d|] eqn:Hd; [|exact Hst].
  destruct (hoursOnlyMatch (trim l2)) as [[ip fp]|] eqn:Hh; [|exact Hst].
  destruct (includes " - " (trim l3)) eqn:Hi; [|exact Hst].
  cbn [fst pushEntry employeeEntries]. unfold push. apply Forall_app.
  split; [exact Hst|]. constructor; [|constructor].
  cbn [rawDate rawPayType rawLaborRate rawCostCode rawCostCategory rawJobCode
       rawJobDescription rawOriginalLine].
  split.
  - split; [now apply dateOnlyMatch_shape in Hd|].
    repeat split; now apply orDefault_truthy.
  - exists pre, l, l1, l2, l3, after, jc, ac.
    repeat split; try assumption; try reflexivity.
    + now apply dateOnlyMatch_whole.
    + now rewrite Hh.
Qed.

(** Every entry the second revision returns: a name that is not empty, an
    id made of digits, a date that is one by itself, fields that are not
    empty, and four lines of the text in a row that it stems from. *)
Lemma FL_entries (text : string) :
  Forall (fun e =>
            (truthy (employeeName e) = true
             /\ allChars isDigit (employeeId e) = true
             /\ truthy (employeeId e) = true)
            /\ ((dateOnlyMatch (date e) = Some (date e)
                 /\ dateMatch (date e) = Some (date e)
                 /\ truthy (date e) = true)
                /\ truthy (payType e) = true /\ truthy (laborRate e) = true
                /\ truthy (costCode e) = true /\ truthy (costCategory e) = true)
            /\ exists pre l0 l1 l2 l3 post code after,
                 split SingleLineParser.newline text
                 = (pre ++ l0 :: l1 :: l2 :: l3 :: post)%list
                 /\ FourLineParser.jobCodeMatch (trim l0) = Some (code, after)
                 /\ jobCode e = code /\ jobDescription e = trim after
                 /\ date e = trim l1
                 /\ hoursOnlyMatch (trim l2) <> None
                 /\ includes " - " (trim l3) = true
                 /\ originalLine e
                    = trim l0 ++ " " ++ trim l1 ++ " " ++ trim l2 ++ " " ++ trim l3)
         (FourLineParser.parseEmployeeData text).
Proof.
  pose proof (FL_parse_kept
    (fun n i => truthy n = true /\ allChars isDigit i = true /\ truthy i = true)
    (shaped (split SingleLineParser.newline text)) text) as H.
  cbv beta in H. apply H; clear H.
  - intros l n i _ Hm. now apply spaced_header in Hm.
  - intros pre l rest st Hl. now apply (FL_timeEntries_shaped _ pre).
Qed.

(** ** The validation of what was parsed *)

(** An entry with a name, a date, a pay type and a labor rate: the hours
    alone can be an error. *)
Lemma entryErrors_hours (index : nat) (e : Entry) :
  truthy (employeeName e) = true -> truthy (date e) = true ->
  dateMatch (date e) = Some (date e) ->
  truthy (payType e) = true -> truthy (laborRate e) = true ->
  entryErrors index e
  = if positive (hours e) then []
    else ["Entry " ++ showIndex index ++ ": Invalid hours"].
Proof.
  intros Hn Hd Hm Hp Hr. unfold entryErrors, dateTest. cbv zeta.
  rewrite Hn, Hd, Hm, Hp, Hr. cbn [negb orb].
  now destruct (positive (hours e)).
Qed.

Lemma concat_nil_all {A : Type} (l : list (list A)) :
  Forall (fun x => x = []) l -> concat l = [].
Proof. induction 1 as [|x l Hx _ IH]; cbn; [reflexivity | now rewrite Hx, IH]. Qed.

Lemma nonempty_truthy (s : string) (l : list string) :
  In s l -> Forall (fun x => truthy x = true) l -> truthy s = true.
Proof. intros Hin Hall. rewrite List.Forall_forall in Hall. now apply Hall. Qed.

Lemma validationErrors_eq (g : nat -> Entry -> list string) (l : list Entry) :
  Forall (fun e => forall index, entryErrors index e = g index e) l ->
  validationErrors l = concat (imap g l).
Proof.
  intros H. unfold validationErrors. f_equal. apply imap_ext.
  intros i x Hx. rewrite Forall_forall in H. apply H.
  eapply list_elem_of_lookup_2; exact Hx.
Qed.

Lemma concat_imap_nil {A B : Type} (l : list A) :
  forall f : nat -> A -> list B,
    (forall i x, f i x = []) -> concat (imap f l) = [].
Proof.
  induction l as [|x l IH]; intros f Hf; [reflexivity|].
  rewrite imap_cons. cbn [concat]. rewrite Hf. cbn [app].
  apply IH. intros i y. apply Hf.
Qed.

(** A property of every element of a list, by a test that computes. *)
Lemma Forall_by_test {A : Type} (test : A -> bool) (P : A -> Prop) (l : list A) :
  forallb test l = true -> (forall x, test x = true -> P x) -> Forall P l.
Proof.
  intros Hb Ht. apply List.Forall_forall. intros x Hx.
  apply Ht. rewrite forallb_forall in Hb. now apply Hb.
Qed.

End ParsedFacts.

(* ================================================================== *)
(** * Further properties of the code *)
(* ================================================================== *)

Import ChangeLog PipelineFacts MoreExamples.

(** X1: the change list of an entry is its audit trail.  Applied in their
    order to the entry given to applyRules, each change finding in its
    field the original value it records, the changes give the corrected
    entry; and every change carries the employee name, the employee id and
    the date of that entry. *)
Theorem change_list_replays (isSunday : string -> bool) (e : Entry) :
  exists e' changes,
    applyRulesTo isSunday e = Some (e', changes)
    /\ replay changes e = Some e'
    /\ Forall (recordOf e) changes.
Proof.
  exists (fst (corrected isSunday e)), (snd (corrected isSunday e)).
  destruct (corrected_log isSunday e) as (Hr & Ho & _).
  split; [apply applyRulesTo_pair | split; assumption].
Qed.

(** X2: the rule labels of the changes of one entry follow the order of the
    rules and none occurs twice: they form a subsequence of the eight
    labels (rule 4 has one for the pay type and one for the rate). *)
Theorem change_labels_in_rule_order (isSunday : string -> bool) (e : Entry) :
  exists e' changes,
    applyRulesTo isSunday e = Some (e', changes)
    /\ sublist (map chRule changes) ruleLabels
    /\ NoDup (map chRule changes).
Proof.
  exists (fst (corrected isSunday e)), (snd (corrected isSunday e)).
  destruct (corrected_log isSunday e) as (_ & _ & Hs).
  split; [apply applyRulesTo_pair | split; [exact Hs|]].
  refine (sublist_NoDup _ _ _ Hs). unfold ruleLabels.
  repeat (constructor;
          [intros H;
           repeat (apply elem_of_cons in H as [H|H]; [discriminate H|]);
           inversion H|]).
  constructor.
Qed.

(** X3: an entry gets four changes at most, and three at most when its
    date is no Sunday; both bounds are reached. *)
Theorem at_most_four_changes :
  (forall (isSunday : string -> bool) (e : Entry),
     exists e' changes,
       applyRulesTo isSunday e = Some (e', changes)
       /\ length changes <= (if isSunday (date e) then 4 else 3))
  /\ (exists e' changes,
        applyRulesTo Moment.isSundayMDY busySunday = Some (e', changes)
        /\ length changes = 4)
  /\ (exists e' changes,
        applyRulesTo Moment.isSundayMDY busyMonday = Some (e', changes)
        /\ Moment.isSundayMDY (date busyMonday) = false
        /\ length changes = 3).
Proof.
  split; [|split].
  - intros isSunday e.
    exists (fst (corrected isSunday e)), (snd (corrected isSunday e)).
    split; [apply applyRulesTo_pair | apply corrected_count].
  - eexists _, _. split; [vm_compute; reflexivity | reflexivity].
  - eexists _, _. split; [vm_compute; reflexivity | split; reflexivity].
Qed.

(** X4: the pay type of the corrected entry depends on the cost code, the
    date, the cost category and the pay type of the entry alone: Regular
    for an office cost code, else Double Time on a Sunday, else Unapplied
    for the cost category TechUnapplyd, else the pay type of the entry. *)
Theorem corrected_pay_type (isSunday : string -> bool) (e : Entry) :
  exists e' changes,
    applyRulesTo isSunday e = Some (e', changes)
    /\ payType e' =
       (if arrayIncludes OFFICE_COST_CODES (toUpperCase (costCode e)) then "Regular"
        else if isSunday (date e) then "Double Time"
        else if String.eqb (costCategory e) "TechUnapplyd" then "Unapplied"
        else payType e).
Proof.
  exists (fst (corrected isSunday e)), (snd (corrected isSunday e)).
  split; [apply applyRulesTo_pair | apply corrected_payType].
Qed.

(** X5: on the corrected entry the conditions of rules 5, 6 and 7 never
    hold; the condition of rule 4 holds exactly when the date is a Sunday
    and the cost code an office code, and the condition of rule 1 exactly
    when the cost category is TechUnapplyd and the date is a Sunday or the
    cost code an office code. *)
Theorem corrected_entry_conditions (isSunday : string -> bool) (e : Entry) :
  exists e' changes,
    applyRulesTo isSunday e = Some (e', changes)
    /\ fires5 e' = false /\ fires6 e' = false /\ fires7 e' = false
    /\ fires4 isSunday e'
       = isSunday (date e)
         && arrayIncludes OFFICE_COST_CODES (toUpperCase (costCode e))
    /\ fires1 e'
       = String.eqb (costCategory e) "TechUnapplyd"
         && (arrayIncludes OFFICE_COST_CODES (toUpperCase (costCode e))
             || isSunday (date e)).
Proof.
  exists (fst (corrected isSunday e)), (snd (corrected isSunday e)).
  split; [apply applyRulesTo_pair | apply corrected_residual].
Qed.

(** X6: applyRules corrects the entries one by one and independently: the
    corrected entries are, in order, what applyRules gives for each entry
    alone, and the list of changes is the concatenation, in the order of
    the entries, of the changes of each. *)
Theorem applyRules_entry_by_entry (isSunday : string -> bool) (refs : list ref)
    (es : list Entry) (σ : Store) :
  Forall2 (fun r e => σ !! r = Some e) refs es ->
  exists correctedData changes σ' results,
    applyRules isSunday refs σ = Some ((correctedData, changes), σ')
    /\ Forall2 (fun e result => applyRulesTo isSunday e = Some result) es results
    /\ Forall2 (fun r result => σ' !! r = Some (fst result)) correctedData results
    /\ changes = concat (map snd results).
Proof.
  intros Hrefs. unfold applyRules.
  rewrite (applyRulesLoop_eq isSunday refs es σ [] [] Hrefs). cbn [app].
  exists (seq (length σ) (length refs)),
    (concat (map (fun e => snd (corrected isSunday e)) es)),
    (σ ++ map (fun e => fst (corrected isSunday e)) es)%list,
    (map (corrected isSunday) es).
  split; [reflexivity|]. split; [|split].
  - apply Forall2_fmap_r, Forall_Forall2_diag, Forall_forall.
    intros e _. apply applyRulesTo_eq.
  - apply Forall2_fmap_r.
    pose proof (lookup_appended (map (fun e => fst (corrected isSunday e)) es) σ) as H.
    rewrite length_map, <- (Forall2_length _ _ _ Hrefs) in H.
    now apply Forall2_fmap_r in H.
  - now rewrite map_map.
Qed.

Lemma applyRules_entry_by_entry_witness :
  exists correctedData changes σ' results,
    applyRules Moment.isSundayMDY [0; 1] [busySunday; busyMonday]
    = Some ((correctedData, changes), σ')
    /\ Forall2 (fun e result => applyRulesTo Moment.isSundayMDY e = Some result)
               [busySunday; busyMonday] results
    /\ Forall2 (fun r result => σ' !! r = Some (fst result)) correctedData results
    /\ changes = concat (map snd results).
Proof.
  apply (applyRules_entry_by_entry Moment.isSundayMDY [0; 1]
           [busySunday; busyMonday] [busySunday; busyMonday]).
  repeat constructor.
Defined.

Import JSObject ChangeSummary SummaryFacts ReportGroups GroupFacts.

(** X7: getSummary counts every change once in each of its three tables.
    The total is the number of changes; for a key that is no property name
    of Object.prototype, a table holds the number of changes with that key
    (and no entry when there is none); and a table none of whose keys is
    such a name adds up to the total. *)
Theorem summary_counts (changes : list Change) :
  totalChanges (getSummary changes) = length changes
  /\ (forall k : string,
        inherited k = false ->
        own k (changesByRule (getSummary changes))
        = counted (countOf chRule k changes)
        /\ own k (changesByEmployee (getSummary changes))
           = counted (countOf chEmployeeName k changes)
        /\ own k (changesByField (getSummary changes))
           = counted (countOf chField k changes))
  /\ (Forall (fun c => inherited (chRule c) = false) changes ->
      sumCounts (changesByRule (getSummary changes)) = Some (length changes))
  /\ (Forall (fun c => inherited (chEmployeeName c) = false) changes ->
      sumCounts (changesByEmployee (getSummary changes)) = Some (length changes))
  /\ (Forall (fun c => inherited (chField c) = false) changes ->
      sumCounts (changesByField (getSummary changes)) = Some (length changes)).
Proof. exact (getSummary_counts changes). Qed.

Lemma summary_counts_witness :
  inherited "payType" = false
  /\ own "payType" (changesByField (getSummary sampleChanges)) = Some (Num 2)
  /\ Forall (fun c => inherited (chEmployeeName c) = false) sampleChanges
  /\ sumCounts (changesByEmployee (getSummary sampleChanges)) = Some 3.
Proof.
  destruct (summary_counts sampleChanges) as (_ & Hown & _ & Hemp & _).
  assert (Hk : inherited "payType" = false) by reflexivity.
  assert (Hall : Forall (fun c => inherited (chEmployeeName c) = false) sampleChanges)
    by (repeat constructor).
  split; [exact Hk|]. split; [|split; [exact Hall|]].
  - destruct (Hown "payType" Hk) as (_ & _ & H). exact H.
  - exact (Hemp Hall).
Defined.

(** X8: on the changes applyRules returns, the tables by rule and by field
    of getSummary add up to the total, whatever the entries; the table by
    rule holds none but the eight rule labels and the table by field none
    but payType and laborRate. *)
Theorem summary_of_applyRules (isSunday : string -> bool) (refs : list ref)
    (es : list Entry) (σ : Store) :
  Forall2 (fun r e => σ !! r = Some e) refs es ->
  exists correctedData changes σ',
    applyRules isSunday refs σ = Some ((correctedData, changes), σ')
    /\ sumCounts (changesByRule (getSummary changes))
       = Some (totalChanges (getSummary changes))
    /\ sumCounts (changesByField (getSummary changes))
       = Some (totalChanges (getSummary changes))
    /\ (forall k, own k (changesByRule (getSummary changes)) <> None ->
                  In k ruleLabels)
    /\ (forall k, own k (changesByField (getSummary changes)) <> None ->
                  k = "payType" \/ k = "laborRate").
Proof.
  intros Hrefs. unfold applyRules.
  rewrite (applyRulesLoop_eq isSunday refs es σ [] [] Hrefs).
  eexists _, _, _. split; [reflexivity|]. cbn [app].
  set (changes := concat (map (fun e => snd (corrected isSunday e)) es)).
  assert (Hall : Forall (fun c => (chField c = "payType" \/ chField c = "laborRate")
                                  /\ In (chRule c) ruleLabels) changes).
  { subst changes. clear Hrefs. induction es as [|e es IH]; [constructor|].
    cbn [map concat]. apply Forall_app. split; [apply corrected_fields | exact IH]. }
  destruct (getSummary_counts changes) as (Htot & _ & Hrule & _ & Hfield).
  rewrite Htot.
  split; [|split; [|split]].
  - apply Hrule. eapply Forall_impl; [exact Hall|].
    intros c [_ Hin]. unfold ruleLabels in Hin. cbn [In] in Hin.
    repeat (destruct Hin as [<-|Hin]; [reflexivity|]). destruct Hin.
  - apply Hfield. eapply Forall_impl; [exact Hall|].
    intros c [[->| ->] _]; reflexivity.
  - intros k Hk. unfold getSummary in Hk. rewrite getSummary_tables in Hk.
    cbn [changesByRule] in Hk. apply counts_keys in Hk as [Hk|Hk]; [now cbn in Hk|].
    apply Exists_exists in Hk as (c & Hc & <-).
    rewrite Forall_forall in Hall. now apply Hall.
  - intros k Hk. unfold getSummary in Hk. rewrite getSummary_tables in Hk.
    cbn [changesByField] in Hk. apply counts_keys in Hk as [Hk|Hk]; [now cbn in Hk|].
    apply Exists_exists in Hk as (c & Hc & <-).
    rewrite Forall_forall in Hall. now apply Hall.
Qed.

Lemma summary_of_applyRules_witness :
  exists correctedData changes σ',
    applyRules Moment.isSundayMDY [0; 1] [busySunday; busyMonday]
    = Some ((correctedData, changes), σ')
    /\ sumCounts (changesByRule (getSummary changes))
       = Some (totalChanges (getSummary changes))
    /\ sumCounts (changesByField (getSummary changes))
       = Some (totalChanges (getSummary changes))
    /\ (forall k, own k (changesByRule (getSummary changes)) <> None ->
                  In k ruleLabels)
    /\ (forall k, own k (changesByField (getSummary changes)) <> None ->
                  k = "payType" \/ k = "laborRate").
Proof.
  apply (summary_of_applyRules Moment.isSundayMDY [0; 1]
           [busySunday; busyMonday] [busySunday; busyMonday]).
  repeat constructor.
Defined.

(** X9: groupByEmployee never fails, the key of an entry, which holds
    " - ", being no property name of Object.prototype.  The keys of the
    object it returns come in the order of their first occurrence in the
    data, each once; the group of a key holds the entries of that key, all
    of them and in their order; no group is empty. *)
Theorem groups_partition_the_data (data : list Entry) :
  exists grouped,
    groupByEmployee data = Some grouped
    /\ map fst grouped = firstKeys [] data
    /\ NoDup (map fst grouped)
    /\ (forall k,
          own k grouped
          = match List.filter (fun e => String.eqb (employeeKey e) k) data with
            | [] => None
            | entries => Some entries
            end)
    /\ Forall (fun group =>
                 snd group
                 = List.filter (fun e => String.eqb (employeeKey e) (fst group)) data
                 /\ snd group <> [])
              grouped.
Proof. exact (groupByEmployee_spec data). Qed.

Import ParsedData ParsedFacts.

(** X10: in the first revision of the parser, the pay type, the labor
    rate, the cost code and the cost category of every entry returned come
    from the lists of parseTimeEntry; the cost category is never
    "TechUnapplied", which is turned into "TechUnapplyd". *)
Theorem parsed_fields_from_lists (text : string) :
  Forall (fun e =>
            In (payType e) SingleLineParser.payTypes
            /\ In (laborRate e) SingleLineParser.laborRates
            /\ In (costCode e) SingleLineParser.costCodes
            /\ In (costCategory e) ["DirLab"; "TechUnapplyd"; "Office"; "CLEARING"]
            /\ costCategory e <> "TechUnapplied")
         (SingleLineParser.parseEmployeeData text).
Proof.
  eapply Forall_impl; [apply SL_entries|].
  intros e (_ & (Hp & Hr & Hc & Hcat) & _). repeat split; try assumption.
  intros E. rewrite E in Hcat. cbn in Hcat.
  repeat (destruct Hcat as [Hcat|Hcat]; [discriminate Hcat|]). exact Hcat.
Qed.

(** X11: every entry the first revision returns stems from a line of the
    text: its originalLine is that line trimmed, its date is the first
    date on the line, and the date is one by itself (one or two digits, a
    slash, one or two digits, a slash, four digits). *)
Theorem parsed_entries_stem_from_lines (text : string) :
  Forall (fun e =>
            (exists line, In line (split SingleLineParser.newline text)
                          /\ originalLine e = trim line
                          /\ dateMatch (trim line) = Some (date e))
            /\ dateOnlyMatch (date e) = Some (date e))
         (SingleLineParser.parseEmployeeData text).
Proof.
  eapply Forall_impl; [apply SL_entries|].
  intros e (_ & _ & (Hd & _) & _ & _ & Hl). split; assumption.
Qed.

(** X12: the labor rate of an entry the first revision returns is the
    longest rate of the list that its line holds: when the line holds a
    rate of the list, it holds the labor rate of the entry, and no rate of
    the list that the line holds is longer. *)
Theorem parsed_rate_is_longest (text : string) :
  Forall (fun e =>
            forall rate, In rate SingleLineParser.laborRates ->
              includes rate (originalLine e) = true ->
              includes (laborRate e) (originalLine e) = true
              /\ String.length rate <= String.length (laborRate e))
         (SingleLineParser.parseEmployeeData text).
Proof.
  eapply Forall_impl; [apply SL_entries|].
  intros e (_ & _ & _ & _ & Hl & _). exact Hl.
Qed.

Lemma parsed_rate_is_longest_witness :
  Forall (fun e =>
            includes "WN TECH" (originalLine e) = true ->
            includes (laborRate e) (originalLine e) = true
            /\ String.length "WN TECH" <= String.length (laborRate e))
         (SingleLineParser.parseEmployeeData twoEmployeesText).
Proof.
  eapply Forall_impl; [apply (parsed_rate_is_longest twoEmployeesText)|].
  intros e H. apply H. cbn. tauto.
Defined.

(** X13: in both revisions the employee name of every entry returned is
    not empty and the employee id is a string of digits, not empty
    either. *)
Theorem parsed_employee_name_and_id (text : string) :
  Forall (fun e => truthy (employeeName e) = true
                   /\ allChars isDigit (employeeId e) = true
                   /\ truthy (employeeId e) = true)
         (SingleLineParser.parseEmployeeData text)
  /\ Forall (fun e => truthy (employeeName e) = true
                      /\ allChars isDigit (employeeId e) = true
                      /\ truthy (employeeId e) = true)
            (FourLineParser.parseEmployeeData text).
Proof.
  split.
  - eapply Forall_impl; [apply SL_entries|]. intros e (H & _). exact H.
  - eapply Forall_impl; [apply FL_entries|]. intros e (H & _). exact H.
Qed.

(** X14: every entry the second revision returns has a date that is one
    by itself, and a pay type, a labor rate, a cost code and a cost
    category that are not empty, the defaults standing in for a part the
    line of fields leaves empty. *)
Theorem four_line_entries_shape (text : string) :
  Forall (fun e => dateOnlyMatch (date e) = Some (date e)
                   /\ truthy (payType e) = true /\ truthy (laborRate e) = true
                   /\ truthy (costCode e) = true /\ truthy (costCategory e) = true)
         (FourLineParser.parseEmployeeData text).
Proof.
  eapply Forall_impl; [apply FL_entries|].
  intros e (_ & ((Hd & _) & H) & _). split; assumption.
Qed.

(** X15: validateData finds no error in what the first revision of
    parseEmployeeData returns; in what the second revision returns it
    finds no error but "Invalid hours", and that one for exactly the
    entries whose hours are not positive, as for the entry of hours 0. *)
Theorem parsed_data_validation :
  (forall text : string,
     validationErrors (SingleLineParser.parseEmployeeData text) = []
     /\ validationErrors (FourLineParser.parseEmployeeData text)
        = concat (imap (fun index e =>
                          if positive (hours e) then []
                          else ["Entry " ++ showIndex index ++ ": Invalid hours"])
                       (FourLineParser.parseEmployeeData text)))
  /\ validationErrors (FourLineParser.parseEmployeeData zeroHoursText)
     = ["Entry 0: Invalid hours"].
Proof.
  split; [|vm_compute; reflexivity].
  intros text. split.
  - rewrite (validationErrors_eq (fun _ _ => [])).
    + now apply concat_imap_nil.
    + eapply Forall_impl; [apply SL_entries|].
      intros e ((Hn & _) & (Hp & Hr & _) & (_ & Hm & Hd) & Hpos & _) index.
      rewrite entryErrors_hours; try assumption; [now rewrite Hpos | |].
      * eapply nonempty_truthy; [exact Hp | repeat constructor].
      * eapply nonempty_truthy; [exact Hr | repeat constructor].
  - apply validationErrors_eq.
    eapply Forall_impl; [apply FL_entries|].
    intros e ((Hn & _) & ((_ & Hm & Hd) & Hp & Hr & _) & _) index.
    now apply entryErrors_hours.
Qed.

(** X16: the first revision reads the trimmed lines that are not empty and
    nothing else of the text: two texts with the same such lines in the
    same order give the same entries. *)
Theorem blank_lines_ignored (text text' : string) :
  map trim (List.filter (fun l => truthy (trim l))
                        (split SingleLineParser.newline text))
  = map trim (List.filter (fun l => truthy (trim l))
                          (split SingleLineParser.newline text')) ->
  SingleLineParser.parseEmployeeData text
  = SingleLineParser.parseEmployeeData text'.
Proof.
  intros H. unfold SingleLineParser.parseEmployeeData. cbv zeta.
  now rewrite (SL_scan_trimmed _ _ initial H).
Qed.

Lemma blank_lines_ignored_witness :
  SingleLineParser.parseEmployeeData twoEmployeesSpaced
  = SingleLineParser.parseEmployeeData twoEmployeesText
  /\ length (SingleLineParser.parseEmployeeData twoEmployeesSpaced) = 4.
Proof.
  split.
  - apply blank_lines_ignored. vm_compute. reflexivity.
  - vm_compute. reflexivity.
Defined.

(** X17: no entry without an employee: a text none of whose lines is taken
    for an employee header gives no entry, in either revision. *)
Theorem no_header_no_entries (text : string) :
  (Forall (fun l => employeeMatchAnchored (trim l) = None)
          (split SingleLineParser.newline text) ->
   SingleLineParser.parseEmployeeData text = [])
  /\ (Forall (fun l => FourLineParser.employeeHeader (trim l) = None)
             (split SingleLineParser.newline text) ->
      FourLineParser.parseEmployeeData text = []).
Proof.
  split; intros H.
  - unfold SingleLineParser.parseEmployeeData. cbv zeta.
    destruct (SL_scan_no_employee _ H initial eq_refl) as [Hc Ha].
    now rewrite (saved_no_employee _ Hc), Ha.
  - unfold FourLineParser.parseEmployeeData. cbv zeta.
    destruct (FL_scan_no_employee _ H 0 initial eq_refl) as [Hc Ha].
    now rewrite (saved_no_employee _ Hc), Ha.
Qed.

Lemma no_header_no_entries_witness :
  SingleLineParser.parseEmployeeData noHeaderText = []
  /\ FourLineParser.parseEmployeeData noHeaderText = [].
Proof.
  destruct (no_header_no_entries noHeaderText) as [H1 H2]. split.
  - apply H1.
    apply (Forall_by_test
             (fun l => match employeeMatchAnchored (trim l) with
                       | None => true
                       | Some _ => false
                       end)); [vm_compute; reflexivity|].
    intros l. now destruct (employeeMatchAnchored (trim l)).
  - apply H2.
    apply (Forall_by_test
             (fun l => match FourLineParser.employeeHeader (trim l) with
                       | None => true
                       | Some _ => false
                       end)); [vm_compute; reflexivity|].
    intros l. now destruct (FourLineParser.employeeHeader (trim l)).
Defined.

(** X18: rule 7 never assigns to an entry the first revision of the parser
    returns: parseTimeEntry knows seven cost codes, none of them an office
    code, so that no change of such an entry comes from rule 7. *)
Theorem parsed_entries_escape_rule7 (isSunday : string -> bool) (text : string) :
  Forall (fun e =>
            fires7 e = false
            /\ exists e' changes,
                 applyRulesTo isSunday e = Some (e', changes)
                 /\ Forall (fun c => chRule c <> "Rule 7: Office Override") changes)
         (SingleLineParser.parseEmployeeData text).
Proof.
  eapply Forall_impl; [apply SL_entries|].
  intros e (_ & (_ & _ & Hc & _) & _).
  pose proof (no_office_code _ Hc) as Hoff. split.
  - unfold fires7. now rewrite Hoff.
  - exists (fst (corrected isSunday e)), (snd (corrected isSunday e)).
    split; [apply applyRulesTo_pair | now apply corrected_without_rule7].
Qed.

(** X19: every entry the second revision returns stems from four lines of
    the text in a row: a line with a job code in front, which gives the
    job code and the job description; a line that is a date, which is the
    date of the entry; a line that is a number of hours; and a line that
    holds " - ".  The originalLine of the entry is the four lines, trimmed
    and joined by spaces. *)
Theorem four_line_entries_stem_from_lines (text : string) :
  Forall (fun e =>
            exists pre l0 l1 l2 l3 post code after,
              split SingleLineParser.newline text
              = (pre ++ l0 :: l1 :: l2 :: l3 :: post)%list
              /\ FourLineParser.jobCodeMatch (trim l0) = Some (code, after)
              /\ jobCode e = code /\ jobDescription e = trim after
              /\ date e = trim l1
              /\ hoursOnlyMatch (trim l2) <> None
              /\ includes " - " (trim l3) = true
              /\ originalLine e
                 = trim l0 ++ " " ++ trim l1 ++ " " ++ trim l2 ++ " " ++ trim l3)
         (FourLineParser.parseEmployeeData text).
Proof.
  eapply Forall_impl; [apply FL_entries|].
  intros e (_ & _ & H). exact H.
Qed.
